(** * carl-torch: the estimator life cycle of [ml/base.py] and [ml/ratio.py]

    A shallow embedding of [Estimator], [ConditionalEstimator] and
    [RatioEstimator]: the settings codec, the input and parameter scalers,
    save and load, training orchestration and evaluation.

    Conventions.
    - Python floats are idealised as rationals ([Q]).  The one place where
      the two modules produce a [nan] from finite data, the statistics of an
      array without samples, is modelled: the reductions answer [None] for
      it, and the estimator holds it as [float_nan], a value about which
      nothing is assumed.  The only numeric primitive that is not rational,
      the square root under [np.std], is a parameter.
    - An exception does not undo assignments already made: a computation is
      a function from the state to an outcome and the state it leaves.
    - numpy arrays have at most two dimensions, as the training bundle
      prescribes; the torch tensor branch of the scalers is not modelled.
    - Everything the two modules import from elsewhere (the array loader,
      model construction, loss and optimizer factories, the trainer, the
      evaluators, plotting) is a field of the class [Externals]. *)

From Stdlib Require Import ZArith QArith Qround String List Lia.
From stdpp Require Import base option gmap strings list fin_maps pretty.
Import ListNotations.

Local Open Scope string_scope.
Local Open Scope Z_scope.
#[local] Set Warnings "-register-all".

(** ** Exceptions and outcomes *)

Inductive exn_class :=
| TypeError | KeyError | ValueError | RuntimeError | AttributeError
| IndexError | AssertionError | ZeroDivisionError | FileNotFoundError
| AxisError | OtherError.

#[global] Instance exn_class_eq_dec : EqDecision exn_class.
Proof. solve_decision. Defined.

Record exn := Exn { exn_kind : exn_class; exn_msg : string }.

Inductive result (A : Type) :=
| Ok (a : A)
| Raise (e : exn).
Arguments Ok {A} a.
Arguments Raise {A} e.

Definition is_ok {A} (r : result A) : bool :=
  match r with Ok _ => true | Raise _ => false end.

Definition raised {A} (r : result A) : option exn :=
  match r with Ok _ => None | Raise e => Some e end.

Definition raised_class {A} (r : result A) : option exn_class :=
  exn_kind <$> raised r.

(** [o is not None] *)
Definition not_None {A} (o : option A) : bool :=
  match o with Some _ => true | None => false end.

Definition rbind {A B} (r : result A) (k : A -> result B) : result B :=
  match r with Ok a => k a | Raise e => Raise e end.

(** [[f(item) for item in l]]: left to right, the first failure wins. *)
Fixpoint rmap {A B} (f : A -> result B) (l : list A) : result (list B) :=
  match l with
  | [] => Ok []
  | a :: l' => rbind (f a) (fun b => rbind (rmap f l') (fun bs => Ok (b :: bs)))
  end.

(** ** Stateful computations that may raise

    [M S A] runs on a state of type [S]; the state it returns is the one
    left behind, also when the outcome is an exception. *)

Definition M (S A : Type) : Type := S -> result A * S.

Definition ret {S A} (a : A) : M S A := fun s => (Ok a, s).
Definition raise {S A} (e : exn) : M S A := fun s => (Raise e, s).
Definition bind {S A B} (c : M S A) (k : A -> M S B) : M S B :=
  fun s => match c s with
           | (Ok a, s') => k a s'
           | (Raise e, s') => (Raise e, s')
           end.
Definition lift {S A} (r : result A) : M S A := fun s => (r, s).
Definition gets {S A} (f : S -> A) : M S A := fun s => (Ok (f s), s).
Definition modify {S} (f : S -> S) : M S unit := fun s => (Ok tt, f s).

(** Run a computation on a component of a larger state. *)
Definition zoom {S T A} (get : T -> S) (set : S -> T -> T) (c : M S A) : M T A :=
  fun t => let (r, s') := c (get t) in (r, set s' t).

(** [try: c  except cls: h] *)
Definition try_except {S A} (c : M S A) (cls : exn_class) (h : M S A) : M S A :=
  fun s => match c s with
           | (Ok a, s') => (Ok a, s')
           | (Raise e, s') =>
               if decide (exn_kind e = cls) then h s' else (Raise e, s')
           end.

Declare Scope py_scope.
Delimit Scope py_scope with py.
Notation "x <~ c ;; k" := (bind c (fun x => k))
  (at level 100, c at next level, right associativity) : py_scope.
Notation "c ;;; k" := (bind c (fun _ => k))
  (at level 100, right associativity) : py_scope.
Local Open Scope py_scope.

(** ** JSON values: what [json.load] returns and [json.dump] accepts *)

Inductive json :=
| JNull
| JBool (b : bool)
| JInt (z : Z)
| JFloat (q : Q)
| JStr (s : string)
| JList (l : list json)
| JDict (d : list (string * json)).

(** A settings record is the top-level object of [_settings.json]. *)
Abbreviation settings := (gmap string json).

(** [d[k]] on a dict. *)
Definition getitem (d : settings) (k : string) : result json :=
  match d !! k with
  | Some v => Ok v
  | None => Raise (Exn KeyError k)
  end.

(** ** Values held by the training bundle and passed to the scalers *)

Inductive ndarray :=
| Arr1 (v : list Q)
| Arr2 (ncols : nat) (rows : list (list Q)).

Inductive pydata :=
| DNone
| DStr (s : string)
| DArr (a : ndarray)
| DMeta (keys : list string).

(** [a.shape[0]] and [a.shape[1]]. *)
Definition shape0 (a : ndarray) : nat :=
  match a with Arr1 v => length v | Arr2 _ rows => length rows end.

Definition shape1 (a : ndarray) : result nat :=
  match a with
  | Arr1 _ => Raise (Exn IndexError "tuple index out of range")
  | Arr2 c _ => Ok c
  end.

(** ** The numpy operations of the scalers *)

Definition Qsum (v : list Q) : Q := fold_right Qplus 0%Q v.

(** [np.mean] of a vector; [None] is numpy's [nan], the mean of no
    elements. *)
Definition mean (v : list Q) : option Q :=
  match v with
  | [] => None
  | _ => Some (Qsum v / inject_Z (Z.of_nat (length v)))%Q
  end.

Definition column (j : nat) (rows : list (list Q)) : list Q :=
  map (fun r => nth j r 0%Q) rows.

(** [np.mean(x, axis=0)]; the 0-d result for a vector is kept as a vector of
    length one, which broadcasts the same way. *)
Definition np_mean_axis0 (x : ndarray) : list (option Q) :=
  match x with
  | Arr1 v => [mean v]
  | Arr2 c rows => map (fun j => mean (column j rows)) (seq 0 c)
  end.

Section Std.
Variable sqrt : Q -> Q.

Definition std (v : list Q) : option Q :=
  match mean v with
  | Some m => option_map sqrt (mean (map (fun a => ((a - m) * (a - m))%Q) v))
  | None => None
  end.

(** [np.std(x, axis=0)] *)
Definition np_std_axis0 (x : ndarray) : list (option Q) :=
  match x with
  | Arr1 v => [std v]
  | Arr2 c rows => map (fun j => std (column j rows)) (seq 0 c)
  end.
End Std.

(** [np.maximum(v, floor)]; a [nan] stays a [nan]. *)
Definition np_maximum (v : list (option Q)) (floor : Q) : list (option Q) :=
  map (option_map (fun a => if Qle_bool floor a then a else floor)) v.

Definition np_zeros (n : nat) : list Q := repeat 0%Q n.
Definition np_ones (n : nat) : list Q := repeat 1%Q n.

Definition broadcast_error : exn :=
  Exn ValueError "operands could not be broadcast together".

Fixpoint zip_with_Q (f : Q -> Q -> Q) (a b : list Q) : list Q :=
  match a, b with
  | x :: a', y :: b' => f x y :: zip_with_Q f a' b'
  | _, _ => []
  end.

(** One row of length [c] against a vector of length [k], by numpy's
    broadcasting rule for the last axis: equal lengths pair up, a length of
    one stretches, anything else is an error. *)
Definition broadcast_row (f : Q -> Q -> Q) (r m : list Q) : result (list Q) :=
  if Nat.eqb (length r) (length m) then Ok (zip_with_Q f r m)
  else match m, r with
       | [b], _ => Ok (map (fun a => f a b) r)
       | _, [a] => Ok (map (fun b => f a b) m)
       | _, _ => Raise broadcast_error
       end.

(** [x - m] for an array [x] and a vector [m] (a new array). *)
Definition np_sub (x : ndarray) (m : list Q) : result ndarray :=
  match x with
  | Arr1 v => rbind (broadcast_row Qminus v m) (fun v' => Ok (Arr1 v'))
  | Arr2 c rows =>
      if Nat.eqb c (length m) then Ok (Arr2 c (map (fun r => zip_with_Q Qminus r m) rows))
      else match m with
           | [b] => Ok (Arr2 c (map (map (fun a => (a - b)%Q)) rows))
           | _ =>
               if Nat.eqb c 1
               then Ok (Arr2 (length m)
                          (map (fun r => map (fun b => (nth 0%nat r 0 - b)%Q) m) rows))
               else Raise broadcast_error
           end
  end.

(** [x /= s]: in place, so the result keeps the shape of [x] and [s] may
    only stretch, never [x]. *)
Definition np_idiv (x : ndarray) (s : list Q) : result ndarray :=
  let width := match x with Arr1 v => length v | Arr2 c _ => c end in
  if Nat.eqb width (length s) then
    Ok (match x with
        | Arr1 v => Arr1 (zip_with_Q Qdiv v s)
        | Arr2 c rows => Arr2 c (map (fun r => zip_with_Q Qdiv r s) rows)
        end)
  else match s with
       | [b] => Ok (match x with
                    | Arr1 v => Arr1 (map (fun a => (a / b)%Q) v)
                    | Arr2 c rows => Arr2 c (map (map (fun a => (a / b)%Q)) rows)
                    end)
       | _ => Raise (Exn ValueError "non-broadcastable output operand")
       end.

(** [x[:, idx]] with a list of integers: negative indices count from the
    end, an index outside [-c, c) raises. *)
Definition norm_index (c : nat) (i : Z) : result nat :=
  if (0 <=? i) && (i <? Z.of_nat c) then Ok (Z.to_nat i)
  else if (- Z.of_nat c <=? i) && (i <? 0) then Ok (Z.to_nat (i + Z.of_nat c))
  else Raise (Exn IndexError "index is out of bounds for axis 1").

Definition take_columns (x : ndarray) (idx : list Z) : result ndarray :=
  match x with
  | Arr1 _ => Raise (Exn IndexError "too many indices for array")
  | Arr2 c rows =>
      rbind (rmap (norm_index c) idx) (fun js =>
        Ok (Arr2 (length idx) (map (fun r => map (fun j => nth j r 0%Q) js) rows)))
  end.

(** ** The interfaces consumed from outside the two modules *)

(** The second argument of the loss factory: the loaded sample weights, or
    the scalar computed when there are none. *)
Inductive loss_weight :=
| SampleWeights (w : pydata)
| ClassRatio (q : Q).

(** The keyword arguments of [RatioEstimator.train], apart from
    [input_data_dict]. [nentries] is kept as the text the f-string renders. *)
Record train_args (Opaque : Type) := TrainArgs {
  method : string;
  alpha : Q;
  optimizer : string;
  optimizer_kwargs : option Opaque;
  n_epochs : Z;
  batch_size : Z;
  initial_lr : Q;
  final_lr : Q;
  nesterov_momentum : option Q;
  validation_split : option Q;
  early_stopping : bool;
  scale_inputs : bool;
  limit_samplesize : option Z;
  memmap : bool;
  verbose : string;
  scale_parameters : bool;
  n_workers : Z;
  clip_gradient : option Q;
  early_stopping_patience : option Z;
  intermediate_train_plot : option Opaque;
  intermediate_save : option Opaque;
  intermediate_stats_dist : bool;
  stats_method_list : list string;
  global_name : string;
  plot_inputs : bool;
  nentries : string;
  loss_type : string
}.
Arguments TrainArgs {Opaque}.
Arguments method {Opaque}. Arguments alpha {Opaque}. Arguments optimizer {Opaque}.
Arguments optimizer_kwargs {Opaque}. Arguments nesterov_momentum {Opaque}.
Arguments scale_inputs {Opaque}. Arguments memmap {Opaque}.
Arguments intermediate_stats_dist {Opaque}. Arguments global_name {Opaque}.
Arguments plot_inputs {Opaque}. Arguments nentries {Opaque}.
Arguments loss_type {Opaque}.

(** [_package_training_data]: the ordered dict with keys x, y, w. *)
Record training_data := TrainingData {
  data_x : pydata;
  data_y : pydata;
  data_w : pydata
}.

Record feature_data := FeatureData {
  feature_names : list string;
  fd_x0 : pydata; fd_w0 : pydata; fd_x1 : pydata; fd_w1 : pydata
}.

(** What [RatioTrainer.train] receives besides the model. *)
Record fit_request (Opaque : Type) := FitRequest {
  fr_data : training_data;
  fr_data_val : option training_data;
  fr_losses : Opaque;
  fr_optimizer : Opaque;
  fr_optimizer_kwargs : Opaque;
  fr_feature_data : option feature_data;
  fr_args : train_args Opaque
}.
Arguments FitRequest {Opaque}.

Class Externals := {
  (** opaque Python objects *)
  Model : Type;
  StateDict : Type;
  Opaque : Type;
  (** builtins on strings and object rendering *)
  int_of_str : string -> option Z;
  float_of_str : string -> option Q;
  repr : json -> string;
  (** numpy *)
  np_sqrt : Q -> Q;
  (** a [nan] as held in a vector of rationals: any value *)
  float_nan : Q;
  index_by_object : ndarray -> json -> result ndarray;
  (** [.utils.tools] *)
  load_and_check : pydata -> option Q -> option string -> result pydata;
  os_path_dirname : string -> string;
  create_missing_folders : string -> result unit;
  (** the folders that exist once [create_missing_folders([path])] has
      returned: the path and the ancestors [os.makedirs] makes with it *)
  folders_made : string -> gset string;
  (** [os.path.exists] and [pickle.load] on the metadata path *)
  read_metadata : string -> option (result pydata);
  (** lines 207-231 of ratio.py: binning and [draw_weighted_distributions] *)
  plot_transformed_inputs :
    pydata -> pydata -> pydata -> pydata -> pydata -> string -> gset string -> result unit;
  (** [.models], [.functions], [.trainers], [.evaluate] *)
  RatioModel : option Z -> list Z -> string -> Q -> result Model;
  get_loss : string -> Q -> loss_weight -> string -> result Opaque;
  get_optimizer : string -> option Q -> result (Opaque * Opaque);
  kwargs_update : Opaque -> Opaque -> result Opaque;
  trainer_train : Model -> Z -> fit_request Opaque -> result Opaque * Model;
  evaluate_ratio_model : Model -> pydata -> result (list Q * list Q);
  evaluate_performance_model : Model -> pydata -> pydata -> result unit;
  (** torch *)
  state_dict : Model -> StateDict;
  load_state_dict : Model -> StateDict -> result Model
}.

(** ** Python builtins applied to JSON values *)

Definition msg_int_not (type_name : string) : string :=
  "int() argument must be a string, a bytes-like object or a real number, not '"
  +:+ type_name +:+ "'".

Definition msg_int_None : string := msg_int_not "NoneType".

Section Builtins.
Context `{Externals}.

Definition type_error (what : string) : exn := Exn TypeError what.

(** [int(v)] *)
Definition py_int (v : json) : result Z :=
  match v with
  | JInt z => Ok z
  | JBool b => Ok (if b then 1 else 0)
  | JFloat q => Ok (Z.quot (Qnum q) (Zpos (Qden q)))
  | JStr s =>
      match int_of_str s with
      | Some z => Ok z
      | None => Raise (Exn ValueError "invalid literal for int() with base 10")
      end
  | JNull => Raise (type_error msg_int_None)
  | JList _ => Raise (type_error (msg_int_not "list"))
  | JDict _ => Raise (type_error (msg_int_not "dict"))
  end.

(** [float(v)] *)
Definition py_float (v : json) : result Q :=
  match v with
  | JInt z => Ok (inject_Z z)
  | JBool b => Ok (if b then 1%Q else 0%Q)
  | JFloat q => Ok q
  | JStr s =>
      match float_of_str s with
      | Some q => Ok q
      | None => Raise (Exn ValueError "could not convert string to float")
      end
  | JNull | JList _ | JDict _ =>
      Raise (type_error "float() argument must be a string or a real number")
  end.

(** [str(v)] *)
Definition py_str (v : json) : string :=
  match v with
  | JStr s => s
  | _ => repr v
  end.

(** [for item in v]: a list yields its items, a string its characters, a
    dict its keys. *)
Definition py_iter (v : json) : result (list json) :=
  match v with
  | JList l => Ok l
  | JStr s => Ok (map (fun c => JStr (String c EmptyString)) (list_ascii_of_string s))
  | JDict d => Ok (map (fun kv => JStr (fst kv)) d)
  | JNull | JBool _ | JInt _ | JFloat _ => Raise (type_error "object is not iterable")
  end.

(** [[int(item) for item in v]] *)
Definition int_items (v : json) : result (list Z) :=
  rbind (py_iter v) (rmap py_int).
End Builtins.

(** ** The estimator object *)

(** [self.features]: [None], a list of column indices, or, between the two
    assignments of [_unwrap_settings], the value as it came from the file. *)
Inductive features_t :=
| FeatNone
| FeatIdx (idx : list Z)
| FeatRaw (v : json).

Definition tag_ratio : string := "double_parameterized_ratio".

Definition msg_no_type : string :=
  "Can't find estimator type information in file. Maybe this file was created with an incompatible MadMiner version < v0.3.0?".

Definition msg_incompatible (estimator_type : string) : string :=
  "Saved model is an incompatible estimator type " +:+ estimator_type +:+ ".".

Definition msg_no_model_save : string :=
  "No model -- train or load model before saving!".

Definition msg_no_model_eval : string :=
  "No model -- train or load model before evaluating it!".

Section EstimatorModel.
Context `{Externals}.

(** The attributes [__init__] creates, and [attrs], the names of any
    further attributes assigned to the instance from outside the class. *)
Record Estimator := MkEstimator {
  features : features_t;
  n_hidden : list Z;
  activation : string;
  dropout_prob : Q;
  model : option Model;
  n_observables : option Z;
  n_parameters : option Z;
  x_scaling_means : option (list Q);
  x_scaling_stds : option (list Q);
  attrs : gset string
}.

Definition set_features v (e : Estimator) :=
  MkEstimator v (n_hidden e) (activation e) (dropout_prob e) (model e)
    (n_observables e) (n_parameters e) (x_scaling_means e) (x_scaling_stds e) (attrs e).
Definition set_n_hidden v (e : Estimator) :=
  MkEstimator (features e) v (activation e) (dropout_prob e) (model e)
    (n_observables e) (n_parameters e) (x_scaling_means e) (x_scaling_stds e) (attrs e).
Definition set_activation v (e : Estimator) :=
  MkEstimator (features e) (n_hidden e) v (dropout_prob e) (model e)
    (n_observables e) (n_parameters e) (x_scaling_means e) (x_scaling_stds e) (attrs e).
Definition set_dropout_prob v (e : Estimator) :=
  MkEstimator (features e) (n_hidden e) (activation e) v (model e)
    (n_observables e) (n_parameters e) (x_scaling_means e) (x_scaling_stds e) (attrs e).
Definition set_model v (e : Estimator) :=
  MkEstimator (features e) (n_hidden e) (activation e) (dropout_prob e) v
    (n_observables e) (n_parameters e) (x_scaling_means e) (x_scaling_stds e) (attrs e).
Definition set_n_observables v (e : Estimator) :=
  MkEstimator (features e) (n_hidden e) (activation e) (dropout_prob e) (model e)
    v (n_parameters e) (x_scaling_means e) (x_scaling_stds e) (attrs e).
Definition set_n_parameters v (e : Estimator) :=
  MkEstimator (features e) (n_hidden e) (activation e) (dropout_prob e) (model e)
    (n_observables e) v (x_scaling_means e) (x_scaling_stds e) (attrs e).
Definition set_x_scaling_means v (e : Estimator) :=
  MkEstimator (features e) (n_hidden e) (activation e) (dropout_prob e) (model e)
    (n_observables e) (n_parameters e) v (x_scaling_stds e) (attrs e).
Definition set_x_scaling_stds v (e : Estimator) :=
  MkEstimator (features e) (n_hidden e) (activation e) (dropout_prob e) (model e)
    (n_observables e) (n_parameters e) (x_scaling_means e) v (attrs e).

(** [Estimator.__init__] *)
Definition Estimator_init (features : features_t) (n_hidden : list Z)
    (activation : string) (dropout_prob : Q) : Estimator :=
  MkEstimator features n_hidden activation dropout_prob None None None None None ∅.

(** [RatioEstimator()] with the default arguments. *)
Definition RatioEstimator_default : Estimator :=
  Estimator_init FeatNone [100] "tanh" 0%Q.

(** The configuration fields the settings codec reads and writes. *)
Definition same_config (a b : Estimator) : Prop :=
  n_observables a = n_observables b /\ n_parameters a = n_parameters b /\
  n_hidden a = n_hidden b /\ activation a = activation b /\
  features a = features b /\ dropout_prob a = dropout_prob b.

(** *** Settings codec *)

Definition json_of_int (o : option Z) : json :=
  match o with Some z => JInt z | None => JNull end.

Definition json_of_features (f : features_t) : json :=
  match f with
  | FeatNone => JNull
  | FeatIdx idx => JList (map JInt idx)
  | FeatRaw v => v
  end.

(** [Estimator._wrap_settings] *)
Definition Estimator_wrap_settings (e : Estimator) : settings :=
  <["dropout_prob" := JFloat (dropout_prob e)]>
  (<["activation" := JStr (activation e)]>
  (<["n_hidden" := JList (map JInt (n_hidden e))]>
  (<["features" := json_of_features (features e)]>
  (<["n_parameters" := json_of_int (n_parameters e)]>
  (<["n_observables" := json_of_int (n_observables e)]> ∅))))).

(** [RatioEstimator._wrap_settings] *)
Definition RatioEstimator_wrap_settings (e : Estimator) : settings :=
  <["estimator_type" := JStr tag_ratio]> (Estimator_wrap_settings e).

(** The value bound by [self.features = settings["features"]]. *)
Definition features_of_json (v : json) : features_t :=
  match v with JNull => FeatNone | _ => FeatRaw v end.

(** [self.features == "None"] *)
Definition features_is_None_text (f : features_t) : bool :=
  match f with
  | FeatRaw (JStr s) => String.eqb s "None"
  | _ => false
  end.

(** [Estimator._unwrap_settings] *)
Definition Estimator_unwrap_settings (st : settings) : M Estimator unit :=
  (* try: _ = str(settings["estimator_type"]) / except KeyError: raise RuntimeError *)
  _ <~ try_except
         (v <~ lift (getitem st "estimator_type") ;; ret (py_str v))
         KeyError
         (raise (Exn RuntimeError msg_no_type)) ;;
  v <~ lift (rbind (getitem st "n_observables") py_int) ;;
  modify (set_n_observables (Some v)) ;;;
  v <~ lift (rbind (getitem st "n_parameters") py_int) ;;
  modify (set_n_parameters (Some v)) ;;;
  v <~ lift (rbind (getitem st "n_hidden") int_items) ;;
  modify (set_n_hidden v) ;;;
  v <~ lift (getitem st "activation") ;;
  modify (set_activation (py_str v)) ;;;
  v <~ lift (getitem st "features") ;;
  modify (set_features (features_of_json v)) ;;;
  f <~ gets features ;;
  (if features_is_None_text f then modify (set_features FeatNone) else ret tt) ;;;
  f <~ gets features ;;
  match f with
  | FeatNone => ret tt
  | _ =>
      idx <~ lift (int_items (json_of_features f)) ;;
      modify (set_features (FeatIdx idx))
  end ;;;
  try_except
    (v <~ lift (rbind (getitem st "dropout_prob") py_float) ;;
     modify (set_dropout_prob v))
    KeyError
    (modify (set_dropout_prob 0%Q)).

(** [RatioEstimator._unwrap_settings] *)
Definition RatioEstimator_unwrap_settings (st : settings) : M Estimator unit :=
  Estimator_unwrap_settings st ;;;
  v <~ lift (getitem st "estimator_type") ;;
  let estimator_type := py_str v in
  if String.eqb estimator_type tag_ratio then ret tt
  else raise (Exn RuntimeError (msg_incompatible estimator_type)).

(** *** Input scaler *)

Definition scaling_floor : Q := 1 # 1000000.

Definition no_shape : exn := Exn AttributeError "object has no attribute 'shape'".

(** [x.shape[0]], [x.shape[1]] on whatever [x] is bound to. *)
Definition shape0_of (x : pydata) : result nat :=
  match x with DArr a => Ok (shape0 a) | _ => Raise no_shape end.
Definition shape1_of (x : pydata) : result nat :=
  match x with DArr a => shape1 a | _ => Raise no_shape end.

(** An array operand of a numpy arithmetic operator. *)
Definition array_operand (x : pydata) : result ndarray :=
  match x with
  | DArr a => Ok a
  | _ => Raise (type_error "unsupported operand type for a numpy operation")
  end.

(** The operand of a reduction along axis 0: anything that is not an array
    is taken as a 0-d array, which has no axis 0. *)
Definition reduction_operand (x : pydata) : result ndarray :=
  match x with
  | DArr a => Ok a
  | _ => Raise (Exn AxisError "axis 0 is out of bounds for array of dimension 0")
  end.

(** A vector of statistics as the estimator holds it. *)
Definition held (v : list (option Q)) : list Q := map (default float_nan) v.

(** [Estimator.initialize_input_transform(x, transform, overwrite)] *)
Definition initialize_input_transform (x : pydata) (transform overwrite : bool)
  : M Estimator unit :=
  e <~ gets id ;;
  if not_None (x_scaling_stds e) && not_None (x_scaling_means e) && negb overwrite
  then ret tt
  else if transform then
    a <~ lift (reduction_operand x) ;;
    modify (set_x_scaling_means (Some (held (np_mean_axis0 a)))) ;;;
    modify (set_x_scaling_stds
              (Some (held (np_maximum (np_std_axis0 np_sqrt a) scaling_floor))))
  else
    n_parameters <~ lift (shape0_of x) ;;
    modify (set_x_scaling_means (Some (np_zeros n_parameters))) ;;;
    modify (set_x_scaling_stds (Some (np_ones n_parameters))).

(** The numpy branch of [_transform_inputs] for given statistics. *)
Definition apply_scaling (means stds : option (list Q)) (x : pydata) : result pydata :=
  match means, stds with
  | Some m, Some s =>
      rbind (array_operand x) (fun a =>
      rbind (np_sub a m) (fun x_scaled =>
      rbind (np_idiv x_scaled s) (fun x_scaled => Ok (DArr x_scaled))))
  | _, _ => Ok x
  end.

(** [Estimator._transform_inputs(x)] *)
Definition _transform_inputs (x : pydata) : M Estimator pydata :=
  e <~ gets id ;;
  lift (apply_scaling (x_scaling_means e) (x_scaling_stds e) x).

(** *** Conditional estimator: the parameter scaler *)

Record ConditionalEstimator := MkConditional {
  cond_base : Estimator;
  theta_scaling_means : option (list Q);
  theta_scaling_stds : option (list Q)
}.

Definition set_theta_scaling_means v (c : ConditionalEstimator) :=
  MkConditional (cond_base c) v (theta_scaling_stds c).
Definition set_theta_scaling_stds v (c : ConditionalEstimator) :=
  MkConditional (cond_base c) (theta_scaling_means c) v.

(** [ConditionalEstimator.__init__] *)
Definition ConditionalEstimator_init (features : features_t) (n_hidden : list Z)
    (activation : string) (dropout_prob : Q) : ConditionalEstimator :=
  MkConditional (Estimator_init features n_hidden activation dropout_prob) None None.

(** [ConditionalEstimator.initialize_parameter_transform(theta, transform, overwrite)] *)
Definition initialize_parameter_transform (theta : pydata) (transform overwrite : bool)
  : M ConditionalEstimator unit :=
  c <~ gets id ;;
  if not_None (x_scaling_stds (cond_base c)) && not_None (x_scaling_means (cond_base c))
     && negb overwrite
  then ret tt
  else if transform then
    a <~ lift (reduction_operand theta) ;;
    modify (set_theta_scaling_means (Some (held (np_mean_axis0 a)))) ;;;
    modify (set_theta_scaling_stds
              (Some (held (np_maximum (np_std_axis0 np_sqrt a) scaling_floor))))
  else
    modify (set_theta_scaling_means None) ;;;
    modify (set_theta_scaling_stds None).

(** *** Persistence *)

(** The artifacts [save] writes.  A settings file holds a JSON object;
    other JSON documents are outside the model. *)
Inductive file :=
| FJson (record : settings)
| FNpy (v : list Q)
| FStateDict (sd : StateDict)
| FModel (m : Model).

(** The estimator together with the files it reads and writes and the
    folders made for them. *)
Record Disk := DiskState {
  d_self : Estimator;
  d_files : gmap string file;
  d_folders : gset string
}.

(** A disk that holds these files, before any folder was made. *)
Definition MkDisk (e : Estimator) (files : gmap string file) : Disk :=
  DiskState e files ∅.

Definition on_disk_self {A} (c : M Estimator A) : M Disk A :=
  zoom d_self (fun e d => DiskState e (d_files d) (d_folders d)) c.

Definition write_file (path : string) (f : file) : M Disk unit :=
  modify (fun d => DiskState (d_self d) (<[path := f]> (d_files d)) (d_folders d)).

(** [create_missing_folders([path])]: when the call returns, the folders it
    was asked for exist. *)
Definition make_missing_folders (path : string) : M Disk unit :=
  lift (create_missing_folders path) ;;;
  modify (fun d => DiskState (d_self d) (d_files d) (d_folders d ∪ folders_made path)).

Definition not_found (path : string) : exn := Exn FileNotFoundError path.

(** [json.load(open(path))] *)
Definition json_load (path : string) : M Disk settings :=
  d <~ gets id ;;
  match d_files d !! path with
  | None => raise (not_found path)
  | Some (FJson record) => ret record
  | Some _ => raise (Exn ValueError "JSONDecodeError")
  end.

(** [np.load(path)] *)
Definition np_load (path : string) : M Disk (list Q) :=
  d <~ gets id ;;
  match d_files d !! path with
  | None => raise (not_found path)
  | Some (FNpy v) => ret v
  | Some _ => raise (Exn ValueError "Cannot load file containing pickled data")
  end.

(** [torch.load(path, map_location="cpu")] *)
Definition torch_load (path : string) : M Disk StateDict :=
  d <~ gets id ;;
  match d_files d !! path with
  | None => raise (not_found path)
  | Some (FStateDict sd) => ret sd
  | Some _ => raise (Exn OtherError "UnpicklingError")
  end.

(** [RatioEstimator._create_model] *)
Definition _create_model : M Estimator unit :=
  e <~ gets id ;;
  m <~ lift (RatioModel (n_observables e) (n_hidden e) (activation e) (dropout_prob e)) ;;
  modify (set_model (Some m)).

(** [Estimator.save(filename, save_model)] on a ratio estimator, whose
    [_wrap_settings] is [RatioEstimator._wrap_settings]. *)
Definition save (filename : string) (save_model : bool) : M Disk unit :=
  e <~ gets d_self ;;
  match model e with
  | None => raise (Exn ValueError msg_no_model_save)
  | Some m =>
      make_missing_folders (os_path_dirname filename) ;;;
      let settings := RatioEstimator_wrap_settings e in
      write_file (filename +:+ "_settings.json") (FJson settings) ;;;
      match x_scaling_stds e, x_scaling_means e with
      | Some stds, Some means =>
          write_file (filename +:+ "_x_means.npy") (FNpy means) ;;;
          write_file (filename +:+ "_x_stds.npy") (FNpy stds)
      | _, _ => ret tt
      end ;;;
      write_file (filename +:+ "_state_dict.pt") (FStateDict (state_dict m)) ;;;
      if save_model then write_file (filename +:+ "_model.pt") (FModel m) else ret tt
  end.

(** [Estimator.load(filename)] on a ratio estimator. *)
Definition load (filename : string) : M Disk unit :=
  settings <~ json_load (filename +:+ "_settings.json") ;;
  on_disk_self (RatioEstimator_unwrap_settings settings) ;;;
  on_disk_self _create_model ;;;
  try_except
    (v <~ np_load (filename +:+ "_x_means.npy") ;;
     on_disk_self (modify (set_x_scaling_means (Some v))) ;;;
     v <~ np_load (filename +:+ "_x_stds.npy") ;;
     on_disk_self (modify (set_x_scaling_stds (Some v))))
    FileNotFoundError
    (on_disk_self (modify (set_x_scaling_means None)) ;;;
     on_disk_self (modify (set_x_scaling_stds None))) ;;;
  e <~ gets d_self ;;
  match model e with
  | None => raise (Exn AttributeError "'NoneType' object has no attribute 'load_state_dict'")
  | Some m =>
      sd <~ torch_load (filename +:+ "_state_dict.pt") ;;
      m' <~ lift (load_state_dict m sd) ;;
      on_disk_self (modify (set_model (Some m')))
  end.

(** *** Evaluation *)

(** [self.<name>] for an attribute no method of the class assigns. *)
Definition getattr_extra (name : string) : M Estimator unit :=
  e <~ gets id ;;
  if bool_decide (name ∈ attrs e) then ret tt
  else raise (Exn AttributeError
                ("'RatioEstimator' object has no attribute '" +:+ name +:+ "'")).

(** A call [self._transform_inputs(x, **kwargs)]: the method is declared
    as [_transform_inputs(self, x)], so any keyword is rejected. *)
Definition call_transform_inputs (x : pydata) (kwargs : list string) : M Estimator pydata :=
  match kwargs with
  | [] => _transform_inputs x
  | kw :: _ =>
      raise (type_error ("_transform_inputs() got an unexpected keyword argument '"
                         +:+ kw +:+ "'"))
  end.

Definition not_subscriptable : exn := type_error "object is not subscriptable by columns".

(** [x[:, self.features]] *)
Definition restrict_columns (f : features_t) (x : pydata) : result pydata :=
  match x with
  | DArr a =>
      match f with
      | FeatNone => Ok x
      | FeatIdx idx => rbind (take_columns a idx) (fun a' => Ok (DArr a'))
      | FeatRaw v => rbind (index_by_object a v) (fun a' => Ok (DArr a'))
      end
  | _ => Raise not_subscriptable
  end.

(** [if self.features is not None: x = x[:, self.features]] *)
Definition restrict_features (x : pydata) : M Estimator pydata :=
  f <~ gets features ;;
  match f with
  | FeatNone => ret x
  | _ => lift (restrict_columns f x)
  end.

(** [RatioEstimator.evaluate_ratio(x)] *)
Definition evaluate_ratio (x : pydata) : M Estimator (list Q * list Q) :=
  e <~ gets id ;;
  match model e with
  | None => raise (Exn ValueError msg_no_model_eval)
  | Some m =>
      x <~ lift (load_and_check x None None) ;;
      (* x = self._transform_inputs(x, scaling=self.scaling_method) *)
      getattr_extra "scaling_method" ;;;
      x <~ call_transform_inputs x ["scaling"] ;;
      x <~ restrict_features x ;;
      lift (evaluate_ratio_model m x)
  end.

(** [RatioEstimator.evaluate_performance(x, y)] *)
Definition evaluate_performance (x y : pydata) : M Estimator unit :=
  e <~ gets id ;;
  match model e with
  | None => raise (Exn ValueError msg_no_model_eval)
  | Some m =>
      x <~ lift (load_and_check x None None) ;;
      y <~ lift (load_and_check y None None) ;;
      x <~ call_transform_inputs x [] ;;
      x <~ restrict_features x ;;
      lift (evaluate_performance_model m x y)
  end.

(** *** Training *)

(** Calls made to the collaborators, oldest first. *)
Inductive event :=
| CallLoadAndCheck (v : pydata) (memmap_threshold : option Q) (name : string)
| CallRatioModel (n_obs : option Z) (hidden : list Z) (act : string) (dropout : Q)
| CallGetLoss (method : string) (alpha : Q) (w : loss_weight) (loss_type : string)
| CallGetOptimizer (optimizer : string) (nesterov : option Q)
| CallTrainer (req : fit_request Opaque).

(** One call of [train]: the estimator, the caller's dictionary object
    (shared with the caller, so updates to it outlive the call) and the
    collaborator calls made so far. *)
Record Run := MkRun {
  self : Estimator;
  input_data_dict : gmap string pydata;
  calls : list event
}.

Definition on_self {A} (c : M Estimator A) : M Run A :=
  zoom self (fun e r => MkRun e (input_data_dict r) (calls r)) c.

Definition set_dict (d : gmap string pydata) (r : Run) : Run :=
  MkRun (self r) d (calls r).

Definition log (ev : event) : M Run unit :=
  modify (fun r => MkRun (self r) (input_data_dict r) (calls r ++ [ev])).

(** What the caller passed as [input_data_dict]. *)
Inductive train_input :=
| ADict
| NotADict (type_repr : string).

Definition required_list : list string := ["X_train"; "y_train"; "w_train"].
Definition optional_list : list string := ["X0_train"; "w0_train"; "X1_train"; "w1_train"].

Definition has_key (d : gmap string pydata) (k : string) : bool :=
  not_None (d !! k).

(** [d.get(k, None)] *)
Definition dict_get (d : gmap string pydata) (k : string) : pydata :=
  default DNone (d !! k).

Definition msg_not_dict (type_repr : string) : string :=
  "Argument input_data_dict needs to be type 'dict', but received " +:+ type_repr.

Definition msg_required : string :=
  "Unable to look up all required data, please have at least prepared with keys ['X_train', 'y_train', 'w_train']".

(** The loop of lines 154-157. *)
Fixpoint load_training_data (memmap_threshold : option Q) (keys : list string)
  : M Run unit :=
  match keys with
  | [] => ret tt
  | lookup :: rest =>
      d <~ gets input_data_dict ;;
      match d !! lookup with
      | Some checking =>
          log (CallLoadAndCheck checking memmap_threshold lookup) ;;;
          v <~ lift (load_and_check checking memmap_threshold (Some lookup)) ;;
          modify (fun r => set_dict (<[lookup := v]> (input_data_dict r)) r)
      | None => ret tt
      end ;;;
      load_training_data memmap_threshold rest
  end.

(** [if v:] *)
Definition truthy (v : pydata) : result bool :=
  match v with
  | DNone => Ok false
  | DStr s => Ok (negb (String.eqb s ""))
  | DMeta keys => Ok (not_None (head keys))
  | DArr (Arr1 []) => Ok false
  | DArr (Arr1 [a]) => Ok (negb (Qeq_bool a 0))
  | DArr (Arr2 _ []) | DArr (Arr2 0 _) => Ok false
  | DArr (Arr2 1 [[a]]) => Ok (negb (Qeq_bool a 0))
  | DArr _ => Raise (Exn ValueError "The truth value of an array with more than one element is ambiguous")
  end.

(** [len(v)] *)
Definition py_len (v : pydata) : result nat :=
  match v with
  | DNone => Raise (type_error "object of type 'NoneType' has no len()")
  | DStr s => Ok (String.length s)
  | DArr a => Ok (shape0 a)
  | DMeta keys => Ok (length keys)
  end.

(** [a / b] on two ints *)
Definition true_div (a b : nat) : result Q :=
  if Nat.eqb b 0 then Raise (Exn ZeroDivisionError "division by zero")
  else Ok (inject_Z (Z.of_nat a) / inject_Z (Z.of_nat b))%Q.

(** [list(v.keys())] *)
Definition dict_keys (v : pydata) : result (list string) :=
  match v with
  | DMeta keys => Ok keys
  | _ => Raise (Exn AttributeError "object has no attribute 'keys'")
  end.

Definition is_None (v : pydata) : bool :=
  match v with DNone => true | _ => false end.

Definition msg_mismatch (n_observables : Z) (stored : option Z) : string :=
  "Number of observables does not match model: " +:+ repr (JInt n_observables)
  +:+ " vs " +:+ repr (json_of_int stored).

(** The local variables of [train] that are live after line 242. *)
Record locals := Locals {
  l_x : pydata; l_y : pydata; l_w : pydata;
  l_x0 : pydata; l_w0 : pydata; l_x1 : pydata; l_w1 : pydata;
  l_x_val : pydata; l_y_val : pydata; l_w_val : pydata;
  l_n_observables : nat;
  l_external_validation : bool;
  l_metaDataDict : pydata
}.

(** [train], lines 140-157: the checks on [input_data_dict] and the
    loading loop. *)
Definition train_load (args : train_args Opaque) (input : train_input) : M Run unit :=
  match input with
  | NotADict type_repr => raise (Exn TypeError (msg_not_dict type_repr))
  | ADict =>
      d <~ gets input_data_dict ;;
      if negb (forallb (has_key d) required_list) then raise (Exn KeyError msg_required)
      else
        let memmap_threshold := if memmap args then Some 1%Q else None in
        load_training_data memmap_threshold (required_list ++ optional_list)
  end.

(** [train], lines 159-242: dimensions, validation split, metadata,
    scaling and feature restriction. *)
Definition train_prepare (args : train_args Opaque) : M Run locals :=
  d <~ gets input_data_dict ;;
  let x := dict_get d "X_train" in
  let y := dict_get d "y_train" in
  let w := dict_get d "w_train" in
  let x0 := dict_get d "X0_train" in
  let w0 := dict_get d "w0_train" in
  let x1 := dict_get d "X1_train" in
  let w1 := dict_get d "w1_train" in
  let x_val := dict_get d "X_val" in
  let y_val := dict_get d "y_val" in
  let w_val := dict_get d "w_val" in
  (* Infer dimensions of problem *)
  n_samples <~ lift (shape0_of x) ;;
  n_observables <~ lift (shape1_of x) ;;
  let external_validation := negb (is_None x_val) && negb (is_None y_val) in
  (if external_validation then
     _ <~ lift (shape0_of x_val) ;;
     c <~ lift (shape1_of x_val) ;;
     if Nat.eqb c n_observables then ret tt else raise (Exn AssertionError "")
   else ret tt) ;;;
  (* trying to load metadata *)
  let metaDataDict := dict_get d "metaData" in
  let metaData := "data/" +:+ global_name args +:+ "/metaData_" +:+ nentries args +:+ ".pkl" in
  metaDataDict <~ (if is_None metaDataDict then
                     match read_metadata metaData with
                     | Some r => lift r
                     | None => ret metaDataDict
                     end
                   else ret metaDataDict) ;;
  (* Scale features *)
  scaled <~ (if scale_inputs args then
               on_self (initialize_input_transform x true false) ;;;
               x <~ on_self (_transform_inputs x) ;;
               x_val <~ (if external_validation then on_self (_transform_inputs x_val)
                         else ret x_val) ;;
               plotting <~ (if plot_inputs args then lift (truthy metaDataDict)
                            else ret false) ;;
               if plotting : bool then
                 x0 <~ on_self (_transform_inputs x0) ;;
                 x1 <~ on_self (_transform_inputs x1) ;;
                 e <~ gets self ;;
                 lift (plot_transformed_inputs metaDataDict x0 x1 w0 w1
                         (global_name args) (attrs e)) ;;;
                 ret (x, x_val, x0, x1)
               else ret (x, x_val, x0, x1)
             else
               on_self (initialize_input_transform x false false) ;;;
               ret (x, x_val, x0, x1)) ;;
  let '(x, x_val, x0, x1) := scaled in
  (* Features *)
  f <~ on_self (gets features) ;;
  match f with
  | FeatNone =>
      ret (Locals x y w x0 w0 x1 w1 x_val y_val w_val n_observables
             external_validation metaDataDict)
  | _ =>
      x <~ lift (restrict_columns f x) ;;
      n_observables <~ lift (shape1_of x) ;;
      x_val <~ (if external_validation then lift (restrict_columns f x_val)
                else ret x_val) ;;
      ret (Locals x y w x0 w0 x1 w1 x_val y_val w_val n_observables
             external_validation metaDataDict)
  end.

(** Lines 244-251: set [n_observables] on first use, then compare. *)
Definition check_consistency (n_observables_seen : Z) : M Estimator unit :=
  e <~ gets id ;;
  (if not_None (n_observables e) then ret tt
   else modify (set_n_observables (Some n_observables_seen))) ;;;
  e <~ gets id ;;
  if bool_decide (Some n_observables_seen = n_observables e) then ret tt
  else raise (Exn RuntimeError (msg_mismatch n_observables_seen (n_observables e))).

(** Lines 264-266: the weight handed to the loss factory. *)
Definition loss_weight_of (w x0 x1 : pydata) : result loss_weight :=
  if is_None w then
    rbind (py_len x0) (fun n0 =>
    rbind (py_len x1) (fun n1 =>
    rbind (true_div n0 n1) (fun q => Ok (ClassRatio q))))
  else Ok (SampleWeights w).

(** [train], lines 244-320: consistency check, model, loss, optimizer and
    the hand-over to the trainer. *)
Definition train_fit (args : train_args Opaque) (l : locals) : M Run Opaque :=
  (* Check consistency of input with model *)
  on_self (check_consistency (Z.of_nat (l_n_observables l))) ;;;
  (* Data *)
  let data := TrainingData (l_x l) (l_y l) (l_w l) in
  let data_val := if l_external_validation l
                  then Some (TrainingData (l_x_val l) (l_y_val l) (l_w_val l))
                  else None in
  (* Create model *)
  e <~ gets self ;;
  (if not_None (model e) then ret tt
   else log (CallRatioModel (n_observables e) (n_hidden e) (activation e) (dropout_prob e)) ;;;
        on_self _create_model) ;;;
  (* Losses *)
  w <~ lift (loss_weight_of (l_w l) (l_x0 l) (l_x1 l)) ;;
  log (CallGetLoss (method args) (alpha args) w (loss_type args)) ;;;
  losses <~ lift (get_loss (method args) (alpha args) w (loss_type args)) ;;
  (* Optimizer *)
  log (CallGetOptimizer (optimizer args) (nesterov_momentum args)) ;;;
  o <~ lift (get_optimizer (optimizer args) (nesterov_momentum args)) ;;
  opt_kwargs <~ (match optimizer_kwargs args with
                 | Some kw => lift (kwargs_update (snd o) kw)
                 | None => ret (snd o)
                 end) ;;
  fdata <~ (if intermediate_stats_dist args then
              names <~ lift (dict_keys (l_metaDataDict l)) ;;
              ret (Some (FeatureData names (l_x0 l) (l_w0 l) (l_x1 l) (l_w1 l)))
            else ret None) ;;
  (* Train model *)
  e <~ gets self ;;
  match model e with
  | None => raise (Exn AttributeError "model is None")
  | Some m =>
      let req := FitRequest data data_val losses (fst o) opt_kwargs fdata args in
      log (CallTrainer req) ;;;
      let fitted := trainer_train m (n_workers _ args) req in
      on_self (modify (set_model (Some (snd fitted)))) ;;;
      lift (fst fitted)
  end.

(** [RatioEstimator.train(method, input_data_dict, ...)] *)
Definition train (args : train_args Opaque) (input : train_input) : M Run Opaque :=
  train_load args input ;;;
  l <~ train_prepare args ;;
  train_fit args l.

(** The call up to line 243, with the local variables it has bound. *)
Definition train_reach (args : train_args Opaque) (input : train_input) : M Run locals :=
  train_load args input ;;;
  train_prepare args.

(** [RatioEstimator.evaluate] *)
Definition evaluate (x : pydata) : M Estimator (list Q * list Q) :=
  evaluate_ratio x.
End EstimatorModel.

(** ** A closed world for running the model

    Collaborators with the simplest behaviour their interfaces allow: the
    loader passes arrays through and knows two files, the factories and the
    trainer return a token, the model records how it was built. *)

Module Demo.
Definition x_2x2 : ndarray := Arr2 2 [[1%Q; 10%Q]; [3%Q; 30%Q]].
Definition x_2x3 : ndarray := Arr2 3 [[1%Q; 2%Q; 3%Q]; [4%Q; 5%Q; 6%Q]].
Definition x0_1row : ndarray := Arr2 2 [[1%Q; 10%Q]].
Definition x1_2rows : ndarray := Arr2 2 [[3%Q; 30%Q]; [5%Q; 50%Q]].
Definition y_2 : ndarray := Arr1 [0%Q; 1%Q].
Definition w_2 : ndarray := Arr1 [1%Q; 1%Q].

Definition loader (v : pydata) (threshold : option Q) (name : option string)
  : result pydata :=
  match v with
  | DStr path =>
      if String.eqb path "data/X_train.npy" then Ok (DArr x_2x2)
      else if String.eqb path "data/y_train.npy" then Ok (DArr y_2)
      else Raise (Exn FileNotFoundError path)
  | _ => Ok v
  end.

Definition render (v : json) : string :=
  match v with
  | JNull => "None"
  | JBool true => "True"
  | JBool false => "False"
  | JInt z => pretty z
  | JStr s => s
  | _ => "<object>"
  end.

(** Exact on quotients of perfect squares. *)
Definition sqrt (q : Q) : Q :=
  let r := Qred q in Z.sqrt (Qnum r) # Pos.sqrt (Qden r).

#[export] Instance externals : Externals := {|
  Model := option Z * list Z * string * Q;
  StateDict := unit;
  Opaque := unit;
  int_of_str := fun _ => None;
  float_of_str := fun _ => None;
  repr := render;
  np_sqrt := sqrt;
  float_nan := 0%Q;
  index_by_object := fun _ _ => Raise (Exn IndexError "arrays used as indices must be of integer type");
  load_and_check := loader;
  os_path_dirname := fun p => p;
  create_missing_folders := fun _ => Ok tt;
  folders_made := fun p => {[ p ]};
  read_metadata := fun _ => None;
  plot_transformed_inputs := fun _ _ _ _ _ _ _ => Ok tt;
  RatioModel := fun n h a p => Ok (n, h, a, p);
  get_loss := fun _ _ _ _ => Ok tt;
  get_optimizer := fun _ _ => Ok (tt, tt);
  kwargs_update := fun _ _ => Ok tt;
  trainer_train := fun m _ _ => (Ok tt, m);
  evaluate_ratio_model := fun _ _ => Ok ([], []);
  evaluate_performance_model := fun _ _ _ => Ok tt;
  state_dict := fun _ => tt;
  load_state_dict := fun m _ => Ok m
|}.

(** The default keyword arguments of [train] with [method="carl"]. *)
Definition carl : train_args unit :=
  TrainArgs "carl" 1%Q "amsgrad" None 50 128 (1 # 1000) (1 # 10000) None (Some (1 # 4))
    true true None false "some" false 8 None None None None false [] "" false "-1"
    "regular".

Definition fresh : Estimator := RatioEstimator_default.

(** A training bundle with two samples of two observables, no weights. *)
Definition bundle : gmap string pydata :=
  <["X_train" := DArr x_2x2]> (<["y_train" := DArr y_2]> (<["w_train" := DNone]>
  (<["X0_train" := DArr x0_1row]> (<["X1_train" := DArr x1_2rows]> ∅)))).

(** The same bundle given by file names where the loader knows them. *)
Definition bundle_paths : gmap string pydata :=
  <["X_train" := DStr "data/X_train.npy"]> (<["y_train" := DStr "data/y_train.npy"]>
  (<["w_train" := DArr w_2]> ∅)).

(** A bundle of three observables. *)
Definition bundle_3 : gmap string pydata :=
  <["X_train" := DArr x_2x3]> (<["y_train" := DArr y_2]> (<["w_train" := DArr w_2]> ∅)).

Definition run0 (e : Estimator) (d : gmap string pydata) : Run := MkRun e d [].

(** A first training call on a fresh estimator. *)
Definition first_train := train carl ADict (run0 fresh bundle).
Definition trained : Estimator := self (snd first_train).
End Demo.

(** ** Vocabulary of the properties *)

(** [frame R c]: from any state, [c] leaves a state related by [R], whether
    it returns or raises. *)
Definition frame {St : Type} (R : St -> St -> Prop) {A : Type} (c : M St A) : Prop :=
  forall s, R s (snd (c s)).

(** The five paths [save] writes under a prefix. *)
Definition save_paths (filename : string) : list string :=
  map (fun suffix => filename +:+ suffix)
    ["_settings.json"; "_x_means.npy"; "_x_stds.npy"; "_state_dict.pt"; "_model.pt"].

Section Vocabulary.
Context `{Externals}.

(** The part of the estimator no step of [train] rewrites: everything
    except the model, the scaling statistics and an unset
    [n_observables]. *)
Definition keeps_config (e e' : Estimator) : Prop :=
  features e' = features e /\ n_hidden e' = n_hidden e /\
  activation e' = activation e /\ dropout_prob e' = dropout_prob e /\
  n_parameters e' = n_parameters e /\ attrs e' = attrs e /\
  (forall k, n_observables e = Some k -> n_observables e' = Some k).

Definition run_keeps (r r' : Run) : Prop := keeps_config (self r) (self r').

Definition run_keeps_dict (r r' : Run) : Prop :=
  keeps_config (self r) (self r') /\ input_data_dict r' = input_data_dict r.

(** A tag is bad when it is missing or renders to another text. *)
Definition bad_tag (st : settings) : Prop :=
  st !! "estimator_type" = None \/
  exists v, st !! "estimator_type" = Some v /\ py_str v <> tag_ratio.

(** Every call in the later trace is in the earlier one or satisfies [P]. *)
Definition calls_within (P : event -> Prop) (r r' : Run) : Prop :=
  forall ev, In ev (calls r') -> In ev (calls r) \/ P ev.

(** The trace only grows. *)
Definition calls_grow (r r' : Run) : Prop :=
  forall ev, In ev (calls r) -> In ev (calls r').

(** A call of the array loader. *)
Definition is_load (ev : event) : Prop :=
  match ev with CallLoadAndCheck _ _ _ => True | _ => False end.

(** A call of the loss factory carries a weight that [loss_weight_of]
    returned for the locals [l]. *)
Definition loss_weight_from (l : locals) (ev : event) : Prop :=
  match ev with
  | CallGetLoss _ _ w _ => loss_weight_of (l_w l) (l_x0 l) (l_x1 l) = Ok w
  | _ => True
  end.

(** Scaling statistics that are stored stay as they are. *)
Definition keeps_scaling (e e' : Estimator) : Prop :=
  forall m s, x_scaling_means e = Some m -> x_scaling_stds e = Some s ->
    x_scaling_means e' = Some m /\ x_scaling_stds e' = Some s.

Definition run_keeps_scaling (r r' : Run) : Prop := keeps_scaling (self r) (self r').

(** The estimator object is the same before and after. *)
Definition same_self (r r' : Run) : Prop := self r' = self r.

(** A call of the trainer carries the data [train] has bound in [l]. *)
Definition fit_data_from (l : locals) (ev : event) : Prop :=
  match ev with
  | CallTrainer req => fr_data _ req = TrainingData (l_x l) (l_y l) (l_w l)
  | _ => True
  end.

(** Not the creation of a model. *)
Definition no_model_built (ev : event) : Prop :=
  match ev with CallRatioModel _ _ _ _ => False | _ => True end.

(** The estimator holds the same model. *)
Definition same_model (e e' : Estimator) : Prop := model e' = model e.

Definition run_same_model (r r' : Run) : Prop := same_model (self r) (self r').

(** The estimator is left as it is. *)
Definition untouched (e e' : Estimator) : Prop := e' = e.

(** No file is created or changed. *)
Definition keeps_files (d d' : Disk) : Prop := d_files d' = d_files d.

End Vocabulary.

(** ** A settings record read field by field *)

Section RecordReading.
Context `{Externals}.

(** The assignments a settings record asks for, in the order the base
    decoder makes them: [n_observables], [n_parameters], [n_hidden],
    [activation], [features] as stored in the record, [features] converted
    ([None] and the text ["None"] mean no selection, anything else must
    convert to a list of ints), [dropout_prob] (absent means [0.0]).  Each
    entry is the update of the estimator, or the error that the lookup or
    the conversion of that field raises. *)
Definition record_assignments (st : settings) : list (result (Estimator -> Estimator)) :=
  [ rbind (rbind (getitem st "n_observables") py_int)
      (fun k => Ok (set_n_observables (Some k)));
    rbind (rbind (getitem st "n_parameters") py_int)
      (fun p => Ok (set_n_parameters (Some p)));
    rbind (rbind (getitem st "n_hidden") int_items)
      (fun h => Ok (set_n_hidden h));
    rbind (getitem st "activation")
      (fun v => Ok (set_activation (py_str v)));
    rbind (getitem st "features")
      (fun v => Ok (set_features (features_of_json v)));
    rbind (getitem st "features")
      (fun v => match v with
                | JNull => Ok (fun e => e)
                | JStr s =>
                    if String.eqb s "None" then Ok (set_features FeatNone)
                    else rbind (int_items v) (fun idx => Ok (set_features (FeatIdx idx)))
                | _ => rbind (int_items v) (fun idx => Ok (set_features (FeatIdx idx)))
                end);
    match st !! "dropout_prob" with
    | None => Ok (set_dropout_prob 0%Q)
    | Some v => rbind (py_float v) (fun q => Ok (set_dropout_prob q))
    end ].

(** Make the assignments one after the other, up to the first error. *)
Fixpoint assign_until_error (steps : list (result (Estimator -> Estimator)))
    (e : Estimator) : Estimator :=
  match steps with
  | Ok f :: rest => assign_until_error rest (f e)
  | _ => e
  end.

(** The error of the first entry that has one. *)
Fixpoint first_error {A} (steps : list (result A)) : option exn :=
  match steps with
  | [] => None
  | Ok _ :: rest => first_error rest
  | Raise err :: _ => Some err
  end.

(** [features] as a record gives it: [null] and the text ["None"] mean no
    selection, anything else is read as a list of ints. *)
Definition record_features (st : settings) : result features_t :=
  rbind (getitem st "features") (fun v =>
    match v with
    | JNull => Ok FeatNone
    | JStr s =>
        if String.eqb s "None" then Ok FeatNone
        else rbind (int_items v) (fun idx => Ok (FeatIdx idx))
    | _ => rbind (int_items v) (fun idx => Ok (FeatIdx idx))
    end).

(** [dropout_prob] as a record gives it: [0.0] when the key is absent. *)
Definition record_dropout (st : settings) : result Q :=
  match st !! "dropout_prob" with
  | None => Ok 0%Q
  | Some v => py_float v
  end.
End RecordReading.

(** ** Records used to exercise the codec *)

Module Records.
(** A complete record written for another estimator type. *)
Definition foreign : settings :=
  <["estimator_type" := JStr "parameterized_ratio"]>
  (<["n_observables" := JInt 7]> (<["n_parameters" := JInt 2]>
  (<["n_hidden" := JList [JInt 8; JInt 4]]> (<["activation" := JStr "relu"]>
  (<["features" := JNull]> (<["dropout_prob" := JFloat (1 # 10)]> ∅)))))).

(** The same record from before type tags existed. *)
Definition untagged : settings := delete "estimator_type" foreign.

(** The same record written by a ratio estimator. *)
Definition native : settings :=
<["estimator_type" := JStr tag_ratio]> foreign.

(** A record that holds a foreign tag and nothing else. *)
Definition tag_only : settings :=
  <["estimator_type" := JStr "parameterized_ratio"]> ∅.
End Records.

(** * Properties *)

(** ** Frame reasoning for computations *)

Section Frames.
Context {St : Type} (R : St -> St -> Prop).
Context (R_refl : forall s, R s s) (R_trans : forall a b c, R a b -> R b c -> R a c).

Lemma frame_ret {A} (a : A) : frame R (ret a).
Proof. intros s. apply R_refl. Qed.

Lemma frame_raise {A} (e : exn) : frame R (@raise St A e).
Proof. intros s. apply R_refl. Qed.

Lemma frame_lift {A} (r : result A) : frame R (lift r).
Proof. intros s. apply R_refl. Qed.

Lemma frame_gets {A} (f : St -> A) : frame R (gets f).
Proof. intros s. apply R_refl. Qed.

Lemma frame_bind {A B} (c : M St A) (k : A -> M St B) :
  frame R c -> (forall a, frame R (k a)) -> frame R (bind c k).
Proof.
  intros Hc Hk s. unfold bind. specialize (Hc s).
  destruct (c s) as [[a | e] s']; simpl in *; [| exact Hc].
  eapply R_trans; [exact Hc | apply Hk].
Qed.

(** After [gets f], the continuation may be examined at the state read. *)
Lemma frame_bind_gets {A B} (f : St -> A) (k : A -> M St B) :
  (forall s, R s (snd (k (f s) s))) -> frame R (bind (gets f) k).
Proof. intros Hk s. unfold bind, gets. simpl. apply Hk. Qed.

Lemma frame_try_except {A} (c h : M St A) cls :
  frame R c -> frame R h -> frame R (try_except c cls h).
Proof.
  intros Hc Hh s. unfold try_except. specialize (Hc s).
  destruct (c s) as [[a | e] s']; simpl in *; [exact Hc |].
  destruct (decide (exn_kind e = cls)); simpl; [| exact Hc].
  eapply R_trans; [exact Hc | apply Hh].
Qed.
End Frames.

Lemma frame_zoom {S T A} (RS : S -> S -> Prop) (RT : T -> T -> Prop)
    (get : T -> S) (set : S -> T -> T) (c : M S A) :
  (forall t s', RS (get t) s' -> RT t (set s' t)) ->
  frame RS c -> frame RT (zoom get set c).
Proof.
  intros Hset Hc t. unfold zoom. specialize (Hc (get t)).
  destruct (c (get t)) as [r s']. simpl in *. auto.
Qed.

(** ** What training leaves alone *)

Section Footprint.
Context `{Externals}.

Lemma keeps_config_refl e : keeps_config e e.
Proof. unfold keeps_config. auto 10. Qed.

Lemma keeps_config_trans a b c :
  keeps_config a b -> keeps_config b c -> keeps_config a c.
Proof.
  unfold keeps_config. intros (?&?&?&?&?&?&?) (?&?&?&?&?&?&?).
  repeat split; try congruence. auto.
Qed.

Lemma run_keeps_refl r : run_keeps r r.
Proof. apply keeps_config_refl. Qed.

Lemma run_keeps_trans a b c : run_keeps a b -> run_keeps b c -> run_keeps a c.
Proof. apply keeps_config_trans. Qed.

Lemma run_keeps_dict_refl r : run_keeps_dict r r.
Proof. split; [apply keeps_config_refl | reflexivity]. Qed.

Lemma run_keeps_dict_trans a b c :
  run_keeps_dict a b -> run_keeps_dict b c -> run_keeps_dict a c.
Proof.
  intros [? ?] [? ?]. split; [eapply keeps_config_trans; eauto | congruence].
Qed.

Lemma run_keeps_dict_weaken {A} (c : M Run A) :
  frame run_keeps_dict c -> frame run_keeps c.
Proof. intros Hc r. apply Hc. Qed.

Lemma frame_initialize_input_transform x transform overwrite :
  frame keeps_config (initialize_input_transform x transform overwrite).
Proof.
  intros e. unfold initialize_input_transform, bind, gets, modify, lift, ret. simpl.
  destruct (not_None (x_scaling_stds e) && not_None (x_scaling_means e) && negb overwrite);
    [apply keeps_config_refl |].
  destruct transform.
  - destruct (reduction_operand x); simpl; unfold keeps_config; simpl; auto 10.
  - destruct (shape0_of x); simpl; unfold keeps_config; simpl; auto 10.
Qed.

Lemma frame_transform_inputs x : frame keeps_config (_transform_inputs x).
Proof.
  intros e. unfold _transform_inputs, bind, gets, lift. simpl. apply keeps_config_refl.
Qed.

Lemma frame_check_consistency n : frame keeps_config (check_consistency n).
Proof.
  intros e. unfold check_consistency, bind, gets, modify, ret, raise. simpl.
  destruct (n_observables e) as [k |] eqn:Hk; simpl.
  - rewrite Hk. case_bool_decide; simpl; apply keeps_config_refl.
  - rewrite bool_decide_true by reflexivity. simpl.
    unfold keeps_config; simpl. rewrite Hk. repeat split; auto. discriminate.
Qed.

Lemma frame_create_model : frame keeps_config _create_model.
Proof.
  intros e. unfold _create_model, bind, gets, modify, lift. simpl.
  destruct (RatioModel _ _ _ _); simpl; unfold keeps_config; simpl; auto 10.
Qed.

Lemma frame_set_model m : frame keeps_config (modify (set_model m)).
Proof. intros e. unfold modify, keeps_config. simpl. auto 10. Qed.

Lemma frame_on_self {A} (c : M Estimator A) :
  frame keeps_config c -> frame run_keeps_dict (on_self c).
Proof.
  intros Hc. unfold on_self. eapply frame_zoom; [| exact Hc].
  intros r e' He. split; [exact He | reflexivity].
Qed.

Lemma frame_log ev : frame run_keeps_dict (log ev).
Proof.
  intros r. unfold log, modify. simpl.
  split; [apply keeps_config_refl | reflexivity].
Qed.
End Footprint.

Create HintDb frames.
#[local] Hint Resolve run_keeps_dict_refl run_keeps_dict_trans run_keeps_refl
  run_keeps_trans keeps_config_refl keeps_config_trans : frames.
#[local] Hint Resolve frame_initialize_input_transform frame_transform_inputs
  frame_check_consistency frame_create_model frame_set_model frame_log : frames.

(** Decompose a computation along its binds and branches. *)
Ltac frame_step refl trans :=
  first
    [ apply (frame_ret _ refl)
    | apply (frame_raise _ refl)
    | apply (frame_lift _ refl)
    | apply (frame_gets _ refl)
    | apply frame_log
    | apply frame_on_self; first [ solve [auto with frames]
                                 | apply (frame_gets _ keeps_config_refl) ]
    | apply (frame_bind _ trans); [| intros ?]
    | match goal with
      | |- frame _ (if ?b then _ else _) => destruct b
      | |- frame _ (match ?x with _ => _ end) => destruct x
      end ].

Section TrainFootprint.
Context `{Externals}.

Lemma frame_train_prepare args : frame run_keeps_dict (train_prepare args).
Proof.
  unfold train_prepare.
  repeat (frame_step run_keeps_dict_refl run_keeps_dict_trans).
Qed.

Lemma frame_train_fit args l : frame run_keeps_dict (train_fit args l).
Proof.
  unfold train_fit.
  repeat (frame_step run_keeps_dict_refl run_keeps_dict_trans).
Qed.

Lemma train_split args input r :
  train args input r =
  match train_reach args input r with
  | (Ok l, r') => train_fit args l r'
  | (Raise e, r') => (Raise e, r')
  end.
Proof.
  unfold train, train_reach, bind.
  destruct (train_load args input r) as [[[] | e] r1]; [| reflexivity].
  destruct (train_prepare args r1) as [[l | e] r2]; reflexivity.
Qed.

(** The loading loop touches the dictionary only. *)
Lemma load_training_data_self thr keys r :
  self (snd (load_training_data thr keys r)) = self r.
Proof.
  revert r. induction keys as [| k keys IH]; intros r; [reflexivity |].
  simpl. unfold bind, gets, log, modify, lift. simpl.
  destruct (input_data_dict r !! k) as [v |]; simpl.
  - destruct (load_and_check v thr (Some k)); simpl; [| reflexivity].
    etransitivity; [apply IH | reflexivity].
  - apply IH.
Qed.

Lemma frame_train_load args input : frame run_keeps (train_load args input).
Proof.
  intros r. unfold run_keeps, train_load.
  destruct input; [| apply keeps_config_refl].
  unfold bind, gets, raise. cbv beta iota.
  destruct (negb _); [apply keeps_config_refl |].
  rewrite load_training_data_self. apply keeps_config_refl.
Qed.

Lemma frame_train_reach args input : frame run_keeps (train_reach args input).
Proof.
  unfold train_reach. apply (frame_bind _ run_keeps_trans).
  - apply frame_train_load.
  - intros _. apply run_keeps_dict_weaken, frame_train_prepare.
Qed.

(** [train] never rewrites the configuration, and never changes
    [n_observables] once it is set; this holds for failing calls too. *)
Lemma frame_train args input : frame run_keeps (train args input).
Proof.
  intros r. rewrite train_split.
  pose proof (frame_train_reach args input r) as Hr.
  destruct (train_reach args input r) as [[l | e] r']; simpl in *; [| exact Hr].
  eapply run_keeps_trans; [exact Hr |].
  apply (frame_train_fit args l r').
Qed.

End TrainFootprint.

(** ** State errors before a model exists *)

(** C7. On an estimator whose model is [None], [save] raises the
    [ValueError] with the no-model message, and [evaluate_ratio] and
    [evaluate_performance] raise a [ValueError] too; no file is written and
    the estimator is left exactly as it was. *)
Theorem uninitialized_estimator_refuses `{Externals}
    (e : Estimator) (files : gmap string file) (filename : string)
    (save_model : bool) (x y : pydata) :
  model e = None ->
  save filename save_model (MkDisk e files)
    = (Raise (Exn ValueError msg_no_model_save), MkDisk e files) /\
  evaluate_ratio x e = (Raise (Exn ValueError msg_no_model_eval), e) /\
  evaluate_performance x y e = (Raise (Exn ValueError msg_no_model_eval), e).
Proof.
  intros Hm.
  unfold save, evaluate_ratio, evaluate_performance, bind, gets, raise. simpl.
  rewrite Hm. auto.
Qed.

Lemma uninitialized_estimator_refuses_witness :
  model Demo.fresh = None /\
  save "models/carl" false (MkDisk Demo.fresh ∅)
    = (Raise (Exn ValueError msg_no_model_save), MkDisk Demo.fresh ∅) /\
  evaluate_ratio (DArr Demo.x_2x2) Demo.fresh
    = (Raise (Exn ValueError msg_no_model_eval), Demo.fresh) /\
  evaluate_performance (DArr Demo.x_2x2) (DArr Demo.y_2) Demo.fresh
    = (Raise (Exn ValueError msg_no_model_eval), Demo.fresh).
Proof.
  split; [reflexivity |].
  apply (uninitialized_estimator_refuses Demo.fresh ∅ "models/carl" false
           (DArr Demo.x_2x2) (DArr Demo.y_2)).
  reflexivity.
Defined.

(** ** Evaluation of the ratio *)

(** C1. With a model in place, [evaluate_ratio] never returns: once the
    loader has produced the data, the call
    [self._transform_inputs(x, scaling=self.scaling_method)] raises
    [AttributeError] (no method assigns [scaling_method]) or, if the
    attribute was set from outside, [TypeError] (the method takes no
    [scaling] keyword).  The estimator is left as it was. *)
Theorem evaluate_ratio_never_returns `{Externals}
    (e : Estimator) (m : Model) (x : pydata) :
  let e1 := set_model (Some m) e in
  is_ok (fst (evaluate_ratio x e1)) = false /\
  snd (evaluate_ratio x e1) = e1 /\
  match load_and_check x None None with
  | Ok _ =>
      raised_class (fst (evaluate_ratio x e1))
      = Some (if bool_decide ("scaling_method" ∈ attrs e) then TypeError
              else AttributeError)
  | Raise err => fst (evaluate_ratio x e1) = Raise err
  end.
Proof.
  unfold evaluate_ratio, getattr_extra, call_transform_inputs,
    bind, gets, raise, lift, ret. simpl.
  destruct (load_and_check x None None) as [x' | err]; simpl; [| auto].
  destruct (bool_decide ("scaling_method" ∈ attrs e)); simpl; auto.
Qed.

(** The sibling [evaluate_performance] makes the same call without the
    keyword and goes through. *)
Lemma evaluate_performance_returns :
  fst (evaluate_performance (DArr Demo.x_2x2) (DArr Demo.y_2) Demo.trained) = Ok tt /\
  raised_class (fst (evaluate_ratio (DArr Demo.x_2x2) Demo.trained)) = Some AttributeError.
Proof. split; vm_compute; reflexivity. Qed.

(** ** The scalers *)

(** Disabling the input rescaling stores vectors as long as the first axis
    of [x]. *)
Lemma disabled_input_scaling_length `{Externals} (e : Estimator) (a : ndarray) :
  let e' := snd (initialize_input_transform (DArr a) false true e) in
  x_scaling_means e' = Some (np_zeros (shape0 a)) /\
  x_scaling_stds e' = Some (np_ones (shape0 a)).
Proof.
  unfold initialize_input_transform, bind, gets, modify, lift. simpl.
  rewrite andb_false_r. simpl. auto.
Qed.

(** C3. [initialize_input_transform(x, transform=False)] on an array of
    two samples and three observables stores means and stds of length two,
    the number of samples, where the claim asks for length three, the number
    of observables.  The conditional part of the claim holds:
    [initialize_parameter_transform(theta, transform=False)] leaves the
    parameter statistics absent. *)
Theorem disabled_scaling_uses_sample_count `{Externals}
    (e : Estimator) (c : ConditionalEstimator) (theta : pydata) :
  let e' := snd (initialize_input_transform (DArr Demo.x_2x3) false true e) in
  let c' := snd (initialize_parameter_transform theta false true c) in
  shape0 Demo.x_2x3 = 2%nat /\ shape1 Demo.x_2x3 = Ok 3%nat /\
  x_scaling_means e' = Some [0%Q; 0%Q] /\
  x_scaling_stds e' = Some [1%Q; 1%Q] /\
  theta_scaling_means c' = None /\ theta_scaling_stds c' = None.
Proof.
  unfold initialize_input_transform, initialize_parameter_transform,
    bind, gets, modify, lift. simpl.
  rewrite !andb_false_r. simpl. auto 10.
Qed.

(** The guard of the parameter scaler reads the observable statistics:
    with those absent, present parameter statistics are recomputed. *)
Lemma parameter_scaling_recomputed `{Externals}
    (c : ConditionalEstimator) (a : ndarray) (overwrite : bool) :
  x_scaling_means (cond_base c) = None ->
  theta_scaling_means
    (snd (initialize_parameter_transform (DArr a) true overwrite c))
  = Some (held (np_mean_axis0 a)).
Proof.
  intros Hx. unfold initialize_parameter_transform, bind, gets, modify, lift. simpl.
  rewrite Hx. simpl. rewrite andb_false_r. reflexivity.
Qed.

(** C4. A conditional estimator holding parameter statistics [0] and [1]
    and no observable statistics: [initialize_parameter_transform(theta,
    transform=True, overwrite=False)] with the two parameter points 5 and 7
    replaces the stored mean by 6, where the claim asks for a no-op. *)
Theorem parameter_scaling_guard_misses `{Externals} :
  let c0 := MkConditional RatioEstimator_default (Some [0%Q]) (Some [1%Q]) in
  let theta := DArr (Arr2 1 [[5%Q]; [7%Q]]) in
  let c1 := snd (initialize_parameter_transform theta true false c0) in
  fst (initialize_parameter_transform theta true false c0) = Ok tt /\
  (exists q, theta_scaling_means c1 = Some [q] /\ (q == 6)%Q) /\
  theta_scaling_means c1 <> theta_scaling_means c0.
Proof.
  cbn zeta.
  unfold initialize_parameter_transform, bind, gets, modify, lift. simpl.
  split; [reflexivity |]. split.
  - eexists. split; [reflexivity |]. vm_compute. reflexivity.
  - discriminate.
Qed.

(** ** The settings codec and the type tag *)

Section TypeTag.
Context `{Externals}.

(** The subclass decoder is the base decoder followed by the tag test. *)
Lemma ratio_unwrap_unfold (st : settings) (e : Estimator) :
  RatioEstimator_unwrap_settings st e =
  match Estimator_unwrap_settings st e with
  | (Ok _, e') =>
      match st !! "estimator_type" with
      | Some v =>
          if String.eqb (py_str v) tag_ratio then (Ok tt, e')
          else (Raise (Exn RuntimeError (msg_incompatible (py_str v))), e')
      | None => (Raise (Exn KeyError "estimator_type"), e')
      end
  | (Raise err, e') => (Raise err, e')
  end.
Proof.
  unfold RatioEstimator_unwrap_settings, bind at 1.
  destruct (Estimator_unwrap_settings st e) as [[[] | err] e']; [| reflexivity].
  unfold bind, lift, getitem, ret, raise.
  destruct (st !! "estimator_type") as [v |]; [| reflexivity].
  destruct (String.eqb (py_str v) tag_ratio); reflexivity.
Qed.

(** Without a tag the base decoder stops at its first statement. *)
Lemma base_unwrap_missing_tag (st : settings) (e : Estimator) :
  st !! "estimator_type" = None ->
  Estimator_unwrap_settings st e = (Raise (Exn RuntimeError msg_no_type), e).
Proof.
  intros Hm. unfold Estimator_unwrap_settings, bind at 1.
  unfold try_except, bind, lift, getitem, raise. rewrite Hm. simpl. reflexivity.
Qed.

Lemma ratio_unwrap_missing_tag (st : settings) (e : Estimator) :
  st !! "estimator_type" = None ->
  RatioEstimator_unwrap_settings st e = (Raise (Exn RuntimeError msg_no_type), e).
Proof.
  intros Hm. rewrite ratio_unwrap_unfold, base_unwrap_missing_tag by exact Hm.
  reflexivity.
Qed.

Lemma eqb_tag_false (s : string) : s <> tag_ratio -> String.eqb s tag_ratio = false.
Proof. intros Hne. apply String.eqb_neq. exact Hne. Qed.

Lemma ratio_unwrap_bad_tag_fails (st : settings) (e : Estimator) :
  bad_tag st -> is_ok (fst (RatioEstimator_unwrap_settings st e)) = false.
Proof.
  intros [Hm | (v & Hv & Hne)].
  - rewrite ratio_unwrap_missing_tag by exact Hm. reflexivity.
  - rewrite ratio_unwrap_unfold, Hv, eqb_tag_false by exact Hne.
    destruct (Estimator_unwrap_settings st e) as [[[] | err] e']; reflexivity.
Qed.

Lemma ratio_unwrap_bad_tag_state (st : settings) (e : Estimator) :
  bad_tag st ->
  snd (RatioEstimator_unwrap_settings st e) = snd (Estimator_unwrap_settings st e).
Proof.
  intros [Hm | (v & Hv & Hne)].
  - rewrite ratio_unwrap_missing_tag, base_unwrap_missing_tag by exact Hm. reflexivity.
  - rewrite ratio_unwrap_unfold, Hv, eqb_tag_false by exact Hne.
    destruct (Estimator_unwrap_settings st e) as [[[] | err] e']; reflexivity.
Qed.
End TypeTag.

Ltac fin_dropout :=
  match goal with
  | |- context [?st !! "dropout_prob"] =>
      destruct (st !! "dropout_prob") as [? |]; cbn; [| reflexivity];
      match goal with
      | |- context [py_float ?v] => destruct (py_float v); reflexivity
      end
  end.

Section ByFields.
Context `{Externals}.

Lemma py_float_not_KeyError (v : json) (err : exn) :
  py_float v = Raise err -> exn_kind err <> KeyError.
Proof.
  destruct v as [| b | z | q | s | l | d]; simpl; try discriminate;
    try (intros Heq; injection Heq as <-; discriminate).
  destruct (float_of_str s); [discriminate |].
  intros Heq. injection Heq as <-. discriminate.
Qed.

(** The last step of the base decoder: [dropout_prob], [0.0] when absent. *)
Lemma unwrap_dropout (st : settings) (e : Estimator) :
  try_except
    (v <~ lift (rbind (getitem st "dropout_prob") py_float) ;;
     modify (set_dropout_prob v))
    KeyError
    (modify (set_dropout_prob 0%Q)) e =
  match st !! "dropout_prob" with
  | None => (Ok tt, set_dropout_prob 0%Q e)
  | Some v =>
      match py_float v with
      | Ok q => (Ok tt, set_dropout_prob q e)
      | Raise err => (Raise err, e)
      end
  end.
Proof.
  unfold try_except, bind, lift, getitem, modify. 
  destruct (st !! "dropout_prob") as [v |]; simpl; [| reflexivity].
  destruct (py_float v) as [q | err] eqn:Hq; simpl; [reflexivity |].
  destruct (decide (exn_kind err = KeyError)) as [Hk | Hk]; [| reflexivity].
  exfalso. exact (py_float_not_KeyError v err Hq Hk).
Qed.

(** With a tag present, the base decoder makes the record's assignments in
    order and stops at the first that fails. *)
Lemma base_unwrap_by_fields (st : settings) (e : Estimator) (t : json) :
  st !! "estimator_type" = Some t ->
  Estimator_unwrap_settings st e =
  (match first_error (record_assignments st) with
   | Some err => Raise err
   | None => Ok tt
   end,
   assign_until_error (record_assignments st) e).
Proof.
  intros Ht.
  unfold Estimator_unwrap_settings, record_assignments.
  unfold bind at 1. unfold try_except at 1, bind at 1, lift at 1, getitem at 1.
  rewrite Ht. cbn [fst snd ret].
  unfold bind, lift, getitem, gets, modify, ret, raise.
  cbn [fst snd rbind assign_until_error first_error].
  destruct (st !! "n_observables") as [v1 |]; cbn; [| reflexivity].
  destruct (py_int v1) as [k |]; cbn; [| reflexivity].
  destruct (st !! "n_parameters") as [v2 |]; cbn; [| reflexivity].
  destruct (py_int v2) as [p |]; cbn; [| reflexivity].
  destruct (st !! "n_hidden") as [v3 |]; cbn; [| reflexivity].
  destruct (int_items v3) as [h |]; cbn; [| reflexivity].
  destruct (st !! "activation") as [v4 |]; cbn; [| reflexivity].
  destruct (st !! "features") as [v5 |]; cbn; [| reflexivity].
  pose proof (unwrap_dropout st) as Hd.
  unfold bind, lift, getitem, gets, modify, ret, raise in Hd.
  assert (Hlast : forall e', 
            try_except
              (fun s : Estimator =>
                 match rbind match st !! "dropout_prob" with
                             | Some v => Ok v
                             | None => Raise (Exn KeyError "dropout_prob")
                             end py_float with
                 | Ok a1 => (Ok tt, set_dropout_prob a1 s)
                 | Raise e0 => (Raise e0, s)
                 end) KeyError (fun s : Estimator => (Ok tt, set_dropout_prob 0 s)) e' =
            (match match st !! "dropout_prob" with
                   | Some v => rbind (py_float v) (fun q => Ok (set_dropout_prob q))
                   | None => Ok (set_dropout_prob 0)
                   end with
             | Ok _ => Ok tt
             | Raise err => Raise err
             end,
             match match st !! "dropout_prob" with
                   | Some v => rbind (py_float v) (fun q => Ok (set_dropout_prob q))
                   | None => Ok (set_dropout_prob 0)
                   end with
             | Ok f => f e'
             | Raise _ => e'
             end)).
  { intros e'. rewrite Hd. destruct (st !! "dropout_prob") as [v |]; [| reflexivity].
    destruct (py_float v); reflexivity. }
  destruct v5 as [| b | z | q | s | l | d]; cbn -[int_items].
  1: { rewrite Hlast. fin_dropout. }
  4: destruct (String.eqb s "None") eqn:Hs; cbn -[int_items];
       [rewrite Hlast; fin_dropout |].
  all: match goal with
       | |- context [int_items ?v] =>
           destruct (int_items v) as [idx |]; cbn -[int_items]; [| reflexivity]
       end;
    rewrite Hlast; fin_dropout.
Qed.
End ByFields.

Section ForeignTag.
Context `{Externals}.

(** A record whose fields all convert: every assignment is made. *)
Lemma assign_all_fields (st : settings) (e : Estimator)
    (k p : Z) (h : list Z) (a : json) (f : features_t) (q : Q) :
  rbind (getitem st "n_observables") py_int = Ok k ->
  rbind (getitem st "n_parameters") py_int = Ok p ->
  rbind (getitem st "n_hidden") int_items = Ok h ->
  getitem st "activation" = Ok a ->
  record_features st = Ok f ->
  record_dropout st = Ok q ->
  first_error (record_assignments st) = None /\
  assign_until_error (record_assignments st) e =
  set_dropout_prob q (set_features f (set_activation (py_str a) (set_n_hidden h
    (set_n_parameters (Some p) (set_n_observables (Some k) e))))).
Proof.
  intros Hk Hp Hh Ha Hf Hq.
  unfold record_assignments, record_features, record_dropout in *.
  rewrite Hk, Hp, Hh, Ha. cbn -[int_items].
  destruct (getitem st "features") as [v |]; [| discriminate]. cbn -[int_items] in *.
  assert (Hfin : forall g : Estimator -> Estimator,
            (forall e0, g (set_features (features_of_json v) e0) = set_features f e0) ->
            match match st !! "dropout_prob" with
                  | Some v0 => rbind (py_float v0) (fun q0 => Ok (set_dropout_prob q0))
                  | None => Ok (set_dropout_prob 0)
                  end with
            | Ok _ => None
            | Raise err => Some err
            end = None /\
            match match st !! "dropout_prob" with
                  | Some v0 => rbind (py_float v0) (fun q0 => Ok (set_dropout_prob q0))
                  | None => Ok (set_dropout_prob 0)
                  end with
            | Ok f1 =>
                f1 (g (set_features (features_of_json v)
                         (set_activation (py_str a) (set_n_hidden h
                            (set_n_parameters (Some p) (set_n_observables (Some k) e))))))
            | Raise _ =>
                g (set_features (features_of_json v)
                     (set_activation (py_str a) (set_n_hidden h
                        (set_n_parameters (Some p) (set_n_observables (Some k) e)))))
            end =
            set_dropout_prob q (set_features f (set_activation (py_str a) (set_n_hidden h
              (set_n_parameters (Some p) (set_n_observables (Some k) e)))))).
  { intros g Hg. destruct (st !! "dropout_prob") as [vd |].
    - rewrite Hq. cbn. split; [reflexivity |]. rewrite Hg. reflexivity.
    - injection Hq as <-. cbn. split; [reflexivity |]. rewrite Hg. reflexivity. }
  destruct v as [| b | z | q0 | s | l | d]; cbn -[int_items] in *.
  1: { injection Hf as <-. apply (Hfin (fun e0 => e0)). reflexivity. }
  4: { destruct (String.eqb s "None").
       - injection Hf as <-. apply (Hfin (set_features FeatNone)). reflexivity.
       - destruct (int_items (JStr s)) as [idx |]; [| discriminate]. cbn in *.
         injection Hf as <-. apply (Hfin (set_features (FeatIdx idx))). reflexivity. }
  all: match goal with
       | H : context [int_items ?v] |- _ =>
           destruct (int_items v) as [idx |]; [| discriminate]; cbn in *;
           injection H as <-; apply (Hfin (set_features (FeatIdx idx))); reflexivity
       end.
Qed.

(** A foreign tag: the subclass decoder ends with the first field error,
    or else with the error naming the tag, after the assignments that
    preceded it. *)
Lemma ratio_unwrap_foreign (st : settings) (e : Estimator) (t : json) :
  st !! "estimator_type" = Some t -> py_str t <> tag_ratio ->
  RatioEstimator_unwrap_settings st e =
  (Raise (match first_error (record_assignments st) with
          | Some err => err
          | None => Exn RuntimeError (msg_incompatible (py_str t))
          end),
   assign_until_error (record_assignments st) e).
Proof.
  intros Ht Hne.
  rewrite ratio_unwrap_unfold, (base_unwrap_by_fields st e t Ht), Ht,
    eqb_tag_false by exact Hne.
  destruct (first_error (record_assignments st)); reflexivity.
Qed.
End ForeignTag.

(** C2, amended.  Decoding a record with a missing or foreign
    [estimator_type] raises.  With the tag missing nothing is assigned: the
    estimator is unchanged.  With a foreign tag the error comes only after
    the record's fields were assigned, in the order [n_observables],
    [n_parameters], [n_hidden], [activation], [features], [dropout_prob], up
    to the first field that fails to convert.  So when every field
    converts, all six configuration fields hold the values of the rejected
    record (model and scaling statistics are untouched), and when
    [n_observables] does not convert the estimator is unchanged. *)
Theorem decode_bad_tag_state `{Externals} (st : settings) (e : Estimator) :
  bad_tag st ->
  let out := RatioEstimator_unwrap_settings st e in
  is_ok (fst out) = false /\
  snd out = snd (Estimator_unwrap_settings st e) /\
  (st !! "estimator_type" = None -> snd out = e /\ same_config (snd out) e) /\
  (st !! "estimator_type" <> None ->
   snd out = assign_until_error (record_assignments st) e /\
   (forall (k p : Z) (h : list Z) (a : json) (f : features_t) (q : Q),
      rbind (getitem st "n_observables") py_int = Ok k ->
      rbind (getitem st "n_parameters") py_int = Ok p ->
      rbind (getitem st "n_hidden") int_items = Ok h ->
      getitem st "activation" = Ok a ->
      record_features st = Ok f ->
      record_dropout st = Ok q ->
      n_observables (snd out) = Some k /\ n_parameters (snd out) = Some p /\
      n_hidden (snd out) = h /\ activation (snd out) = py_str a /\
      features (snd out) = f /\ dropout_prob (snd out) = q /\
      model (snd out) = model e /\
      x_scaling_means (snd out) = x_scaling_means e /\
      x_scaling_stds (snd out) = x_scaling_stds e) /\
   (forall err, rbind (getitem st "n_observables") py_int = Raise err ->
      snd out = e)).
Proof.
  intros Hbad out. unfold out.
  split; [apply ratio_unwrap_bad_tag_fails; exact Hbad |].
  split; [apply ratio_unwrap_bad_tag_state; exact Hbad |].
  split.
  - intros Hm. rewrite ratio_unwrap_missing_tag by exact Hm. simpl.
    split; [reflexivity |]. unfold same_config. auto 10.
  - intros Hpresent. destruct Hbad as [Hm | (t & Ht & Hne)]; [exfalso; apply Hpresent; exact Hm |].
    rewrite (ratio_unwrap_foreign st e t Ht Hne). cbn [snd].
    split; [reflexivity |]. split.
    + intros k p h a f q Hk Hp Hh Ha Hf Hq.
      destruct (assign_all_fields st e k p h a f q Hk Hp Hh Ha Hf Hq) as [_ ->].
      simpl. auto 10.
    + intros err Herr. unfold record_assignments. rewrite Herr. reflexivity.
Qed.

(** Both cases in the closed world: the untagged record leaves a fresh
    estimator fresh; the complete record written for another estimator type
    is rejected and leaves its seven observables, two parameters, hidden
    layers, activation and dropout behind. *)
Lemma decode_bad_tag_state_witness :
  (@bad_tag Demo.externals Records.untagged /\
   is_ok (fst (RatioEstimator_unwrap_settings Records.untagged Demo.fresh)) = false /\
   snd (RatioEstimator_unwrap_settings Records.untagged Demo.fresh) = Demo.fresh) /\
  (@bad_tag Demo.externals Records.foreign /\
   let e' := snd (RatioEstimator_unwrap_settings Records.foreign Demo.fresh) in
   n_observables e' = Some 7 /\ n_parameters e' = Some 2 /\ n_hidden e' = [8; 4] /\
   activation e' = "relu" /\ features e' = FeatNone /\ dropout_prob e' = (1 # 10)%Q).
Proof.
  split.
  - assert (Hm : Records.untagged !! "estimator_type" = None) by reflexivity.
    assert (Hbad : @bad_tag Demo.externals Records.untagged) by (left; exact Hm).
    split; [exact Hbad |].
    pose proof (decode_bad_tag_state Records.untagged Demo.fresh Hbad) as (Hf & _ & Hs & _).
    split; [exact Hf | exact (proj1 (Hs Hm))].
  - assert (Hbad : @bad_tag Demo.externals Records.foreign).
    { right. exists (JStr "parameterized_ratio"). split; [reflexivity | discriminate]. }
    split; [exact Hbad |].
    assert (Hpresent : Records.foreign !! "estimator_type" <> None) by discriminate.
    pose proof (decode_bad_tag_state Records.foreign Demo.fresh Hbad) as (_ & _ & _ & Hs).
    destruct (Hs Hpresent) as (_ & Hfields & _).
    destruct (Hfields 7 2 [8; 4] (JStr "relu") FeatNone (1 # 10)%Q
                eq_refl eq_refl eq_refl eq_refl eq_refl eq_refl)
      as (Hn & Hp & Hh & Ha & Hfe & Hd & _).
    repeat split; assumption.
Defined.

(** C2 as stated fails on a foreign tag: the call raises, and the fresh
    estimator now has the seven observables, the hidden layers and the
    activation of the rejected record. *)
Lemma decode_foreign_tag_overwrites :
  @bad_tag Demo.externals Records.foreign /\
  is_ok (fst (RatioEstimator_unwrap_settings Records.foreign Demo.fresh)) = false /\
  n_observables (snd (RatioEstimator_unwrap_settings Records.foreign Demo.fresh)) = Some 7 /\
  n_observables Demo.fresh = None /\
  ~ same_config (snd (RatioEstimator_unwrap_settings Records.foreign Demo.fresh)) Demo.fresh.
Proof.
  split.
  { right. exists (JStr "parameterized_ratio"). split; [reflexivity | discriminate]. }
  split; [vm_compute; reflexivity |].
  split; [vm_compute; reflexivity |].
  split; [reflexivity |].
  intros (Hn & _). vm_compute in Hn. discriminate.
Qed.

(** C8, amended.  Decoding a record with a missing or foreign
    [estimator_type] never succeeds.  With the tag missing the error is the
    [RuntimeError] about missing type information.  With a foreign tag the
    error is that of the first field, in the order [n_observables],
    [n_parameters], [n_hidden], [activation], [features], [dropout_prob],
    whose lookup or conversion fails (an absent [dropout_prob] is not a
    failure), and the [RuntimeError] naming the tag only when every field
    converts.  So a record without [n_observables] fails with [KeyError]
    for that key, and one with [null] there with the [TypeError] of
    [int(None)]. *)
Theorem decode_bad_tag_error `{Externals} (st : settings) (e : Estimator) :
  bad_tag st ->
  let res := fst (RatioEstimator_unwrap_settings st e) in
  is_ok res = false /\
  match st !! "estimator_type" with
  | None => res = Raise (Exn RuntimeError msg_no_type)
  | Some t =>
      res = Raise (match first_error (record_assignments st) with
                   | Some err => err
                   | None => Exn RuntimeError (msg_incompatible (py_str t))
                   end) /\
      (forall (k p : Z) (h : list Z) (a : json) (f : features_t) (q : Q),
         rbind (getitem st "n_observables") py_int = Ok k ->
         rbind (getitem st "n_parameters") py_int = Ok p ->
         rbind (getitem st "n_hidden") int_items = Ok h ->
         getitem st "activation" = Ok a ->
         record_features st = Ok f ->
         record_dropout st = Ok q ->
         res = Raise (Exn RuntimeError (msg_incompatible (py_str t)))) /\
      (st !! "n_observables" = None -> res = Raise (Exn KeyError "n_observables")) /\
      (st !! "n_observables" = Some JNull -> res = Raise (type_error msg_int_None)) /\
      (forall k, rbind (getitem st "n_observables") py_int = Ok k ->
                 st !! "n_parameters" = None ->
                 res = Raise (Exn KeyError "n_parameters"))
  end.
Proof.
  intros Hbad res. unfold res.
  split; [apply ratio_unwrap_bad_tag_fails; exact Hbad |].
  destruct Hbad as [Hm | (t & Ht & Hne)].
  - rewrite Hm, ratio_unwrap_missing_tag by exact Hm. reflexivity.
  - rewrite Ht, (ratio_unwrap_foreign st e t Ht Hne). cbn [fst].
    split; [reflexivity |]. split; [| split; [| split]].
    + intros k p h a f q Hk Hp Hh Ha Hf Hq.
      destruct (assign_all_fields st e k p h a f q Hk Hp Hh Ha Hf Hq) as [-> _].
      reflexivity.
    + intros Hnone. unfold record_assignments, getitem. rewrite Hnone. reflexivity.
    + intros Hnull. unfold record_assignments, getitem. rewrite Hnull. reflexivity.
    + intros k Hk Hnone. unfold record_assignments. rewrite Hk.
      unfold getitem at 1. rewrite Hnone. reflexivity.
Qed.

(** In the closed world: the complete record written for another estimator
    type fails with the error naming its tag, the record that holds that
    tag only fails with the [KeyError] of its first missing field. *)
Lemma decode_bad_tag_error_witness :
  (@bad_tag Demo.externals Records.foreign /\
   fst (RatioEstimator_unwrap_settings Records.foreign Demo.fresh)
   = Raise (Exn RuntimeError (msg_incompatible "parameterized_ratio"))) /\
  (@bad_tag Demo.externals Records.tag_only /\
   fst (RatioEstimator_unwrap_settings Records.tag_only Demo.fresh)
   = Raise (Exn KeyError "n_observables")).
Proof.
  assert (Hbad : @bad_tag Demo.externals Records.foreign).
  { right. exists (JStr "parameterized_ratio"). split; [reflexivity | discriminate]. }
  assert (Hbad' : @bad_tag Demo.externals Records.tag_only).
  { right. exists (JStr "parameterized_ratio"). split; [reflexivity | discriminate]. }
  split.
  - split; [exact Hbad |].
    pose proof (decode_bad_tag_error Records.foreign Demo.fresh Hbad) as (_ & Hk).
    destruct Hk as (_ & Hall & _).
    exact (Hall 7 2 [8; 4] (JStr "relu") FeatNone (1 # 10)%Q
             eq_refl eq_refl eq_refl eq_refl eq_refl eq_refl).
  - split; [exact Hbad' |].
    pose proof (decode_bad_tag_error Records.tag_only Demo.fresh Hbad') as (_ & Hk).
    destruct Hk as (_ & _ & Hmissing & _).
    exact (Hmissing eq_refl).
Defined.

(** C8 as stated fails on a record that holds a foreign tag only: decoding
    stops at the first missing field with a [KeyError] for
    [n_observables], which does not name the tag. *)
Lemma decode_foreign_tag_key_error :
  @bad_tag Demo.externals Records.tag_only /\
  fst (RatioEstimator_unwrap_settings Records.tag_only Demo.fresh)
  = Raise (Exn KeyError "n_observables") /\
  fst (RatioEstimator_unwrap_settings Records.tag_only Demo.fresh)
  <> Raise (Exn RuntimeError (msg_incompatible "parameterized_ratio")).
Proof.
  split.
  { right. exists (JStr "parameterized_ratio"). split; [reflexivity | discriminate]. }
  split; [vm_compute; reflexivity |].
  vm_compute. discriminate.
Qed.

(** ** The caller's dictionary *)

Section Bundle.
Context `{Externals}.



End Bundle.



(** ** The dimension lock *)

Section Lock.
Context `{Externals}.

Lemma check_consistency_mismatch (n k : Z) (e : Estimator) :
  n_observables e = Some k -> n <> k ->
  check_consistency n e = (Raise (Exn RuntimeError (msg_mismatch n (Some k))), e).
Proof.
  intros Hk Hne. unfold check_consistency, bind, gets, ret, raise. simpl.
  rewrite Hk. simpl. rewrite Hk.
  rewrite bool_decide_false by congruence. reflexivity.
Qed.

Lemma train_fit_mismatch args (l : locals) (r : Run) (k : Z) :
  n_observables (self r) = Some k ->
  Z.of_nat (l_n_observables l) <> k ->
  train_fit args l r
  = (Raise (Exn RuntimeError (msg_mismatch (Z.of_nat (l_n_observables l)) (Some k))), r).
Proof.
  intros Hk Hne. unfold train_fit, bind at 1. unfold on_self, zoom.
  rewrite (check_consistency_mismatch _ k) by assumption.
  destruct r. reflexivity.
Qed.

Lemma train_keeps_n_observables args input (r : Run) (k : Z) :
  n_observables (self r) = Some k ->
  n_observables (self (snd (train args input r))) = Some k.
Proof.
  intros Hk. pose proof (frame_train args input r) as Hf.
  unfold run_keeps, keeps_config in Hf.
  destruct Hf as (_ & _ & _ & _ & _ & _ & Hf). apply Hf. exact Hk.
Qed.

Lemma train_reach_keeps_n_observables args input (r : Run) (k : Z) :
  n_observables (self r) = Some k ->
  n_observables (self (snd (train_reach args input r))) = Some k.
Proof.
  intros Hk. pose proof (frame_train_reach args input r) as Hf.
  unfold run_keeps, keeps_config in Hf.
  destruct Hf as (_ & _ & _ & _ & _ & _ & Hf). apply Hf. exact Hk.
Qed.
End Lock.

(** C6, amended.  Once [n_observables] is set, no [train] call changes it,
    whatever the call does.  A call that reaches the consistency check with
    a number of observables (the local [n_observables] after feature
    restriction) different from the stored one raises the [RuntimeError]
    naming both numbers; a call that raises earlier, in validation, loading,
    scaling or restriction, ends with that earlier error.  Either way a
    call with a different number of observables does not return. *)
Theorem dimension_lock `{Externals}
    (args : train_args Opaque) (input : train_input) (r0 : Run) (k : Z) :
  n_observables (self r0) = Some k ->
  n_observables (self (snd (train args input r0))) = Some k /\
  match train_reach args input r0 with
  | (Raise err, r') => train args input r0 = (Raise err, r')
  | (Ok l, r') =>
      if bool_decide (Z.of_nat (l_n_observables l) = k) then True
      else train args input r0
           = (Raise (Exn RuntimeError
                       (msg_mismatch (Z.of_nat (l_n_observables l)) (Some k))), r')
  end.
Proof.
  intros Hk. split; [apply train_keeps_n_observables; exact Hk |].
  rewrite train_split.
  pose proof (train_reach_keeps_n_observables args input r0 k Hk) as Hk'.
  destruct (train_reach args input r0) as [[l | err] r']; [| reflexivity].
  simpl in Hk'. case_bool_decide as Hn; [exact I |].
  apply train_fit_mismatch; assumption.
Qed.

(** After a first call with two observables and the same scaling options,
    a call with two observables again goes through and a call on a bundle
    whose features select one column is stopped by the check. *)
Lemma dimension_lock_witness :
  n_observables Demo.trained = Some 2 /\
  n_observables
    (self (snd (@train Demo.externals Demo.carl ADict
                  (Demo.run0 (set_features (FeatIdx [0]) Demo.trained) Demo.bundle))))
  = Some 2 /\
  fst (@train Demo.externals Demo.carl ADict
         (Demo.run0 (set_features (FeatIdx [0]) Demo.trained) Demo.bundle))
  = Raise (Exn RuntimeError "Number of observables does not match model: 1 vs 2").
Proof.
  split; [reflexivity |].
  assert (Hk : n_observables
                 (self (Demo.run0 (set_features (FeatIdx [0]) Demo.trained) Demo.bundle))
               = Some 2) by reflexivity.
  destruct (@dimension_lock Demo.externals Demo.carl ADict _ 2 Hk) as [Hkeep _].
  split; [exact Hkeep |].
  vm_compute. reflexivity.
Defined.

(** C6 as stated fails when the stored scaling statistics do not fit the
    new data: after a first call with two observables, a call with three
    observables raises numpy's [ValueError] in [_transform_inputs], before
    the consistency check and its [RuntimeError] are reached. *)
Lemma dimension_mismatch_raises_value_error :
  n_observables Demo.trained = Some 2 /\
  shape1_of (dict_get Demo.bundle_3 "X_train") = Ok 3%nat /\
  features Demo.trained = FeatNone /\
  fst (@train Demo.externals Demo.carl ADict (Demo.run0 Demo.trained Demo.bundle_3))
  = Raise broadcast_error /\
  exn_kind broadcast_error = ValueError.
Proof. repeat split; vm_compute; reflexivity. Qed.

(** ** The calls a training run makes *)

Section CallFrames.
Context {St : Type} (R : St -> St -> Prop) (R_refl : forall s, R s s).

(** After [lift r], the continuation only runs on the value [r] holds. *)
Lemma frame_bind_lift {A B} (r : result A) (k : A -> M St B) :
  (forall a, r = Ok a -> frame R (k a)) -> frame R (bind (lift r) k).
Proof.
  intros Hk s. unfold bind, lift. destruct r as [a | e]; simpl.
  - apply Hk. reflexivity.
  - apply R_refl.
Qed.
End CallFrames.

Lemma bind_ok_inv {St A B} (c : M St A) (k : A -> M St B) s b s2 :
  bind c k s = (Ok b, s2) ->
  exists a s1, c s = (Ok a, s1) /\ k a s1 = (Ok b, s2).
Proof.
  unfold bind. destruct (c s) as [[a | e] s1]; [eauto | discriminate].
Qed.

Section Calls.
Context `{Externals}.

Lemma calls_within_refl P r : calls_within P r r.
Proof. intros ev Hev. left. exact Hev. Qed.

Lemma calls_within_trans P a b c :
  calls_within P a b -> calls_within P b c -> calls_within P a c.
Proof.
  intros Hab Hbc ev Hev. destruct (Hbc ev Hev) as [Hb | HP]; [| right; exact HP].
  apply Hab. exact Hb.
Qed.

Lemma calls_grow_refl r : calls_grow r r.
Proof. intros ev Hev. exact Hev. Qed.

Lemma calls_grow_trans a b c : calls_grow a b -> calls_grow b c -> calls_grow a c.
Proof. intros Hab Hbc ev Hev. apply Hbc, Hab, Hev. Qed.

Lemma on_self_calls {A} (c : M Estimator A) r : calls (snd (on_self c r)) = calls r.
Proof. unfold on_self, zoom. destruct (c (self r)). reflexivity. Qed.

Lemma within_on_self P {A} (c : M Estimator A) : frame (calls_within P) (on_self c).
Proof. intros r ev. rewrite on_self_calls. auto. Qed.

Lemma grow_on_self {A} (c : M Estimator A) : frame calls_grow (on_self c).
Proof. intros r ev. rewrite on_self_calls. auto. Qed.

Lemma within_log (P : event -> Prop) ev : P ev -> frame (calls_within P) (log ev).
Proof.
  intros HP r ev'. unfold log, modify. simpl. rewrite in_app_iff. simpl.
  intros [Hin | [<- | []]]; auto.
Qed.

Lemma grow_log ev : frame calls_grow (log ev).
Proof.
  intros r ev'. unfold log, modify. simpl. rewrite in_app_iff. auto.
Qed.

Lemma log_records ev r : In ev (calls (snd (log ev r))).
Proof. unfold log, modify. simpl. rewrite in_app_iff. simpl. auto. Qed.

Lemma within_set_dict P (f : Run -> gmap string pydata) :
  frame (calls_within P) (modify (fun r => set_dict (f r) r)).
Proof. intros r ev Hev. left. exact Hev. Qed.
End Calls.

Ltac within_step P leaf :=
  first
    [ apply (frame_ret _ (calls_within_refl P))
    | apply (frame_raise _ (calls_within_refl P))
    | apply (frame_gets _ (calls_within_refl P))
    | apply within_on_self
    | apply within_set_dict
    | apply within_log; leaf
    | apply (frame_lift _ (calls_within_refl P))
    | apply (frame_bind_lift _ (calls_within_refl P)); intros ? ?; try discriminate
    | apply (frame_bind _ (calls_within_trans P)); [| intros ?]
    | match goal with
      | |- frame _ (if ?b then _ else _) => destruct b
      | |- frame _ (match ?x with _ => _ end) => destruct x
      end ].

Ltac grow_step :=
  first
    [ apply (frame_ret _ calls_grow_refl)
    | apply (frame_raise _ calls_grow_refl)
    | apply (frame_gets _ calls_grow_refl)
    | apply (frame_lift _ calls_grow_refl)
    | apply grow_on_self
    | apply grow_log
    | apply (frame_bind _ calls_grow_trans); [| intros ?]
    | match goal with
      | |- frame _ (if ?b then _ else _) => destruct b
      | |- frame _ (match ?x with _ => _ end) => destruct x
      end ].

Section LossWeight.
Context `{Externals}.

Lemma within_load_training_data thr keys :
  frame (calls_within is_load) (load_training_data thr keys).
Proof.
  induction keys as [| k keys IH]; [apply (frame_ret _ (calls_within_refl _)) |].
  cbn [load_training_data].
  apply (frame_bind_gets (calls_within is_load)). intros r.
  pose proof (calls_within_trans is_load) as Ht.
  assert (Hstep : forall c : M Run unit,
             frame (calls_within is_load) c ->
             frame (calls_within is_load) (c ;;; load_training_data thr keys)).
  { intros c Hc. apply (frame_bind _ Ht); [exact Hc | intros _; exact IH]. }
  destruct (input_data_dict r !! k) as [v |].
  - apply Hstep. repeat (within_step is_load ltac:(exact I)).
  - apply Hstep. apply (frame_ret _ (calls_within_refl _)).
Qed.

Lemma within_train_load args input :
  frame (calls_within is_load) (train_load args input).
Proof.
  unfold train_load. destruct input; [| apply (frame_raise _ (calls_within_refl _))].
  apply (frame_bind _ (calls_within_trans _));
    [apply (frame_gets _ (calls_within_refl _)) | intros d].
  destruct (negb _); [apply (frame_raise _ (calls_within_refl _)) |].
  apply within_load_training_data.
Qed.

Lemma within_train_prepare P args : frame (calls_within P) (train_prepare args).
Proof. unfold train_prepare. repeat (within_step P ltac:(idtac)). Qed.

Lemma within_train_reach args input :
  frame (calls_within is_load) (train_reach args input).
Proof.
  unfold train_reach. apply (frame_bind _ (calls_within_trans _)).
  - apply within_train_load.
  - intros _. apply within_train_prepare.
Qed.

(** Lines 264-265 when [w] is [None]. *)
Lemma loss_weight_of_None (x0 x1 : pydata) (n0 n1 : nat) :
  py_len x0 = Ok n0 -> py_len x1 = Ok n1 ->
  loss_weight_of DNone x0 x1 =
  if Nat.eqb n1 0 then Raise (Exn ZeroDivisionError "division by zero")
  else Ok (ClassRatio (inject_Z (Z.of_nat n0) / inject_Z (Z.of_nat n1))).
Proof.
  intros H0 H1. unfold loss_weight_of, true_div. simpl.
  rewrite H0, H1. simpl. destruct (Nat.eqb n1 0); reflexivity.
Qed.

(** Whatever [train_fit] hands to the loss factory is the weight computed
    by [loss_weight_of]. *)
Lemma within_train_fit args (l : locals) :
  frame (calls_within (loss_weight_from l)) (train_fit args l).
Proof.
  unfold train_fit.
  repeat (within_step (loss_weight_from l) ltac:(simpl; auto)).
Qed.

(** A call that returns has gone through the loss factory. *)
Lemma train_fit_calls_get_loss args (l : locals) (r r1 : Run) res :
  train_fit args l r = (Ok res, r1) ->
  exists w, loss_weight_of (l_w l) (l_x0 l) (l_x1 l) = Ok w /\
            In (CallGetLoss (method args) (alpha args) w (loss_type args)) (calls r1).
Proof.
  intros Hrun. unfold train_fit in Hrun.
  apply bind_ok_inv in Hrun as (? & s1 & _ & Hrun).
  apply bind_ok_inv in Hrun as (e & s2 & _ & Hrun).
  apply bind_ok_inv in Hrun as (? & s3 & _ & Hrun).
  apply bind_ok_inv in Hrun as (w & s4 & Hw & Hrun).
  apply bind_ok_inv in Hrun as (? & s5 & Hlog & Hrun).
  unfold lift in Hw. injection Hw as Hw _.
  exists w. split; [exact Hw |].
  match type of Hrun with
  | ?tail s5 = _ => assert (Hgrow : frame calls_grow tail) by (repeat grow_step)
  end.
  specialize (Hgrow s5). rewrite Hrun in Hgrow. apply Hgrow.
  pose proof (log_records (CallGetLoss (method args) (alpha args) w (loss_type args)) s4)
    as Hrec.
  rewrite Hlog in Hrec. exact Hrec.
Qed.
End LossWeight.

(** C5, amended.  In a [train] call that gets as far as the consistency
    check with [w] bound to [None], [x0] holding [n0] samples and [x1]
    holding [n1] samples, every call of the loss factory made by this
    [train] call passes the scalar [n0 / n1]: the number of numerator
    (label 0) samples over the number of denominator (label 1) samples.
    The factory is called in every call that returns, and [n1] is not zero
    whenever it is called. *)
Theorem class_ratio_is_numerator_over_denominator `{Externals}
    (args : train_args Opaque) (input : train_input) (r0 r' : Run)
    (l : locals) (n0 n1 : nat) :
  train_reach args input r0 = (Ok l, r') ->
  l_w l = DNone -> py_len (l_x0 l) = Ok n0 -> py_len (l_x1 l) = Ok n1 ->
  let r1 := snd (train args input r0) in
  let ratio := ClassRatio (inject_Z (Z.of_nat n0) / inject_Z (Z.of_nat n1)) in
  (forall m a w t, In (CallGetLoss m a w t) (calls r1) ->
     In (CallGetLoss m a w t) (calls r0) \/ (w = ratio /\ n1 <> 0%nat)) /\
  (is_ok (fst (train args input r0)) = true ->
     In (CallGetLoss (method args) (alpha args) ratio (loss_type args)) (calls r1)).
Proof.
  intros Hreach Hw H0 H1 r1 ratio.
  assert (Hlw := loss_weight_of_None (l_x0 l) (l_x1 l) n0 n1 H0 H1).
  rewrite <- Hw in Hlw. fold ratio in Hlw.
  assert (Hfit : train args input r0 = train_fit args l r').
  { rewrite train_split, Hreach. reflexivity. }
  unfold r1. rewrite Hfit. split.
  - intros m a w t Hin.
    destruct (within_train_fit args l r' _ Hin) as [Hold | Hnew].
    + pose proof (within_train_reach args input r0) as Hr. rewrite Hreach in Hr.
      destruct (Hr _ Hold) as [Hold0 | []]. left. exact Hold0.
    + right. simpl in Hnew. rewrite Hlw in Hnew.
      destruct (Nat.eqb n1 0) eqn:Hn1; [discriminate |].
      split; [congruence |]. intros ->. discriminate.
  - destruct (train_fit args l r') as [[res | err] r2] eqn:Hrun; [| discriminate].
    intros _. apply train_fit_calls_get_loss in Hrun as (w' & Hw' & Hin).
    rewrite Hlw in Hw'. destruct (Nat.eqb n1 0); [discriminate |].
    injection Hw' as <-. exact Hin.
Qed.

(** The first training call of the closed world: one numerator sample,
    two denominator samples, no weights; the loss factory receives 1/2. *)
Lemma class_ratio_witness :
  In (CallGetLoss "carl" 1 (ClassRatio (inject_Z 1 / inject_Z 2)) "regular")
     (calls (snd Demo.first_train)).
Proof.
  destruct (@train_reach Demo.externals Demo.carl ADict (Demo.run0 Demo.fresh Demo.bundle))
    as [[l | err] r'] eqn:Hreach; [| vm_compute in Hreach; discriminate].
  assert (Hl : l_w l = DNone /\ py_len (l_x0 l) = Ok 1%nat /\ py_len (l_x1 l) = Ok 2%nat).
  { vm_compute in Hreach. injection Hreach as <- _. repeat split. }
  destruct Hl as (Hw & H0 & H1).
  destruct (@class_ratio_is_numerator_over_denominator Demo.externals
              Demo.carl ADict _ _ _ 1%nat 2%nat Hreach Hw H0 H1) as [_ Hcalled].
  apply Hcalled. vm_compute. reflexivity.
Defined.

(** C5 as stated fails: with one numerator sample in [X0_train] and two
    denominator samples in [X1_train] the loss factory receives 1/2, where
    the claim names the denominator count over the numerator count, 2. *)
Lemma class_ratio_is_not_denominator_over_numerator :
  py_len (dict_get Demo.bundle "X0_train") = Ok 1%nat /\
  py_len (dict_get Demo.bundle "X1_train") = Ok 2%nat /\
  dict_get Demo.bundle "w_train" = DNone /\
  fst Demo.first_train = Ok tt /\
  (exists q, In (CallGetLoss "carl" 1 (ClassRatio q) "regular")
               (calls (snd Demo.first_train)) /\
             (q == 1 # 2)%Q /\ ~ (q == inject_Z 2 / inject_Z 1)%Q) /\
  (forall m a w t, In (CallGetLoss m a w t) (calls (snd Demo.first_train)) ->
                   w <> ClassRatio (inject_Z 2 / inject_Z 1)).
Proof.
  split; [reflexivity |]. split; [reflexivity |]. split; [reflexivity |].
  split; [vm_compute; reflexivity |]. split.
  - exists (inject_Z 1 / inject_Z 2)%Q. split; [| split].
    + vm_compute. auto 20.
    + vm_compute. reflexivity.
    + vm_compute. discriminate.
  - intros m a w t Hin. vm_compute in Hin.
    repeat (destruct Hin as [Hin | Hin]; [try discriminate Hin |]); try contradiction.
    injection Hin as _ _ <- _. vm_compute. discriminate.
Qed.

(** ** Save, then load *)

Section RoundTrip.
Context `{Externals}.

Lemma append_inj_l (s a b : string) : s +:+ a = s +:+ b -> a = b.
Proof.
  induction s as [| c s IH]; simpl; intros Heq; [exact Heq |].
  injection Heq as Heq. apply IH. exact Heq.
Qed.

Lemma suffix_ne (s a b : string) : a <> b -> s +:+ a <> s +:+ b.
Proof. intros Hne Heq. apply Hne. eapply append_inj_l. exact Heq. Qed.

Lemma wrap_lookup_tag e :
  RatioEstimator_wrap_settings e !! "estimator_type" = Some (JStr tag_ratio).
Proof. unfold RatioEstimator_wrap_settings. apply lookup_insert_eq. Qed.

Lemma wrap_lookup_n_observables e :
  RatioEstimator_wrap_settings e !! "n_observables" = Some (json_of_int (n_observables e)).
Proof.
  unfold RatioEstimator_wrap_settings, Estimator_wrap_settings.
  repeat (rewrite lookup_insert_ne by discriminate). apply lookup_insert_eq.
Qed.

Lemma wrap_lookup_n_parameters e :
  RatioEstimator_wrap_settings e !! "n_parameters" = Some (json_of_int (n_parameters e)).
Proof.
  unfold RatioEstimator_wrap_settings, Estimator_wrap_settings.
  repeat (rewrite lookup_insert_ne by discriminate). apply lookup_insert_eq.
Qed.

Lemma wrap_lookup_n_hidden e :
  RatioEstimator_wrap_settings e !! "n_hidden" = Some (JList (map JInt (n_hidden e))).
Proof.
  unfold RatioEstimator_wrap_settings, Estimator_wrap_settings.
  repeat (rewrite lookup_insert_ne by discriminate). apply lookup_insert_eq.
Qed.

Lemma wrap_lookup_activation e :
  RatioEstimator_wrap_settings e !! "activation" = Some (JStr (activation e)).
Proof.
  unfold RatioEstimator_wrap_settings, Estimator_wrap_settings.
  repeat (rewrite lookup_insert_ne by discriminate). apply lookup_insert_eq.
Qed.

Lemma wrap_lookup_features e :
  RatioEstimator_wrap_settings e !! "features" = Some (json_of_features (features e)).
Proof.
  unfold RatioEstimator_wrap_settings, Estimator_wrap_settings.
  repeat (rewrite lookup_insert_ne by discriminate). apply lookup_insert_eq.
Qed.

Lemma wrap_lookup_dropout_prob e :
  RatioEstimator_wrap_settings e !! "dropout_prob" = Some (JFloat (dropout_prob e)).
Proof.
  unfold RatioEstimator_wrap_settings, Estimator_wrap_settings.
  repeat (rewrite lookup_insert_ne by discriminate). apply lookup_insert_eq.
Qed.

(** A record written with [n_parameters] unset cannot be decoded: the
    base decoder stores [n_observables] and stops at [int(None)]. *)
Lemma unwrap_null_parameters (e e2 : Estimator) (k : Z) :
  n_observables e = Some k -> n_parameters e = None ->
  RatioEstimator_unwrap_settings (RatioEstimator_wrap_settings e) e2
  = (Raise (type_error msg_int_None), set_n_observables (Some k) e2).
Proof.
  intros Hk Hp. rewrite ratio_unwrap_unfold.
  unfold Estimator_unwrap_settings, try_except, bind, lift, getitem, ret, modify.
  rewrite wrap_lookup_tag, wrap_lookup_n_observables, wrap_lookup_n_parameters, Hk, Hp.
  reflexivity.
Qed.

Lemma rmap_py_int_JInt (l : list Z) : rmap py_int (map JInt l) = Ok l.
Proof. induction l as [| z l IH]; simpl; [| rewrite IH]; reflexivity. Qed.

(** With both dimensions set and decoded features, the codec round-trips
    every configuration field. *)
Lemma codec_round_trip (e e2 : Estimator) (k p : Z) :
  n_observables e = Some k -> n_parameters e = Some p ->
  (forall v, features e <> FeatRaw v) ->
  fst (RatioEstimator_unwrap_settings (RatioEstimator_wrap_settings e) e2) = Ok tt /\
  same_config (snd (RatioEstimator_unwrap_settings (RatioEstimator_wrap_settings e) e2)) e.
Proof.
  intros Hk Hp Hf. rewrite ratio_unwrap_unfold.
  unfold Estimator_unwrap_settings, try_except, bind, lift, getitem, ret, modify, gets.
  rewrite wrap_lookup_tag, wrap_lookup_n_observables, wrap_lookup_n_parameters,
    wrap_lookup_n_hidden, wrap_lookup_activation, wrap_lookup_features,
    wrap_lookup_dropout_prob, Hk, Hp.
  unfold int_items. cbn [py_iter rbind json_of_int].
  rewrite !rmap_py_int_JInt.
  unfold same_config.
  destruct (features e) as [| idx | v] eqn:Hfe; [| | exfalso; eapply Hf; reflexivity].
  - simpl. rewrite Hk, Hp. auto 10.
  - simpl. rewrite !rmap_py_int_JInt. simpl. rewrite Hk, Hp. auto 10.
Qed.
End RoundTrip.

Section SaveLoad.
Context `{Externals}.

Lemma save_writes_settings (e : Estimator) (m : Model) files filename save_model :
  model e = Some m ->
  create_missing_folders (os_path_dirname filename) = Ok tt ->
  fst (save filename save_model (MkDisk e files)) = Ok tt /\
  d_self (snd (save filename save_model (MkDisk e files))) = e /\
  d_files (snd (save filename save_model (MkDisk e files)))
    !! (filename +:+ "_settings.json")
  = Some (FJson (RatioEstimator_wrap_settings e)).
Proof.
  intros Hm Hc. unfold save, make_missing_folders, bind, gets, lift, write_file, modify, ret. simpl.
  rewrite Hm, Hc. simpl.
  destruct (x_scaling_stds e), (x_scaling_means e), save_model; simpl;
    (split; [reflexivity |]); (split; [reflexivity |]);
    repeat (rewrite lookup_insert_ne by (apply suffix_ne; discriminate));
    apply lookup_insert_eq.
Qed.

Lemma load_null_parameters (e e2 : Estimator) (k : Z) files filename :
  n_observables e = Some k -> n_parameters e = None ->
  files !! (filename +:+ "_settings.json")
  = Some (FJson (RatioEstimator_wrap_settings e)) ->
  load filename (MkDisk e2 files)
  = (Raise (type_error msg_int_None), MkDisk (set_n_observables (Some k) e2) files).
Proof.
  intros Hk Hp Hfile. unfold load, bind at 1. unfold json_load, bind, gets, ret. simpl.
  rewrite Hfile. unfold on_disk_self, zoom. simpl.
  rewrite (unwrap_null_parameters e e2 k Hk Hp). reflexivity.
Qed.

Lemma check_consistency_ok (n : Z) (e e' : Estimator) :
  check_consistency n e = (Ok tt, e') -> n_observables e' = Some n.
Proof.
  unfold check_consistency, bind, gets, modify, ret, raise. simpl.
  destruct (n_observables e) as [k |] eqn:Hk; simpl.
  - rewrite Hk. case_bool_decide as Hn; [| discriminate].
    intros Heq. injection Heq as <-. congruence.
  - rewrite bool_decide_true by reflexivity. intros Heq. injection Heq as <-.
    reflexivity.
Qed.

(** A [train] call that returns leaves a model and a number of
    observables behind. *)
Lemma train_fit_ok args (l : locals) (r r1 : Run) res :
  train_fit args l r = (Ok res, r1) ->
  model (self r1) <> None /\ n_observables (self r1) <> None.
Proof.
  intros Hrun. unfold train_fit in Hrun.
  apply bind_ok_inv in Hrun as (? & s1 & Hcheck & Hrun).
  assert (Hn : n_observables (self s1) = Some (Z.of_nat (l_n_observables l))).
  { unfold on_self, zoom in Hcheck.
    destruct (check_consistency _ (self r)) as [[[] | err] e'] eqn:Hc; [| discriminate].
    injection Hcheck as Hs. subst s1. simpl. eapply check_consistency_ok. exact Hc. }
  split.
  - do 10 (apply bind_ok_inv in Hrun as (? & ? & _ & Hrun)).
    match type of Hrun with
    | match model ?e with _ => _ end ?s = _ => destruct (model e) as [m |]
    end; [| discriminate].
    apply bind_ok_inv in Hrun as (? & s & _ & Hrun).
    apply bind_ok_inv in Hrun as (? & s' & Hset & Hrun).
    unfold lift in Hrun. injection Hrun as _ <-.
    unfold on_self, zoom, modify in Hset. simpl in Hset.
    injection Hset as Hs'. subst s'. simpl. discriminate.
  - match type of Hrun with
    | ?tail s1 = _ =>
        assert (Hf : frame run_keeps_dict tail)
          by (repeat (frame_step run_keeps_dict_refl run_keeps_dict_trans))
    end.
    specialize (Hf s1). rewrite Hrun in Hf. destruct Hf as [Hf _].
    unfold keeps_config in Hf. destruct Hf as (_ & _ & _ & _ & _ & _ & Hf).
    simpl in Hf. rewrite (Hf _ Hn). discriminate.
Qed.

Lemma train_ok args input (r r1 : Run) res :
  train args input r = (Ok res, r1) ->
  model (self r1) <> None /\ n_observables (self r1) <> None /\
  n_parameters (self r1) = n_parameters (self r).
Proof.
  intros Hrun. split; [| split].
  - rewrite train_split in Hrun.
    destruct (train_reach args input r) as [[l | err] r']; [| discriminate].
    apply (train_fit_ok _ _ _ _ _ Hrun).
  - rewrite train_split in Hrun.
    destruct (train_reach args input r) as [[l | err] r']; [| discriminate].
    apply (train_fit_ok _ _ _ _ _ Hrun).
  - pose proof (frame_train args input r) as Hf. rewrite Hrun in Hf.
    unfold run_keeps, keeps_config in Hf. simpl in Hf. tauto.
Qed.
End SaveLoad.

(** C9.  A ratio estimator built by [__init__] and trained by a [train]
    call that returns is saved without error, and [load] of what was saved
    raises [TypeError]: [train] never assigns [n_parameters], [save] writes
    it as [null], and the decoder applies [int] to it.  The estimator
    loaded into keeps its own model, so a fresh one stays without a model;
    the claim asks for the configuration to be reproduced. *)
Theorem save_then_load_raises `{Externals}
    (args : train_args Opaque) (input : train_input) (d0 : gmap string pydata)
    (f : features_t) (h : list Z) (a : string) (p : Q) (e2 : Estimator)
    (files : gmap string file) (filename : string) (save_model : bool)
    (res : Opaque) (r1 : Run) :
  train args input (MkRun (Estimator_init f h a p) d0 []) = (Ok res, r1) ->
  create_missing_folders (os_path_dirname filename) = Ok tt ->
  let saved := save filename save_model (MkDisk (self r1) files) in
  let loaded := load filename (MkDisk e2 (d_files (snd saved))) in
  fst saved = Ok tt /\
  n_parameters (self r1) = None /\
  fst loaded = Raise (type_error msg_int_None) /\
  model (d_self (snd loaded)) = model e2 /\
  n_parameters (d_self (snd loaded)) = n_parameters e2.
Proof.
  intros Htrain Hfold saved loaded.
  destruct (train_ok _ _ _ _ _ Htrain) as (Hm & Hn & Hp). simpl in Hp.
  destruct (model (self r1)) as [m |] eqn:Hm'; [| contradiction].
  destruct (n_observables (self r1)) as [k |] eqn:Hn'; [| contradiction].
  destruct (save_writes_settings (self r1) m files filename save_model Hm' Hfold)
    as (Hs1 & _ & Hs3).
  split; [exact Hs1 |]. split; [exact Hp |].
  unfold loaded, saved.
  rewrite (load_null_parameters (self r1) e2 k _ filename Hn' Hp Hs3).
  simpl. auto.
Qed.

(** The closed world: train on the fresh estimator, save under
    [models/carl], load into another fresh estimator. *)
Lemma save_then_load_raises_witness :
  fst Demo.first_train = Ok tt /\
  fst (save "models/carl" false (MkDisk Demo.trained ∅)) = Ok tt /\
  fst (load "models/carl"
         (MkDisk Demo.fresh
            (d_files (snd (save "models/carl" false (MkDisk Demo.trained ∅))))))
  = Raise (type_error msg_int_None).
Proof.
  assert (Htrain : @train Demo.externals Demo.carl ADict
                     (MkRun (Estimator_init FeatNone [100] "tanh" 0%Q) Demo.bundle [])
                   = (Ok tt, snd Demo.first_train)).
  { vm_compute. reflexivity. }
  assert (Hfold : @create_missing_folders Demo.externals
                    (@os_path_dirname Demo.externals "models/carl") = Ok tt)
    by reflexivity.
  split; [vm_compute; reflexivity |].
  destruct (@save_then_load_raises Demo.externals Demo.carl ADict Demo.bundle
              FeatNone [100] "tanh" 0%Q Demo.fresh ∅ "models/carl" false tt
              (snd Demo.first_train) Htrain Hfold) as (Hs & _ & Hl & _).
  split; [exact Hs | exact Hl].
Defined.

(** * Further properties of the code *)

(** ** The input scaler *)

Lemma np_maximum_length (v : list (option Q)) (floor : Q) :
  length (np_maximum v floor) = length v.
Proof. unfold np_maximum. apply length_map. Qed.



Lemma held_length `{Externals} (v : list (option Q)) : length (held v) = length v.
Proof. unfold held. apply length_map. Qed.





(** Without samples both statistics are [nan], one per column. *)
Lemma fitted_scaling_without_samples `{Externals} (e : Estimator) (c : nat) :
  let e' := snd (initialize_input_transform (DArr (Arr2 c [])) true true e) in
  x_scaling_means e' = Some (repeat float_nan c) /\
  x_scaling_stds e' = Some (repeat float_nan c).
Proof.
  unfold initialize_input_transform, bind, gets, modify, lift. simpl.
  rewrite andb_false_r. simpl. unfold held, np_maximum. rewrite !map_map. simpl.
  assert (Hrep : forall n k, map (fun _ : nat => float_nan) (seq k n) = repeat float_nan n).
  { induction n as [| n IH]; intros k; simpl; [reflexivity | rewrite IH; reflexivity]. }
  rewrite Hrep. auto.
Qed.



(** With [overwrite=False] the scaler is idempotent on arrays: a second
    call, with any data and either value of [transform], changes nothing
    the first call left. *)
Theorem input_scaling_idempotent `{Externals}
    (e : Estimator) (a : ndarray) (x : pydata) (transform transform' : bool) :
  let e1 := snd (initialize_input_transform (DArr a) transform false e) in
  fst (initialize_input_transform (DArr a) transform false e) = Ok tt /\
  initialize_input_transform x transform' false e1 = (Ok tt, e1).
Proof.
  unfold initialize_input_transform, bind, gets, modify, lift, ret. simpl.
  destruct (x_scaling_stds e) as [s |] eqn:Hs, (x_scaling_means e) as [m |] eqn:Hm;
    simpl; destruct transform; simpl; try rewrite Hs; try rewrite Hm; simpl; auto.
Qed.

(** Statistics fitted on a 2-d array apply to that array: the transform
    returns an array of the same shape and leaves the estimator alone. *)
Theorem fitted_scaling_applies `{Externals}
    (e : Estimator) (c : nat) (rows : list (list Q)) :
  let x := DArr (Arr2 c rows) in
  let e' := snd (initialize_input_transform x true true e) in
  exists rows',
    _transform_inputs x e' = (Ok (DArr (Arr2 c rows')), e') /\
    length rows' = length rows.
Proof.
  unfold initialize_input_transform, _transform_inputs, apply_scaling,
    bind, gets, modify, lift. simpl.
  rewrite andb_false_r. simpl.
  rewrite held_length, length_map, length_seq, Nat.eqb_refl. simpl.
  unfold np_idiv.
  rewrite held_length, np_maximum_length, length_map, length_seq, Nat.eqb_refl. simpl.
  eexists. split; [reflexivity |]. rewrite !length_map. reflexivity.
Qed.

(** After rescaling was disabled on an array with [n] samples and [c]
    observables, where [n], [c] and 1 are all different, applying the
    transform to that array raises numpy's broadcasting [ValueError]: the
    stored identity statistics have [n] entries. *)
Theorem disabled_scaling_breaks_transform `{Externals}
    (e : Estimator) (c : nat) (rows : list (list Q)) :
  c <> length rows -> length rows <> 1%nat -> c <> 1%nat ->
  let x := DArr (Arr2 c rows) in
  let e' := snd (initialize_input_transform x false true e) in
  _transform_inputs x e' = (Raise broadcast_error, e').
Proof.
  intros Hcn Hn1 Hc1.
  unfold initialize_input_transform, _transform_inputs, apply_scaling,
    bind, gets, modify, lift. simpl.
  rewrite andb_false_r. simpl.
  unfold np_zeros. rewrite repeat_length.
  destruct (Nat.eqb c (length rows)) eqn:Heq; [apply Nat.eqb_eq in Heq; contradiction |].
  destruct (Nat.eqb c 1) eqn:Hc; [apply Nat.eqb_eq in Hc; contradiction |].
  destruct (length rows) as [| [| n]]; [reflexivity | contradiction | reflexivity].
Qed.

Lemma disabled_scaling_breaks_transform_witness :
  fst (_transform_inputs (DArr Demo.x_2x3)
         (snd (initialize_input_transform (DArr Demo.x_2x3) false true Demo.fresh)))
  = Raise broadcast_error.
Proof.
  assert (H1 : 3%nat <> length [[1%Q; 2%Q; 3%Q]; [4%Q; 5%Q; 6%Q]]) by (simpl; lia).
  assert (H2 : length [[1%Q; 2%Q; 3%Q]; [4%Q; 5%Q; 6%Q]] <> 1%nat) by (simpl; lia).
  assert (H3 : 3%nat <> 1%nat) by lia.
  exact (f_equal fst (@disabled_scaling_breaks_transform Demo.externals Demo.fresh 3
                        [[1%Q; 2%Q; 3%Q]; [4%Q; 5%Q; 6%Q]] H1 H2 H3)).
Defined.

(** ** The settings codec *)

Ltac decode_cases :=
  repeat (simpl;
          match goal with
          | |- context [match ?x with _ => _ end] =>
              lazymatch x with
              | context [match _ with _ => _ end] => fail
              | _ => destruct x eqn:?
              end
          end);
  simpl; try reflexivity; try discriminate; try congruence.

(** A record without [dropout_prob] (an older file) is decoded by the base
    decoder like the same record with any readable dropout value, except
    that the dropout probability ends as [0.0]; a record that fails to
    decode fails with the same error and leaves the same state. *)
Theorem decode_defaults_dropout `{Externals}
    (st : settings) (v : json) (q : Q) (e : Estimator) :
  py_float v = Ok q ->
  Estimator_unwrap_settings (delete "dropout_prob" st) e =
  match Estimator_unwrap_settings (<["dropout_prob" := v]> st) e with
  | (Ok _, e') => (Ok tt, set_dropout_prob 0%Q e')
  | (Raise err, e') => (Raise err, e')
  end.
Proof.
  intros Hq.
  unfold Estimator_unwrap_settings, try_except, bind, lift, getitem, gets, modify,
    ret, raise.
  rewrite lookup_delete_eq, lookup_insert_eq.
  repeat (rewrite lookup_delete_ne by discriminate).
  repeat (rewrite lookup_insert_ne by discriminate).
  cbn [rbind]. rewrite Hq.
  decode_cases.
Qed.

Lemma decode_defaults_dropout_witness :
  dropout_prob
    (snd (Estimator_unwrap_settings (delete "dropout_prob" Records.foreign) Demo.fresh))
  = 0%Q /\
  fst (Estimator_unwrap_settings (delete "dropout_prob" Records.foreign) Demo.fresh)
  = Ok tt.
Proof.
  assert (Hq : @py_float Demo.externals (JFloat (1 # 10)) = Ok (1 # 10)) by reflexivity.
  pose proof (@decode_defaults_dropout Demo.externals Records.foreign
                (JFloat (1 # 10)) (1 # 10) Demo.fresh Hq) as Hd.
  rewrite Hd. split; vm_compute; reflexivity.
Defined.

(** The text ["None"] in the [features] field is read as no feature
    selection: the record decodes exactly as with [null] there. *)
Theorem decode_features_none_text `{Externals} (st : settings) (e : Estimator) :
  RatioEstimator_unwrap_settings (<["features" := JStr "None"]> st) e =
  RatioEstimator_unwrap_settings (<["features" := JNull]> st) e.
Proof.
  rewrite !ratio_unwrap_unfold.
  unfold Estimator_unwrap_settings, try_except, bind, lift, getitem, gets, modify,
    ret, raise.
  rewrite !lookup_insert_eq.
  repeat (rewrite lookup_insert_ne by discriminate).
  decode_cases.
Qed.

(** ** Save and load *)

(** [save] never changes the estimator.  The only files it can create or
    change are the five artifacts of its prefix; the only folders it can
    make are those [create_missing_folders] makes for the parent of the
    prefix, and no folder disappears.  This holds when the call raises too.
    After a call that returns the folders of the parent exist. *)
Theorem save_footprint `{Externals}
    (e : Estimator) (files : gmap string file) (folders : gset string)
    (filename : string) (save_model : bool) :
  let out := save filename save_model (DiskState e files folders) in
  d_self (snd out) = e /\
  (forall p, ~ In p (save_paths filename) -> d_files (snd out) !! p = files !! p) /\
  folders ⊆ d_folders (snd out) /\
  d_folders (snd out) ⊆ folders ∪ folders_made (os_path_dirname filename) /\
  (is_ok (fst out) = true ->
   d_folders (snd out) = folders ∪ folders_made (os_path_dirname filename)).
Proof.
  unfold save, make_missing_folders, save_paths, bind, gets, lift, write_file, modify,
    ret, raise.
  simpl.
  destruct (model e) as [m |]; simpl;
    [| repeat split; try reflexivity; try set_solver; discriminate].
  destruct (create_missing_folders (os_path_dirname filename)); simpl;
    [| repeat split; try reflexivity; try set_solver; discriminate].
  destruct (x_scaling_stds e), (x_scaling_means e), save_model; simpl;
    (split; [reflexivity |]); (split; [| split; [set_solver | split; [set_solver | reflexivity]]]);
    intros p Hp;
    repeat (rewrite lookup_insert_ne by (intros <-; apply Hp; auto 10));
    reflexivity.
Qed.

(** Saving the trained estimator of the closed world on an empty disk makes
    the folder of the prefix and nothing else. *)
Lemma save_footprint_witness :
  d_folders (snd (save "models/carl" false (DiskState Demo.trained ∅ ∅)))
  = ∅ ∪ @folders_made Demo.externals (@os_path_dirname Demo.externals "models/carl").
Proof.
  apply (@save_footprint Demo.externals Demo.trained ∅ ∅ "models/carl" false).
  vm_compute. reflexivity.
Defined.

(** What a successful [save] writes: the tagged settings record, the state
    dict, the two scaling vectors exactly when both are present (otherwise
    those two paths are left as they were), and the whole model exactly when
    [save_model] is set. *)
Theorem save_writes_artifacts `{Externals}
    (e : Estimator) (m : Model) (files : gmap string file) (filename : string)
    (save_model : bool) :
  model e = Some m ->
  create_missing_folders (os_path_dirname filename) = Ok tt ->
  let out := save filename save_model (MkDisk e files) in
  let written := d_files (snd out) in
  fst out = Ok tt /\
  written !! (filename +:+ "_settings.json") = Some (FJson (RatioEstimator_wrap_settings e)) /\
  written !! (filename +:+ "_state_dict.pt") = Some (FStateDict (state_dict m)) /\
  match x_scaling_means e, x_scaling_stds e with
  | Some means, Some stds =>
      written !! (filename +:+ "_x_means.npy") = Some (FNpy means) /\
      written !! (filename +:+ "_x_stds.npy") = Some (FNpy stds)
  | _, _ =>
      written !! (filename +:+ "_x_means.npy") = files !! (filename +:+ "_x_means.npy") /\
      written !! (filename +:+ "_x_stds.npy") = files !! (filename +:+ "_x_stds.npy")
  end /\
  written !! (filename +:+ "_model.pt")
  = (if save_model then Some (FModel m) else files !! (filename +:+ "_model.pt")).
Proof.
  intros Hm Hc. unfold save, make_missing_folders, bind, gets, lift, write_file, modify, ret. simpl.
  rewrite Hm, Hc. simpl.
  destruct (x_scaling_stds e), (x_scaling_means e), save_model; simpl;
    repeat split;
    repeat first [ apply lookup_insert_eq
                 | rewrite lookup_insert_ne by (apply suffix_ne; discriminate) ];
    reflexivity.
Qed.

Lemma save_writes_artifacts_witness :
  fst (save "models/carl" true (MkDisk Demo.trained ∅)) = Ok tt /\
  d_files (snd (save "models/carl" true (MkDisk Demo.trained ∅)))
    !! "models/carl_settings.json"
  = Some (FJson (RatioEstimator_wrap_settings Demo.trained)).
Proof.
  assert (Hm : model Demo.trained = Some (Some 2, [100], "tanh", 0%Q))
    by (vm_compute; reflexivity).
  assert (Hc : @create_missing_folders Demo.externals
                 (@os_path_dirname Demo.externals "models/carl") = Ok tt)
    by reflexivity.
  destruct (@save_writes_artifacts Demo.externals Demo.trained _ ∅ "models/carl" true
              Hm Hc) as (Hok & Hset & _).
  split; [exact Hok | exact Hset].
Defined.

(** [load] tolerates missing scaling files: with a settings record that
    decodes, a model that can be built and a state dict that loads, [load]
    returns with both scaling statistics absent when the means file is
    missing, or when the means file is there and the stds file is not.  The
    configuration is the decoded one and no file is changed. *)
Theorem load_without_scaling_files `{Externals}
    (e e1 : Estimator) (files : gmap string file) (filename : string)
    (st : settings) (m m' : Model) (sd : StateDict) :
  files !! (filename +:+ "_settings.json") = Some (FJson st) ->
  RatioEstimator_unwrap_settings st e = (Ok tt, e1) ->
  RatioModel (n_observables e1) (n_hidden e1) (activation e1) (dropout_prob e1) = Ok m ->
  (files !! (filename +:+ "_x_means.npy") = None \/
   (exists v, files !! (filename +:+ "_x_means.npy") = Some (FNpy v)) /\
   files !! (filename +:+ "_x_stds.npy") = None) ->
  files !! (filename +:+ "_state_dict.pt") = Some (FStateDict sd) ->
  load_state_dict m sd = Ok m' ->
  let out := load filename (MkDisk e files) in
  fst out = Ok tt /\
  x_scaling_means (d_self (snd out)) = None /\
  x_scaling_stds (d_self (snd out)) = None /\
  model (d_self (snd out)) = Some m' /\
  same_config (d_self (snd out)) e1 /\
  d_files (snd out) = files.
Proof.
  intros Hset Hdec Hmod Hscal Hsd Hlsd out.
  assert (Hout : out = (Ok tt,
            MkDisk (set_model (Some m')
                      (set_x_scaling_stds None
                         (set_x_scaling_means None (set_model (Some m) e1)))) files)).
  { unfold out, load, json_load, np_load, torch_load, on_disk_self, zoom,
      _create_model, try_except, not_found, bind, gets, lift, modify, ret, raise.
    simpl. rewrite Hset. simpl. rewrite Hdec. simpl. rewrite Hmod. simpl.
    destruct Hscal as [Hmeans | [[v Hmeans] Hstds]].
    - rewrite Hmeans. simpl. rewrite Hsd. simpl. rewrite Hlsd. reflexivity.
    - rewrite Hmeans. simpl. rewrite Hstds. simpl. rewrite Hsd. simpl. rewrite Hlsd.
      reflexivity. }
  rewrite Hout. unfold same_config. simpl. repeat split; reflexivity.
Qed.

Lemma load_without_scaling_files_witness :
  let files : gmap string file :=
    <["m_settings.json" := FJson Records.native]>
      (<["m_state_dict.pt" := @FStateDict Demo.externals tt]> ∅) in
  fst (load "m" (MkDisk Demo.fresh files)) = Ok tt /\
  x_scaling_means (d_self (snd (load "m" (MkDisk Demo.fresh files)))) = None /\
  n_observables (d_self (snd (load "m" (MkDisk Demo.fresh files)))) = Some 7.
Proof.
  intros files.
  assert (Hset : files !! ("m" +:+ "_settings.json") = Some (FJson Records.native))
    by reflexivity.
  assert (Hdec : RatioEstimator_unwrap_settings Records.native Demo.fresh
                 = (Ok tt, snd (RatioEstimator_unwrap_settings Records.native Demo.fresh)))
    by (vm_compute; reflexivity).
  assert (Hscal : files !! ("m" +:+ "_x_means.npy") = None \/
                  (exists v, files !! ("m" +:+ "_x_means.npy") = Some (FNpy v)) /\
                  files !! ("m" +:+ "_x_stds.npy") = None)
    by (left; reflexivity).
  assert (Hsd : files !! ("m" +:+ "_state_dict.pt") = Some (@FStateDict Demo.externals tt))
    by reflexivity.
  destruct (@load_without_scaling_files Demo.externals Demo.fresh _ files "m"
              Records.native _ _ tt Hset Hdec eq_refl Hscal Hsd eq_refl)
    as (Hok & Hmeans & _ & _ & Hcfg & _).
  split; [exact Hok |]. split; [exact Hmeans |].
  destruct Hcfg as (Hn & _). rewrite Hn. vm_compute. reflexivity.
Defined.

(** The files a round trip reads back, as [save] leaves them. *)
Lemma save_leaves_readable `{Externals}
    (e : Estimator) (m : Model) (files : gmap string file) (filename : string)
    (save_model : bool) (mu sg : list Q) :
  model e = Some m ->
  create_missing_folders (os_path_dirname filename) = Ok tt ->
  x_scaling_means e = Some mu -> x_scaling_stds e = Some sg ->
  let written := d_files (snd (save filename save_model (MkDisk e files))) in
  written !! (filename +:+ "_settings.json") = Some (FJson (RatioEstimator_wrap_settings e)) /\
  written !! (filename +:+ "_state_dict.pt") = Some (FStateDict (state_dict m)) /\
  written !! (filename +:+ "_x_means.npy") = Some (FNpy mu) /\
  written !! (filename +:+ "_x_stds.npy") = Some (FNpy sg).
Proof.
  intros Hm Hc Hmu Hsg. unfold save, make_missing_folders, bind, gets, lift, write_file, modify, ret. simpl.
  rewrite Hm, Hc. simpl. rewrite Hmu, Hsg.
  destruct save_model; simpl;
    repeat split;
    repeat first [ apply lookup_insert_eq
                 | rewrite lookup_insert_ne by (apply suffix_ne; discriminate) ];
    reflexivity.
Qed.

(** Round trip through the files when both dimensions are set: saving a
    configured estimator that holds both scaling vectors and loading the
    prefix into any estimator reproduces the configuration fields and the
    scaling vectors, and the model is the rebuilt one with the saved state
    dict loaded into it. *)
Theorem save_load_round_trip `{Externals}
    (e e2 : Estimator) (m m2 m3 : Model) (files : gmap string file)
    (filename : string) (save_model : bool) (k p : Z) (mu sg : list Q) :
  model e = Some m ->
  n_observables e = Some k -> n_parameters e = Some p ->
  (forall v, features e <> FeatRaw v) ->
  x_scaling_means e = Some mu -> x_scaling_stds e = Some sg ->
  create_missing_folders (os_path_dirname filename) = Ok tt ->
  RatioModel (Some k) (n_hidden e) (activation e) (dropout_prob e) = Ok m2 ->
  load_state_dict m2 (state_dict m) = Ok m3 ->
  let saved := snd (save filename save_model (MkDisk e files)) in
  let out := load filename (MkDisk e2 (d_files saved)) in
  fst out = Ok tt /\
  same_config (d_self (snd out)) e /\
  x_scaling_means (d_self (snd out)) = Some mu /\
  x_scaling_stds (d_self (snd out)) = Some sg /\
  model (d_self (snd out)) = Some m3.
Proof.
  intros Hm Hk Hp Hf Hmu Hsg Hc Hmod Hlsd saved out.
  destruct (save_leaves_readable e m files filename save_model mu sg Hm Hc Hmu Hsg)
    as (Hset & Hsd & Hmeans & Hstds).
  destruct (codec_round_trip e e2 k p Hk Hp Hf) as [Hdok Hcfg].
  destruct (RatioEstimator_unwrap_settings (RatioEstimator_wrap_settings e) e2)
    as [r e1] eqn:Hdec.
  simpl in Hdok, Hcfg. subst r.
  destruct Hcfg as (Hn & Hnp & Hh & Ha & Hfe & Hd).
  assert (Hout : out = (Ok tt,
            MkDisk (set_model (Some m3)
                      (set_x_scaling_stds (Some sg)
                         (set_x_scaling_means (Some mu) (set_model (Some m2) e1))))
                   (d_files saved))).
  { unfold out. clear out. fold saved in Hset, Hsd, Hmeans, Hstds.
    generalize dependent (d_files saved). intros fs Hset Hsd Hmeans Hstds.
    unfold load, json_load, np_load, torch_load, on_disk_self, zoom,
      _create_model, try_except, not_found, bind, gets, lift, modify, ret, raise.
    simpl. rewrite Hset. simpl. rewrite Hdec. simpl.
    rewrite Hn, Hh, Ha, Hd, Hk, Hmod. simpl.
    rewrite Hmeans. simpl. rewrite Hstds. simpl. rewrite Hsd. simpl. rewrite Hlsd.
    reflexivity. }
  rewrite Hout. unfold same_config. simpl. rewrite Hk, Hp.
  repeat split; assumption || reflexivity || congruence.
Qed.

Lemma save_load_round_trip_witness :
  let e := @MkEstimator Demo.externals FeatNone [100] "tanh" 0%Q
             (Some (Some 2, [100], "tanh", 0%Q)) (Some 2) (Some 0)
             (Some [0%Q; 0%Q]) (Some [1%Q; 1%Q]) ∅ in
  let saved := snd (save "models/carl" false (MkDisk e ∅)) in
  fst (load "models/carl" (MkDisk Demo.fresh (d_files saved))) = Ok tt /\
  same_config (d_self (snd (load "models/carl" (MkDisk Demo.fresh (d_files saved))))) e.
Proof.
  intros e saved.
  assert (Hf : forall v, features e <> FeatRaw v) by (intros v; discriminate).
  destruct (@save_load_round_trip Demo.externals e Demo.fresh
              (Some 2, [100], "tanh", 0%Q) (Some 2, [100], "tanh", 0%Q)
              (Some 2, [100], "tanh", 0%Q) ∅ "models/carl" false
              2 0 [0%Q; 0%Q] [1%Q; 1%Q]
              eq_refl eq_refl eq_refl Hf eq_refl eq_refl eq_refl eq_refl eq_refl)
    as (Hok & Hcfg & _).
  split; [exact Hok | exact Hcfg].
Defined.

(** ** The settings codec *)

(** Encoding an estimator whose two dimensions are set and whose features
    are absent or a list of indices, and decoding the record into any
    estimator, succeeds and reproduces every configuration field:
    [n_observables], [n_parameters], [n_hidden], [activation], [features]
    and [dropout_prob]. *)
Theorem settings_round_trip `{Externals} (e e2 : Estimator) (k p : Z) :
  n_observables e = Some k -> n_parameters e = Some p ->
  (forall v, features e <> FeatRaw v) ->
  fst (RatioEstimator_unwrap_settings (RatioEstimator_wrap_settings e) e2) = Ok tt /\
  same_config (snd (RatioEstimator_unwrap_settings (RatioEstimator_wrap_settings e) e2)) e.
Proof. apply codec_round_trip. Qed.

(** The codec alone, on the same kind of estimator. *)
Lemma settings_round_trip_witness :
  let e := set_n_parameters (Some 0) Demo.trained in
  same_config
    (snd (RatioEstimator_unwrap_settings (RatioEstimator_wrap_settings e) Demo.fresh)) e.
Proof.
  intros e.
  assert (Hk : n_observables e = Some 2) by (vm_compute; reflexivity).
  assert (Hp : n_parameters e = Some 0) by reflexivity.
  assert (Hf : forall v, features e <> FeatRaw v) by (intros v; vm_compute; discriminate).
  exact (proj2 (@settings_round_trip Demo.externals e Demo.fresh 2 0 Hk Hp Hf)).
Defined.

(** ** Training: validation and loading *)

Lemma missing_required_key `{Externals} (d : gmap string pydata) (k : string) :
  In k required_list -> d !! k = None -> forallb (has_key d) required_list = false.
Proof.
  intros Hin Hk. destruct (forallb (has_key d) required_list) eqn:Hall; [| reflexivity].
  rewrite forallb_forall in Hall. specialize (Hall k Hin).
  unfold has_key in Hall. rewrite Hk in Hall. discriminate.
Qed.

(** A malformed [input_data_dict] is refused before anything happens:
    [TypeError] for an argument that is not a dict, [KeyError] when a
    required key is missing.  No collaborator is called, and the estimator
    and the dictionary are exactly as before. *)
Theorem train_rejects_malformed_bundle `{Externals}
    (args : train_args Opaque) (input : train_input) (r : Run) :
  match input with
  | NotADict _ => True
  | ADict => exists k, In k required_list /\ input_data_dict r !! k = None
  end ->
  snd (train args input r) = r /\
  raised_class (fst (train args input r))
  = Some (match input with NotADict _ => TypeError | ADict => KeyError end).
Proof.
  intros Hbad. unfold train, train_load, bind, gets, raise.
  destruct input as [| type_repr]; [| split; reflexivity].
  destruct Hbad as (k & Hin & Hk).
  cbv beta iota. rewrite (missing_required_key _ k Hin Hk). split; reflexivity.
Qed.

Lemma train_rejects_malformed_bundle_witness :
  let r := Demo.run0 Demo.fresh (delete "w_train" Demo.bundle) in
  snd (@train Demo.externals Demo.carl ADict r) = r /\
  raised_class (fst (@train Demo.externals Demo.carl ADict r)) = Some KeyError.
Proof.
  intros r.
  apply (@train_rejects_malformed_bundle Demo.externals Demo.carl ADict r).
  exists "w_train". split; [simpl; auto | reflexivity].
Defined.

Lemma train_load_self `{Externals} args input (r : Run) :
  self (snd (train_load args input r)) = self r.
Proof.
  unfold train_load. destruct input; [| reflexivity].
  unfold bind, gets, raise. cbv beta iota.
  destruct (negb _); [reflexivity |]. apply load_training_data_self.
Qed.

(** When validation or loading fails, [train] ends with that error and the
    estimator is untouched: no scaling is fitted, no model is built, and the
    only collaborator that was called is the loader. *)
Theorem train_load_failure_keeps_estimator `{Externals}
    (args : train_args Opaque) (input : train_input) (r r' : Run) (err : exn) :
  train_load args input r = (Raise err, r') ->
  train args input r = (Raise err, r') /\
  self r' = self r /\
  forall ev, In ev (calls r') -> In ev (calls r) \/ is_load ev.
Proof.
  intros Hload. split; [| split].
  - unfold train, bind. rewrite Hload. reflexivity.
  - pose proof (train_load_self args input r) as Hs. rewrite Hload in Hs. exact Hs.
  - pose proof (within_train_load args input r) as Hc. rewrite Hload in Hc. exact Hc.
Qed.

(** A bundle whose [y_train] names a file the loader does not know: the
    call raises the loader's error, the estimator is still fresh, and
    [X_train], which was loaded first, is already replaced in the caller's
    dictionary. *)
Lemma train_load_failure_keeps_estimator_witness :
  let d := <["y_train" := DStr "data/nowhere.npy"]> Demo.bundle_paths in
  let out := @train Demo.externals Demo.carl ADict (Demo.run0 Demo.fresh d) in
  fst out = Raise (Exn FileNotFoundError "data/nowhere.npy") /\
  self (snd out) = Demo.fresh /\
  input_data_dict (snd out) !! "X_train" = Some (DArr Demo.x_2x2).
Proof.
  intros d out.
  assert (Hload : @train_load Demo.externals Demo.carl ADict (Demo.run0 Demo.fresh d)
                  = (Raise (Exn FileNotFoundError "data/nowhere.npy"),
                     snd (@train_load Demo.externals Demo.carl ADict
                            (Demo.run0 Demo.fresh d))))
    by (vm_compute; reflexivity).
  destruct (@train_load_failure_keeps_estimator Demo.externals Demo.carl ADict _ _ _ Hload)
    as (Hrun & Hself & _).
  unfold out. rewrite Hrun. split; [reflexivity |]. split; [exact Hself |].
  vm_compute. reflexivity.
Defined.

(** ** Training: the validation split *)

(** An external validation split whose observable count differs from that
    of the training data stops the call with [AssertionError] right after
    loading: the estimator is untouched and nothing but the loader was
    called. *)
Theorem validation_split_width_mismatch `{Externals}
    (args : train_args Opaque) (input : train_input) (r rL : Run)
    (c c' : nat) (rows rows' : list (list Q)) (y_val : pydata) :
  train_load args input r = (Ok tt, rL) ->
  input_data_dict rL !! "X_train" = Some (DArr (Arr2 c rows)) ->
  input_data_dict rL !! "X_val" = Some (DArr (Arr2 c' rows')) ->
  input_data_dict rL !! "y_val" = Some y_val -> y_val <> DNone ->
  c' <> c ->
  train args input r = (Raise (Exn AssertionError ""), rL) /\ self rL = self r.
Proof.
  intros Hload Hx Hxv Hyv Hy Hc. split.
  - unfold train, bind at 1. rewrite Hload.
    unfold bind at 1, train_prepare, bind, gets, lift, ret, raise, dict_get. simpl.
    rewrite Hx, Hxv, Hyv. simpl.
    destruct y_val; try contradiction; simpl;
      (destruct (Nat.eqb c' c) eqn:Heq; [apply Nat.eqb_eq in Heq; contradiction |]);
      reflexivity.
  - pose proof (train_load_self args input r) as Hs. rewrite Hload in Hs. exact Hs.
Qed.

Lemma validation_split_width_mismatch_witness :
  let d := <["X_val" := DArr Demo.x_2x3]> (<["y_val" := DArr Demo.y_2]> Demo.bundle) in
  fst (@train Demo.externals Demo.carl ADict (Demo.run0 Demo.fresh d))
  = Raise (Exn AssertionError "").
Proof.
  intros d.
  assert (Hload : @train_load Demo.externals Demo.carl ADict (Demo.run0 Demo.fresh d)
                  = (Ok tt, snd (@train_load Demo.externals Demo.carl ADict
                                   (Demo.run0 Demo.fresh d))))
    by (vm_compute; reflexivity).
  assert (Hx : input_data_dict (snd (@train_load Demo.externals Demo.carl ADict
                                       (Demo.run0 Demo.fresh d))) !! "X_train"
               = Some (DArr (Arr2 2 [[1%Q; 10%Q]; [3%Q; 30%Q]])))
    by (vm_compute; reflexivity).
  assert (Hxv : input_data_dict (snd (@train_load Demo.externals Demo.carl ADict
                                        (Demo.run0 Demo.fresh d))) !! "X_val"
                = Some (DArr (Arr2 3 [[1%Q; 2%Q; 3%Q]; [4%Q; 5%Q; 6%Q]])))
    by (vm_compute; reflexivity).
  assert (Hyv : input_data_dict (snd (@train_load Demo.externals Demo.carl ADict
                                        (Demo.run0 Demo.fresh d))) !! "y_val"
                = Some (DArr Demo.y_2))
    by (vm_compute; reflexivity).
  assert (Hy : DArr Demo.y_2 <> DNone) by discriminate.
  assert (Hc : 3%nat <> 2%nat) by lia.
  exact (f_equal fst (proj1 (@validation_split_width_mismatch Demo.externals Demo.carl
                               ADict _ _ _ _ _ _ _ Hload Hx Hxv Hyv Hy Hc))).
Defined.

(** ** Training: what the call leaves in [n_observables] *)

Lemma frame_run `{St : Type} {A : Type} (R : St -> St -> Prop) (c : M St A) s out s' :
  frame R c -> c s = (out, s') -> R s s'.
Proof. intros Hf Hrun. specialize (Hf s). rewrite Hrun in Hf. exact Hf. Qed.

Tactic Notation "keeps_of" hyp(H) "as" ident(F) :=
  match type of H with
  | ?c ?s = (_, ?s') =>
      assert (F : run_keeps_dict s s');
      [ eapply (frame_run run_keeps_dict c);
        [ repeat (frame_step (@run_keeps_dict_refl _) (@run_keeps_dict_trans _))
        | exact H ]
      | ]
  end.

Section Prepared.
Context `{Externals}.

Lemma take_columns_width (a a' : ndarray) (idx : list Z) :
  take_columns a idx = Ok a' -> shape1 a' = Ok (length idx).
Proof.
  unfold take_columns. destruct a as [v | c rows]; [discriminate |].
  destruct (rmap (norm_index c) idx); simpl; [| discriminate].
  intros Heq. injection Heq as <-. reflexivity.
Qed.

(** The locals [train] has bound when it reaches the consistency check. *)
Lemma train_prepare_locals args (r r' : Run) (l : locals) :
  train_prepare args r = (Ok l, r') ->
  l_y l = dict_get (input_data_dict r) "y_train" /\
  l_w l = dict_get (input_data_dict r) "w_train" /\
  match features (self r) with
  | FeatNone =>
      shape1_of (dict_get (input_data_dict r) "X_train") = Ok (l_n_observables l)
  | FeatIdx idx => l_n_observables l = length idx
  | FeatRaw _ => True
  end.
Proof.
  intros Hrun. unfold train_prepare in Hrun.
  apply bind_ok_inv in Hrun as (d & s1 & H1 & Hrun).
  unfold gets in H1. injection H1 as Hd Hs1. subst d s1.
  apply bind_ok_inv in Hrun as (n_samples & s2 & H2 & Hrun).
  unfold lift in H2. injection H2 as H2 Hs2. subst s2.
  apply bind_ok_inv in Hrun as (n & s3 & H3 & Hrun).
  unfold lift in H3. injection H3 as H3 Hs3. subst s3.
  apply bind_ok_inv in Hrun as (u4 & s4 & H4 & Hrun).
  apply bind_ok_inv in Hrun as (meta & s5 & H5 & Hrun).
  apply bind_ok_inv in Hrun as (scaled & s6 & H6 & Hrun).
  keeps_of H4 as K4. keeps_of H5 as K5. keeps_of H6 as K6.
  assert (Hfeat : features (self s6) = features (self r)).
  { destruct K4 as [(Ha & _) _], K5 as [(Hb & _) _], K6 as [(Hc & _) _].
    congruence. }
  destruct scaled as [[[xs x_val] x0] x1].
  apply bind_ok_inv in Hrun as (f & s7 & H7 & Hrun).
  unfold on_self, zoom, gets in H7. simpl in H7. injection H7 as Hf Hs7.
  rewrite Hfeat in Hf. subst f.
  destruct (features (self r)) as [| idx | v].
  - unfold ret in Hrun. injection Hrun as <- _. simpl. auto.
  - apply bind_ok_inv in Hrun as (x' & s8 & H8 & Hrun).
    apply bind_ok_inv in Hrun as (n' & s9 & H9 & Hrun).
    apply bind_ok_inv in Hrun as (xv' & s10 & _ & Hrun).
    unfold ret in Hrun. injection Hrun as <- _. simpl.
    split; [reflexivity |]. split; [reflexivity |].
    unfold lift in H8, H9. injection H8 as H8 _. injection H9 as H9 _.
    unfold restrict_columns in H8. destruct xs as [| | a |]; try discriminate.
    destruct (take_columns a idx) as [a' |] eqn:Htake; [| discriminate].
    simpl in H8. injection H8 as <-. simpl in H9.
    rewrite (take_columns_width _ _ _ Htake) in H9. congruence.
  - apply bind_ok_inv in Hrun as (x' & s8 & _ & Hrun).
    apply bind_ok_inv in Hrun as (n' & s9 & _ & Hrun).
    apply bind_ok_inv in Hrun as (xv' & s10 & _ & Hrun).
    unfold ret in Hrun. injection Hrun as <- _. simpl. auto.
Qed.

(** A [train_fit] that returns has set [n_observables] to the count it
    checked, and has not touched the dictionary. *)
Lemma train_fit_sets_n_observables args (l : locals) (r r1 : Run) res :
  train_fit args l r = (Ok res, r1) ->
  n_observables (self r1) = Some (Z.of_nat (l_n_observables l)) /\
  input_data_dict r1 = input_data_dict r.
Proof.
  intros Hrun. split.
  - unfold train_fit in Hrun.
    apply bind_ok_inv in Hrun as (? & s1 & Hcheck & Hrun).
    assert (Hn : n_observables (self s1) = Some (Z.of_nat (l_n_observables l))).
    { unfold on_self, zoom in Hcheck.
      destruct (check_consistency _ (self r)) as [[[] | err] e'] eqn:Hc; [| discriminate].
      injection Hcheck as Hs. subst s1. simpl. eapply check_consistency_ok. exact Hc. }
    keeps_of Hrun as K. destruct K as [(_ & _ & _ & _ & _ & _ & Hk) _]. apply Hk. exact Hn.
  - apply (frame_run run_keeps_dict _ _ _ _ (frame_train_fit args l) Hrun).
Qed.
End Prepared.

(** After any [train] call that returns, [n_observables] is the number of
    observables of the data of that call: with no feature selection the
    number of columns of the loaded [X_train] (which the caller's dictionary
    now holds), with a list of feature indices the length of that list. *)
Theorem train_records_observable_count `{Externals}
    (args : train_args Opaque) (input : train_input) (r r1 : Run) (res : Opaque) :
  train args input r = (Ok res, r1) ->
  match features (self r) with
  | FeatNone =>
      exists c : nat,
        shape1_of (dict_get (input_data_dict r1) "X_train") = Ok c /\
        n_observables (self r1) = Some (Z.of_nat c)
  | FeatIdx idx => n_observables (self r1) = Some (Z.of_nat (length idx))
  | FeatRaw _ => True
  end.
Proof.
  intros Hrun. unfold train in Hrun.
  apply bind_ok_inv in Hrun as ([] & rL & Hload & Hrun).
  apply bind_ok_inv in Hrun as (l & r' & Hprep & Hfit).
  destruct (train_prepare_locals args rL r' l Hprep) as (_ & _ & Hcount).
  destruct (train_fit_sets_n_observables args l r' r1 res Hfit) as [Hn Hd1].
  assert (Hd : input_data_dict r' = input_data_dict rL)
    by apply (frame_run run_keeps_dict _ _ _ _ (frame_train_prepare args) Hprep).
  assert (Hself : features (self rL) = features (self r)).
  { pose proof (train_load_self args input r) as Hs. rewrite Hload in Hs.
    simpl in Hs. rewrite Hs. reflexivity. }
  rewrite Hself in Hcount.
  destruct (features (self r)) as [| idx | v]; [| | exact I].
  - exists (l_n_observables l). rewrite Hd1, Hd. split; assumption.
  - rewrite Hn, Hcount. reflexivity.
Qed.

Lemma train_records_observable_count_witness :
  exists c : nat,
    shape1_of (dict_get (input_data_dict (snd Demo.first_train)) "X_train") = Ok c /\
    n_observables (self (snd Demo.first_train)) = Some (Z.of_nat c).
Proof.
  assert (Hrun : @train Demo.externals Demo.carl ADict (Demo.run0 Demo.fresh Demo.bundle)
                 = (Ok tt, snd Demo.first_train)) by (vm_compute; reflexivity).
  exact (@train_records_observable_count Demo.externals Demo.carl ADict
           (Demo.run0 Demo.fresh Demo.bundle) (snd Demo.first_train) tt Hrun).
Defined.

(** ** Training: the scaler and the model across calls *)

Section Retrain.
Context `{Externals}.

Lemma keeps_scaling_refl e : keeps_scaling e e.
Proof. intros m s Hm Hs. auto. Qed.

Lemma keeps_scaling_trans a b c :
  keeps_scaling a b -> keeps_scaling b c -> keeps_scaling a c.
Proof. intros Hab Hbc m s Hm Hs. destruct (Hab m s Hm Hs) as [Hm' Hs']. auto. Qed.

Lemma scaling_initialize_input_transform x transform :
  frame keeps_scaling (initialize_input_transform x transform false).
Proof.
  intros e m s Hm Hs.
  unfold initialize_input_transform, bind, gets, modify, lift, ret. simpl.
  rewrite Hm, Hs. simpl. auto.
Qed.

Lemma scaling_transform_inputs x : frame keeps_scaling (_transform_inputs x).
Proof.
  intros e. unfold _transform_inputs, bind, gets, lift. simpl. apply keeps_scaling_refl.
Qed.

Lemma scaling_check_consistency n : frame keeps_scaling (check_consistency n).
Proof.
  intros e m s Hm Hs. unfold check_consistency, bind, gets, modify, ret, raise. simpl.
  destruct (n_observables e) as [k |] eqn:Hk; simpl.
  - rewrite Hk. case_bool_decide; simpl; auto.
  - rewrite bool_decide_true by reflexivity. simpl. auto.
Qed.

Lemma scaling_create_model : frame keeps_scaling _create_model.
Proof.
  intros e m s Hm Hs. unfold _create_model, bind, gets, modify, lift. simpl.
  destruct (RatioModel _ _ _ _); simpl; auto.
Qed.

Lemma scaling_set_model m : frame keeps_scaling (modify (set_model m)).
Proof. intros e ms ss Hm Hs. unfold modify. simpl. auto. Qed.

Lemma run_keeps_scaling_refl r : run_keeps_scaling r r.
Proof. apply keeps_scaling_refl. Qed.

Lemma run_keeps_scaling_trans a b c :
  run_keeps_scaling a b -> run_keeps_scaling b c -> run_keeps_scaling a c.
Proof. apply keeps_scaling_trans. Qed.

Lemma scaling_on_self {A} (c : M Estimator A) :
  frame keeps_scaling c -> frame run_keeps_scaling (on_self c).
Proof.
  intros Hc. unfold on_self. eapply frame_zoom; [| exact Hc].
  intros r e' He. exact He.
Qed.

Lemma scaling_log ev : frame run_keeps_scaling (log ev).
Proof. intros r. unfold log, modify. simpl. apply keeps_scaling_refl. Qed.
End Retrain.

Ltac scaling_step :=
  first
    [ apply (frame_ret _ (@run_keeps_scaling_refl _))
    | apply (frame_raise _ (@run_keeps_scaling_refl _))
    | apply (frame_lift _ (@run_keeps_scaling_refl _))
    | apply (frame_gets _ (@run_keeps_scaling_refl _))
    | apply scaling_log
    | apply scaling_on_self;
      first [ apply scaling_initialize_input_transform
            | apply scaling_transform_inputs
            | apply scaling_check_consistency
            | apply scaling_create_model
            | apply scaling_set_model
            | apply (frame_gets _ (@keeps_scaling_refl _)) ]
    | apply (frame_bind _ (@run_keeps_scaling_trans _)); [| intros ?]
    | match goal with
      | |- frame _ (if ?b then _ else _) => destruct b
      | |- frame _ (match ?x with _ => _ end) => destruct x
      end ].

Section RetrainScaling.
Context `{Externals}.

Lemma scaling_train_prepare args : frame run_keeps_scaling (train_prepare args).
Proof. unfold train_prepare. repeat scaling_step. Qed.

Lemma scaling_train_fit args l : frame run_keeps_scaling (train_fit args l).
Proof. unfold train_fit. repeat scaling_step. Qed.

End RetrainScaling.

(** Training never refits a stored input scaling.  When the estimator holds
    both scaling statistics, any [train] call, on whatever data and whether
    it returns or raises, leaves both exactly as they were. *)
Theorem retraining_keeps_scaling `{Externals}
    (args : train_args Opaque) (input : train_input) (r : Run) (m s : list Q) :
  x_scaling_means (self r) = Some m -> x_scaling_stds (self r) = Some s ->
  x_scaling_means (self (snd (train args input r))) = Some m /\
  x_scaling_stds (self (snd (train args input r))) = Some s.
Proof.
  intros Hm Hs. cut (run_keeps_scaling r (snd (train args input r)));
    [intros Hk; exact (Hk m s Hm Hs) |].
  rewrite train_split.
  assert (Hreach : run_keeps_scaling r (snd (train_reach args input r))).
  { unfold train_reach, bind.
    pose proof (train_load_self args input r) as Hself.
    destruct (train_load args input r) as [[[] | err] rL]; simpl in *.
    - pose proof (scaling_train_prepare args rL) as Hp.
      unfold run_keeps_scaling in *. rewrite Hself in Hp. exact Hp.
    - unfold run_keeps_scaling. rewrite Hself. apply keeps_scaling_refl. }
  destruct (train_reach args input r) as [[l | e] r']; simpl in *; [| exact Hreach].
  eapply run_keeps_scaling_trans; [exact Hreach |].
  apply (scaling_train_fit args l r').
Qed.

(** A second call on other data keeps the statistics fitted by the first. *)
Lemma retraining_keeps_scaling_witness :
  let again := @train Demo.externals Demo.carl ADict
                 (Demo.run0 Demo.trained (<["X_train" := DArr Demo.x1_2rows]> Demo.bundle)) in
  x_scaling_means (self (snd again)) = x_scaling_means Demo.trained /\
  x_scaling_stds (self (snd again)) = x_scaling_stds Demo.trained.
Proof.
  intros again.
  assert (Hm : x_scaling_means Demo.trained = Some [4 # 2; 40 # 2]%Q)
    by (vm_compute; reflexivity).
  assert (Hs : x_scaling_stds Demo.trained = Some [1; 10]%Q)
    by (vm_compute; reflexivity).
  rewrite Hm, Hs.
  exact (@retraining_keeps_scaling Demo.externals Demo.carl ADict
           (Demo.run0 Demo.trained (<["X_train" := DArr Demo.x1_2rows]> Demo.bundle))
           [4 # 2; 40 # 2]%Q [1; 10]%Q Hm Hs).
Defined.

(** ** Training: what reaches the model, the loss factory and the trainer *)

Section Fit.
Context `{Externals}.

Lemma same_self_refl r : same_self r r.
Proof. reflexivity. Qed.

Lemma same_self_trans a b c : same_self a b -> same_self b c -> same_self a c.
Proof. unfold same_self. congruence. Qed.

Lemma same_self_log ev : frame same_self (log ev).
Proof. intros r. reflexivity. Qed.

Lemma model_check_consistency n e :
  model (snd (check_consistency n e)) = model e.
Proof.
  unfold check_consistency, bind, gets, modify, ret, raise. simpl.
  destruct (n_observables e) as [k |] eqn:Hk; simpl.
  - rewrite Hk. case_bool_decide; reflexivity.
  - rewrite bool_decide_true by reflexivity. reflexivity.
Qed.

(** The data handed to the trainer are the locals of the call. *)
Lemma within_train_fit_data args (l : locals) :
  frame (calls_within (fit_data_from l)) (train_fit args l).
Proof.
  unfold train_fit.
  repeat (within_step (fit_data_from l) ltac:(simpl; auto)).
Qed.
End Fit.

Ltac same_self_step :=
  first
    [ apply (frame_ret _ (@same_self_refl _))
    | apply (frame_raise _ (@same_self_refl _))
    | apply (frame_lift _ (@same_self_refl _))
    | apply (frame_gets _ (@same_self_refl _))
    | apply same_self_log
    | apply (frame_bind _ (@same_self_trans _)); [| intros ?]
    | match goal with
      | |- frame _ (if ?b then _ else _) => destruct b
      | |- frame _ (match ?x with _ => _ end) => destruct x
      end ].

Section FitInversion.
Context `{Externals}.

(** A [train_fit] that returns: the consistency check passed, the model in
    use is the stored one or, with none stored, the one built from the
    configuration, and the trainer was run on it with the locals' data. *)
Lemma train_fit_ok_inv args (l : locals) (r r1 : Run) res :
  train_fit args l r = (Ok res, r1) ->
  exists (e1 : Estimator) (m0 : Model) (req : fit_request Opaque),
    check_consistency (Z.of_nat (l_n_observables l)) (self r) = (Ok tt, e1) /\
    match model e1 with
    | Some m => m0 = m
    | None =>
        RatioModel (n_observables e1) (n_hidden e1) (activation e1) (dropout_prob e1)
        = Ok m0 /\
        In (CallRatioModel (n_observables e1) (n_hidden e1) (activation e1)
              (dropout_prob e1)) (calls r1)
    end /\
    In (CallTrainer req) (calls r1) /\
    fr_data _ req = TrainingData (l_x l) (l_y l) (l_w l) /\
    fst (trainer_train m0 (n_workers _ args) req) = Ok res /\
    model (self r1) = Some (snd (trainer_train m0 (n_workers _ args) req)).
Proof.
  intros Hrun. unfold train_fit in Hrun.
  apply bind_ok_inv in Hrun as ([] & s1 & Hcheck & Hrun).
  unfold on_self, zoom in Hcheck.
  destruct (check_consistency _ (self r)) as [[[] | err] e1] eqn:Hc; [| discriminate].
  injection Hcheck as Hs1.
  apply bind_ok_inv in Hrun as (e & s2 & Hget & Hrun).
  unfold gets in Hget. injection Hget as He Hs2. subst s2.
  assert (He1 : e = e1) by (subst e s1; reflexivity).
  apply bind_ok_inv in Hrun as ([] & s3 & Hmodel & Hrun).
  (* the steps between model creation and the trainer leave the estimator *)
  apply bind_ok_inv in Hrun as (w & s4 & H4 & Hrun).
  apply bind_ok_inv in Hrun as ([] & s5 & H5 & Hrun).
  apply bind_ok_inv in Hrun as (losses & s6 & H6 & Hrun).
  apply bind_ok_inv in Hrun as ([] & s7 & H7 & Hrun).
  apply bind_ok_inv in Hrun as (o & s8 & H8 & Hrun).
  apply bind_ok_inv in Hrun as (kw & s9 & H9 & Hrun).
  apply bind_ok_inv in Hrun as (fdata & s10 & H10 & Hrun).
  apply bind_ok_inv in Hrun as (e' & s11 & H11 & Hrun).
  unfold gets in H11. injection H11 as He' Hs11. subst s11.
  assert (Hself : self s10 = self s3).
  { assert (F4 : same_self s3 s4)
      by (eapply (frame_run same_self); [| exact H4]; repeat same_self_step).
    assert (F5 : same_self s4 s5)
      by (eapply (frame_run same_self); [| exact H5]; repeat same_self_step).
    assert (F6 : same_self s5 s6)
      by (eapply (frame_run same_self); [| exact H6]; repeat same_self_step).
    assert (F7 : same_self s6 s7)
      by (eapply (frame_run same_self); [| exact H7]; repeat same_self_step).
    assert (F8 : same_self s7 s8)
      by (eapply (frame_run same_self); [| exact H8]; repeat same_self_step).
    assert (F9 : same_self s8 s9)
      by (eapply (frame_run same_self); [| exact H9]; repeat same_self_step).
    assert (F10 : same_self s9 s10)
      by (eapply (frame_run same_self); [| exact H10]; repeat same_self_step).
    unfold same_self in *. congruence. }
  assert (Hgrow : calls_grow s3 s10).
  { assert (G4 : calls_grow s3 s4)
      by (eapply (frame_run calls_grow); [| exact H4]; repeat grow_step).
    assert (G5 : calls_grow s4 s5)
      by (eapply (frame_run calls_grow); [| exact H5]; repeat grow_step).
    assert (G6 : calls_grow s5 s6)
      by (eapply (frame_run calls_grow); [| exact H6]; repeat grow_step).
    assert (G7 : calls_grow s6 s7)
      by (eapply (frame_run calls_grow); [| exact H7]; repeat grow_step).
    assert (G8 : calls_grow s7 s8)
      by (eapply (frame_run calls_grow); [| exact H8]; repeat grow_step).
    assert (G9 : calls_grow s8 s9)
      by (eapply (frame_run calls_grow); [| exact H9]; repeat grow_step).
    assert (G10 : calls_grow s9 s10)
      by (eapply (frame_run calls_grow); [| exact H10]; repeat grow_step).
    intros ev Hev. auto 10. }
  destruct (model e') as [m0 |] eqn:Hm0; [| discriminate].
  apply bind_ok_inv in Hrun as ([] & s12 & Hlog & Hrun).
  apply bind_ok_inv in Hrun as ([] & s13 & Hset & Hrun).
  unfold lift in Hrun. injection Hrun as Hres Hr1. subst s13.
  unfold log, modify in Hlog. injection Hlog as Hs12.
  unfold on_self, zoom, modify in Hset. simpl in Hset. injection Hset as Hr1.
  match type of Hres with
  | fst (trainer_train _ _ ?q) = _ => set (req := q) in *
  end.
  exists e1, m0, req.
  assert (Hcalls1 : calls r1 = (calls s10 ++ [CallTrainer req])%list).
  { subst r1 s12. reflexivity. }
  split; [reflexivity |]. split; [| split; [| split; [| split]]].
  - (* the model in use *)
    rewrite He1 in Hmodel.
    assert (Hm3 : model (self s3) = Some m0) by (rewrite <- Hself, He'; exact Hm0).
    destruct (model e1) as [m |] eqn:Hme1; simpl in Hmodel.
    + unfold ret in Hmodel. injection Hmodel as Hs3. subst s3 s1. simpl in Hm3.
      congruence.
    + apply bind_ok_inv in Hmodel as ([] & sa & Hlg & Hcreate).
      unfold log, modify in Hlg. injection Hlg as Hsa.
      unfold on_self, zoom, _create_model, bind, gets, lift, modify in Hcreate.
      subst sa s1. simpl in Hcreate.
      destruct (RatioModel _ _ _ _) as [mb |] eqn:Hbuild; [| discriminate].
      simpl in Hcreate. injection Hcreate as Hs3. subst s3. simpl in Hm3.
      split; [congruence |].
      rewrite Hcalls1. apply in_or_app. left. apply Hgrow. simpl.
      apply in_or_app. right. left. reflexivity.
  - rewrite Hcalls1. apply in_or_app. right. left. reflexivity.
  - reflexivity.
  - exact Hres.
  - subst r1. reflexivity.
Qed.
End FitInversion.

Section ModelKept.
Context `{Externals}.

Lemma same_model_refl e : same_model e e.
Proof. reflexivity. Qed.

Lemma same_model_trans a b c : same_model a b -> same_model b c -> same_model a c.
Proof. unfold same_model. congruence. Qed.

Lemma run_same_model_refl r : run_same_model r r.
Proof. reflexivity. Qed.

Lemma run_same_model_trans a b c :
  run_same_model a b -> run_same_model b c -> run_same_model a c.
Proof. apply same_model_trans. Qed.

Lemma model_initialize_input_transform x transform overwrite :
  frame same_model (initialize_input_transform x transform overwrite).
Proof.
  intros e. unfold initialize_input_transform, bind, gets, modify, lift, ret. simpl.
  destruct (not_None (x_scaling_stds e) && not_None (x_scaling_means e) && negb overwrite);
    [reflexivity |].
  destruct transform.
  - destruct (reduction_operand x); reflexivity.
  - destruct (shape0_of x); reflexivity.
Qed.

Lemma model_transform_inputs x : frame same_model (_transform_inputs x).
Proof. intros e. unfold _transform_inputs, bind, gets, lift. reflexivity. Qed.

Lemma model_on_self {A} (c : M Estimator A) :
  frame same_model c -> frame run_same_model (on_self c).
Proof.
  intros Hc. unfold on_self. eapply frame_zoom; [| exact Hc].
  intros r e' He. exact He.
Qed.

Lemma model_log ev : frame run_same_model (log ev).
Proof. intros r. reflexivity. Qed.
End ModelKept.

Ltac model_step :=
  first
    [ apply (frame_ret _ (@run_same_model_refl _))
    | apply (frame_raise _ (@run_same_model_refl _))
    | apply (frame_lift _ (@run_same_model_refl _))
    | apply (frame_gets _ (@run_same_model_refl _))
    | apply model_log
    | apply model_on_self;
      first [ apply model_initialize_input_transform
            | apply model_transform_inputs
            | apply (frame_gets _ (@same_model_refl _)) ]
    | apply (frame_bind _ (@run_same_model_trans _)); [| intros ?]
    | match goal with
      | |- frame _ (if ?b then _ else _) => destruct b
      | |- frame _ (match ?x with _ => _ end) => destruct x
      end ].

Section ModelInUse.
Context `{Externals}.

Lemma model_train_prepare args : frame run_same_model (train_prepare args).
Proof. unfold train_prepare. repeat model_step. Qed.

(** Up to the consistency check the model is not touched. *)
Lemma model_train_reach args input r :
  model (self (snd (train_reach args input r))) = model (self r).
Proof.
  unfold train_reach, bind.
  pose proof (train_load_self args input r) as Hself.
  destruct (train_load args input r) as [[[] | err] rL]; simpl in *.
  - pose proof (model_train_prepare args rL) as Hp.
    unfold run_same_model, same_model in Hp. rewrite Hp, Hself. reflexivity.
  - rewrite Hself. reflexivity.
Qed.

(** With a model stored, [train_fit] builds none. *)
Lemma within_train_fit_stored args (l : locals) (r : Run) (m : Model) :
  model (self r) = Some m ->
  calls_within no_model_built r (snd (train_fit args l r)).
Proof.
  intros Hm. unfold train_fit. unfold bind at 1.
  pose proof (on_self_calls (check_consistency (Z.of_nat (l_n_observables l))) r) as Hcalls.
  assert (Hmodel : model (self (snd (on_self (check_consistency
                      (Z.of_nat (l_n_observables l))) r))) = Some m).
  { unfold on_self, zoom.
    pose proof (model_check_consistency (Z.of_nat (l_n_observables l)) (self r)) as Hk.
    destruct (check_consistency _ (self r)) as [out e1]. simpl in *. congruence. }
  destruct (on_self (check_consistency (Z.of_nat (l_n_observables l))) r)
    as [[[] | err] s1]; simpl in Hcalls, Hmodel.
  - cbv zeta. unfold bind at 1, gets at 1. cbn [fst snd].
    rewrite Hmodel. cbn [not_None]. unfold bind at 1, ret at 1. cbn [fst snd].
    intros ev Hev.
    match type of Hev with
    | In _ (calls (snd (?c s1))) =>
        assert (Hf : frame (calls_within no_model_built) c)
          by (repeat (within_step no_model_built ltac:(exact I)))
    end.
    destruct (Hf s1 ev Hev) as [Hold | Hnew]; [left; congruence | right; exact Hnew].
  - simpl. intros ev Hev. left. congruence.
Qed.
End ModelInUse.

(** The model a returning [train] call works on.  The value returned is the
    trainer's, the trainer was called, and the model left in the
    estimator is what the trainer made of its starting model.  With a model
    stored, the starting model is the stored one and no network is built;
    with none, it is the network built from the estimator's [n_hidden],
    [activation] and [dropout_prob] and the observable count of this call. *)
Theorem train_model_in_use `{Externals}
    (args : train_args Opaque) (input : train_input) (r r1 : Run) (res : Opaque) :
  train args input r = (Ok res, r1) ->
  exists (m0 : Model) (req : fit_request Opaque),
    In (CallTrainer req) (calls r1) /\
    fst (trainer_train m0 (n_workers _ args) req) = Ok res /\
    model (self r1) = Some (snd (trainer_train m0 (n_workers _ args) req)) /\
    match model (self r) with
    | Some m =>
        m0 = m /\
        forall n h a d, In (CallRatioModel n h a d) (calls r1) ->
                        In (CallRatioModel n h a d) (calls r)
    | None =>
        RatioModel (n_observables (self r1)) (n_hidden (self r)) (activation (self r))
          (dropout_prob (self r)) = Ok m0 /\
        In (CallRatioModel (n_observables (self r1)) (n_hidden (self r))
              (activation (self r)) (dropout_prob (self r))) (calls r1)
    end.
Proof.
  intros Hrun.
  pose proof (train_split args input r) as Hsplit. rewrite Hrun in Hsplit.
  pose proof (model_train_reach args input r) as Hmodel.
  pose proof (frame_train_reach args input r) as Hcfg.
  pose proof (within_train_reach args input r) as Hcalls.
  destruct (train_reach args input r) as [[l | err] r'] eqn:Hreach; [| discriminate].
  simpl in Hmodel, Hcfg, Hcalls. symmetry in Hsplit.
  destruct (train_fit_ok_inv args l r' r1 res Hsplit)
    as (e1 & m0 & req & Hcheck & Huse & Hcalled & _ & Hres & Hleft).
  exists m0, req. split; [exact Hcalled |]. split; [exact Hres |].
  split; [exact Hleft |].
  pose proof (model_check_consistency (Z.of_nat (l_n_observables l)) (self r')) as Hm1.
  pose proof (frame_check_consistency (Z.of_nat (l_n_observables l)) (self r')) as Hc1.
  rewrite Hcheck in Hm1, Hc1. simpl in Hm1, Hc1.
  rewrite Hm1, Hmodel in Huse.
  destruct (model (self r)) as [m |] eqn:Hm.
  - split; [exact Huse |]. intros n h a d Hin.
    assert (Hm' : model (self r') = Some m) by congruence.
    pose proof (within_train_fit_stored args l r' m Hm') as Hfit.
    rewrite Hsplit in Hfit. simpl in Hfit.
    destruct (Hfit _ Hin) as [Hold | []].
    destruct (Hcalls _ Hold) as [Hold0 | []]. exact Hold0.
  - destruct (train_fit_sets_n_observables args l r' r1 res Hsplit) as [Hn1 _].
    rewrite (check_consistency_ok _ _ _ Hcheck) in Huse. rewrite Hn1.
    destruct Hcfg as (_ & Hh & Ha & Hd & _), Hc1 as (_ & Hh1 & Ha1 & Hd1 & _).
    unfold run_keeps in *.
    rewrite Hh1, Ha1, Hd1, Hh, Ha, Hd in Huse. exact Huse.
Qed.

(** The first call of the closed world builds the network from the default
    configuration and the two observables of its data. *)
Lemma train_model_in_use_witness :
  exists (m0 : @Model Demo.externals) (req : fit_request (@Opaque Demo.externals)),
    In (CallTrainer req) (calls (snd Demo.first_train)) /\
    fst (@trainer_train Demo.externals m0 8 req) = Ok tt /\
    model Demo.trained = Some (snd (@trainer_train Demo.externals m0 8 req)) /\
    @RatioModel Demo.externals (n_observables Demo.trained) [100] "tanh" 0%Q = Ok m0 /\
    In (CallRatioModel (n_observables Demo.trained) [100] "tanh" 0%Q)
       (calls (snd Demo.first_train)).
Proof.
  assert (Hrun : @train Demo.externals Demo.carl ADict (Demo.run0 Demo.fresh Demo.bundle)
                 = (Ok tt, snd Demo.first_train)) by (vm_compute; reflexivity).
  exact (@train_model_in_use Demo.externals Demo.carl ADict
           (Demo.run0 Demo.fresh Demo.bundle) (snd Demo.first_train) tt Hrun).
Defined.

(** ** Training: the data the trainer sees *)

Section PreparedData.
Context `{Externals}.

Lemma untouched_refl e : untouched e e.
Proof. reflexivity. Qed.

Lemma untouched_transform_inputs x : frame untouched (_transform_inputs x).
Proof. intros e. reflexivity. Qed.

Lemma same_self_on_self {A} (c : M Estimator A) :
  frame untouched c -> frame same_self (on_self c).
Proof.
  intros Hc. unfold on_self. eapply frame_zoom; [| exact Hc].
  intros r e' He. exact He.
Qed.

(** A transform that returns has applied the stored statistics. *)
Lemma on_self_transform_inv (v v' : pydata) (s s' : Run) :
  on_self (_transform_inputs v) s = (Ok v', s') ->
  self s' = self s /\
  apply_scaling (x_scaling_means (self s)) (x_scaling_stds (self s)) v = Ok v'.
Proof.
  unfold on_self, zoom, _transform_inputs, bind, gets, lift. simpl.
  destruct (apply_scaling _ _ v) as [y |]; simpl; [| discriminate].
  intros Heq. injection Heq as <- <-. auto.
Qed.

(** Fitting with [overwrite=False] leaves both statistics stored. *)
Lemma initialize_input_transform_stored x (e e' : Estimator) :
  initialize_input_transform x true false e = (Ok tt, e') ->
  exists m s, x_scaling_means e' = Some m /\ x_scaling_stds e' = Some s.
Proof.
  unfold initialize_input_transform, bind, gets, modify, lift, ret. simpl.
  destruct (x_scaling_stds e) as [s |] eqn:Hs, (x_scaling_means e) as [m |] eqn:Hm;
    simpl.
  1: { intros Heq. injection Heq as <-. eauto. }
  all: destruct (reduction_operand x); simpl; [| discriminate];
    intros Heq; injection Heq as <-; simpl; eauto.
Qed.

Lemma apply_scaling_array m s x y :
  apply_scaling (Some m) (Some s) x = Ok y -> exists a, y = DArr a.
Proof.
  unfold apply_scaling. destruct (array_operand x) as [a |]; simpl; [| discriminate].
  destruct (np_sub a m) as [b |]; simpl; [| discriminate].
  destruct (np_idiv b s) as [c |]; simpl; [| discriminate].
  intros Heq. injection Heq as <-. eauto.
Qed.

Lemma apply_scaling_None means stds y :
  apply_scaling means stds DNone = Ok y -> y = DNone.
Proof.
  unfold apply_scaling. destruct means, stds; simpl; try discriminate;
    intros Heq; injection Heq as <-; reflexivity.
Qed.
End PreparedData.

Ltac unchanged_step :=
  first
    [ apply (frame_ret _ (@same_self_refl _))
    | apply (frame_raise _ (@same_self_refl _))
    | apply (frame_lift _ (@same_self_refl _))
    | apply (frame_gets _ (@same_self_refl _))
    | apply same_self_log
    | apply same_self_on_self;
      first [ apply untouched_transform_inputs
            | apply (frame_gets _ (@untouched_refl _)) ]
    | apply (frame_bind _ (@same_self_trans _)); [| intros ?]
    | match goal with
      | |- frame _ (if ?b then _ else _) => destruct b
      | |- frame _ (match ?x with _ => _ end) => destruct x
      end ].

Tactic Notation "unchanged_of" hyp(H) "as" ident(F) :=
  match type of H with
  | ?c ?s = (_, ?s') =>
      assert (F : same_self s s');
      [ eapply (frame_run same_self c); [ repeat unchanged_step | exact H ] | ]
  end.

Section PreparedInputs.
Context `{Externals}.

(** The arrays [train] has bound when it reaches the consistency check:
    [x] is [X_train], standardized with the statistics the estimator then
    holds when [scale_inputs] is set, and restricted to the feature columns;
    a class sample that is absent stays absent. *)
Lemma train_prepare_data args (r r' : Run) (l : locals) :
  train_prepare args r = (Ok l, r') ->
  (exists xs,
     (if scale_inputs args
      then exists m s,
          x_scaling_means (self r') = Some m /\ x_scaling_stds (self r') = Some s /\
          apply_scaling (Some m) (Some s) (dict_get (input_data_dict r) "X_train") = Ok xs
      else xs = dict_get (input_data_dict r) "X_train") /\
     restrict_columns (features (self r)) xs = Ok (l_x l)) /\
  (dict_get (input_data_dict r) "X0_train" = DNone -> l_x0 l = DNone) /\
  (dict_get (input_data_dict r) "X1_train" = DNone -> l_x1 l = DNone).
Proof.
  intros Hrun. unfold train_prepare in Hrun.
  apply bind_ok_inv in Hrun as (d & s1 & H1 & Hrun).
  unfold gets in H1. injection H1 as Hd Hs1. subst d s1.
  apply bind_ok_inv in Hrun as (n_samples & s2 & H2 & Hrun).
  unfold lift in H2. injection H2 as H2 Hs2. subst s2.
  apply bind_ok_inv in Hrun as (n & s3 & H3 & Hrun).
  unfold lift in H3. injection H3 as H3 Hs3. subst s3.
  apply bind_ok_inv in Hrun as (u4 & s4 & H4 & Hrun).
  apply bind_ok_inv in Hrun as (meta & s5 & H5 & Hrun).
  apply bind_ok_inv in Hrun as (scaled & s6 & H6 & Hrun).
  keeps_of H4 as K4. keeps_of H5 as K5. keeps_of H6 as K6.
  assert (Hfeat : features (self s6) = features (self r)).
  { destruct K4 as [(Ha & _) _], K5 as [(Hb & _) _], K6 as [(Hc & _) _].
    congruence. }
  destruct scaled as [[[xs x_val] x0] x1].
  (* after the scaling step the estimator is not touched *)
  assert (Hlast : self r' = self s6 /\
                  l_x0 l = x0 /\ l_x1 l = x1 /\
                  restrict_columns (features (self r)) xs = Ok (l_x l) \/
                  self r' = self s6 /\ l_x0 l = x0 /\ l_x1 l = x1 /\
                  features (self r) = FeatNone /\ l_x l = xs).
  { apply bind_ok_inv in Hrun as (f & s7 & H7 & Hrun).
    unfold on_self, zoom, gets in H7. simpl in H7. injection H7 as Hf Hs7.
    rewrite Hfeat in Hf. subst f.
    assert (Hs7' : self s7 = self s6) by (subst s7; reflexivity).
    destruct (features (self r)) as [| idx | v] eqn:Hfr.
    1: { right. unfold ret in Hrun. injection Hrun as Hl Hr'. subst l r'. simpl. auto. }
    all: left; apply bind_ok_inv in Hrun as (x' & s8 & H8 & Hrun);
      apply bind_ok_inv in Hrun as (n' & s9 & H9 & Hrun);
      apply bind_ok_inv in Hrun as (xv' & s10 & H10 & Hrun);
      unchanged_of H8 as U8; unchanged_of H9 as U9; unchanged_of H10 as U10;
      unfold ret in Hrun; injection Hrun as Hl Hr'; subst l r'; simpl;
      unfold lift in H8; injection H8 as H8 _;
      unfold same_self in *; repeat split; congruence. }
  assert (Hscaled :
    (if scale_inputs args
     then exists m s,
         x_scaling_means (self s6) = Some m /\ x_scaling_stds (self s6) = Some s /\
         apply_scaling (Some m) (Some s) (dict_get (input_data_dict r) "X_train") = Ok xs
     else xs = dict_get (input_data_dict r) "X_train") /\
    (dict_get (input_data_dict r) "X0_train" = DNone -> x0 = DNone) /\
    (dict_get (input_data_dict r) "X1_train" = DNone -> x1 = DNone)).
  { destruct (scale_inputs args).
    - apply bind_ok_inv in H6 as ([] & sa & Hinit & H6).
      apply bind_ok_inv in H6 as (xs' & sb & Htx & H6).
      apply bind_ok_inv in H6 as (xv & sc & Hxv & H6).
      apply bind_ok_inv in H6 as (plotting & sd & Hpl & H6).
      unfold on_self, zoom in Hinit.
      destruct (initialize_input_transform _ true false (self s5))
        as [[[] | err] ea] eqn:Hi; [| discriminate].
      injection Hinit as Hsa.
      destruct (initialize_input_transform_stored _ _ _ Hi) as (m & s & Hm & Hs).
      assert (Hea : self sa = ea) by (subst sa; reflexivity).
      destruct (on_self_transform_inv _ _ _ _ Htx) as [Hsb Happ].
      rewrite Hea, Hm, Hs in Happ.
      unchanged_of Hxv as Uc. unchanged_of Hpl as Ud.
      destruct plotting.
      + apply bind_ok_inv in H6 as (x0' & se & Hx0 & H6).
        apply bind_ok_inv in H6 as (x1' & sf & Hx1 & H6).
        apply bind_ok_inv in H6 as (e & sg & Hg & H6).
        apply bind_ok_inv in H6 as ([] & sh & Hplot & H6).
        destruct (on_self_transform_inv _ _ _ _ Hx0) as [Hse Happ0].
        destruct (on_self_transform_inv _ _ _ _ Hx1) as [Hsf Happ1].
        unchanged_of Hg as Ug. unchanged_of Hplot as Uh.
        unfold ret in H6. injection H6 as Hxs Hxv' Hx0' Hx1' Hs6.
        subst xs' xv x0' x1' sh. unfold same_self in *.
        assert (Hself6 : self s6 = ea) by congruence.
        split; [exists m, s; rewrite Hself6; auto |]. split.
        * intros H0. rewrite H0 in Happ0. apply apply_scaling_None in Happ0. exact Happ0.
        * intros H0. rewrite H0 in Happ1. apply apply_scaling_None in Happ1. exact Happ1.
      + unfold ret in H6. injection H6 as Hxs Hxv' Hx0' Hx1' Hs6.
        subst xs' xv x0 x1 sd. unfold same_self in *.
        assert (Hself6 : self s6 = ea) by congruence.
        split; [exists m, s; rewrite Hself6; auto |]. auto.
    - apply bind_ok_inv in H6 as ([] & sa & Hinit & H6).
      unfold ret in H6. injection H6 as Hxs Hxv' Hx0' Hx1' Hs6.
      subst xs x_val x0 x1. auto. }
  destruct Hscaled as (Hxs & Hx0 & Hx1).
  assert (Harr : exists a, xs = DArr a).
  { destruct (scale_inputs args).
    - destruct Hxs as (m & s & _ & _ & Happ). eapply apply_scaling_array. exact Happ.
    - subst xs. destruct (dict_get (input_data_dict r) "X_train"); try discriminate.
      eauto. }
  assert (Hself : self r' = self s6) by (destruct Hlast as [(Hs & _) | (Hs & _)]; exact Hs).
  split; [| split].
  - exists xs. split.
    + destruct (scale_inputs args); [| exact Hxs]. rewrite Hself. exact Hxs.
    + destruct Hlast as [(_ & _ & _ & Hr) | (_ & _ & _ & Hnone & Hlx)]; [exact Hr |].
      rewrite Hnone, Hlx. destruct Harr as [a ->]. reflexivity.
  - intros H0. destruct Hlast as [(_ & Hl0 & _) | (_ & Hl0 & _)]; rewrite Hl0; auto.
  - intros H0. destruct Hlast as [(_ & _ & Hl1 & _) | (_ & _ & Hl1 & _)]; rewrite Hl1; auto.
Qed.
End PreparedInputs.

Section Delivered.
Context `{Externals}.

(** A returning [train], cut at the consistency check. *)
Lemma train_ok_inv args input (r r1 : Run) res :
  train args input r = (Ok res, r1) ->
  exists rL r' l,
    train_load args input r = (Ok tt, rL) /\
    train_prepare args rL = (Ok l, r') /\
    train_fit args l r' = (Ok res, r1) /\
    self rL = self r /\
    input_data_dict r1 = input_data_dict rL /\
    (forall ev, In ev (calls r') -> In ev (calls r) \/ is_load ev).
Proof.
  intros Hrun. unfold train in Hrun.
  apply bind_ok_inv in Hrun as ([] & rL & Hload & Hrun).
  apply bind_ok_inv in Hrun as (l & r' & Hprep & Hfit).
  exists rL, r', l. split; [exact Hload |]. split; [exact Hprep |].
  split; [exact Hfit |]. split; [| split].
  - pose proof (train_load_self args input r) as Hs. rewrite Hload in Hs. exact Hs.
  - destruct (train_fit_sets_n_observables args l r' r1 res Hfit) as [_ Hd1].
    rewrite Hd1.
    apply (frame_run run_keeps_dict _ _ _ _ (frame_train_prepare args) Hprep).
  - intros ev Hev.
    pose proof (within_train_load args input r) as Hl. rewrite Hload in Hl.
    pose proof (within_train_prepare is_load args rL) as Hp. rewrite Hprep in Hp.
    simpl in Hl, Hp. destruct (Hp ev Hev) as [Hold | Hnew]; [| right; exact Hnew].
    apply Hl. exact Hold.
Qed.
End Delivered.

(** Labels and sample weights reach the collaborators as loaded.  After a
    [train] call that returns, with weights given ([w_train] not [None]):
    the loss factory was called with the loaded [w_train], the trainer was
    called with the loaded [y_train] and [w_train], and every call this
    [train] made to either carries exactly these. *)
Theorem train_passes_labels_and_weights `{Externals}
    (args : train_args Opaque) (input : train_input) (r r1 : Run) (res : Opaque) :
  train args input r = (Ok res, r1) ->
  dict_get (input_data_dict r1) "w_train" <> DNone ->
  let y := dict_get (input_data_dict r1) "y_train" in
  let w := dict_get (input_data_dict r1) "w_train" in
  In (CallGetLoss (method args) (alpha args) (SampleWeights w) (loss_type args))
     (calls r1) /\
  (exists req, In (CallTrainer req) (calls r1) /\
               data_y (fr_data _ req) = y /\ data_w (fr_data _ req) = w) /\
  (forall m a w' t, In (CallGetLoss m a w' t) (calls r1) ->
     In (CallGetLoss m a w' t) (calls r) \/ w' = SampleWeights w) /\
  (forall req, In (CallTrainer req) (calls r1) ->
     In (CallTrainer req) (calls r) \/
     (data_y (fr_data _ req) = y /\ data_w (fr_data _ req) = w)).
Proof.
  intros Hrun Hw y w.
  destruct (train_ok_inv args input r r1 res Hrun)
    as (rL & r' & l & Hload & Hprep & Hfit & _ & Hdict & Hcalls).
  destruct (train_prepare_locals args rL r' l Hprep) as (Hy & Hlw & _).
  rewrite <- Hdict in Hy, Hlw. fold y in Hy. fold w in Hlw.
  assert (Hloss : loss_weight_of (l_w l) (l_x0 l) (l_x1 l) = Ok (SampleWeights w)).
  { unfold loss_weight_of. rewrite Hlw. unfold w in *.
    destruct (dict_get (input_data_dict r1) "w_train"); try reflexivity.
    contradiction. }
  split; [| split; [| split]].
  - destruct (train_fit_calls_get_loss args l r' r1 res Hfit) as (w' & Hw' & Hin).
    rewrite Hloss in Hw'. injection Hw' as <-. exact Hin.
  - destruct (train_fit_ok_inv args l r' r1 res Hfit)
      as (e1 & m0 & req & _ & _ & Hin & Hdata & _).
    exists req. rewrite Hdata. simpl. auto.
  - intros m a w' t Hin.
    pose proof (within_train_fit args l r') as Hf. rewrite Hfit in Hf.
    destruct (Hf _ Hin) as [Hold | Hnew].
    + destruct (Hcalls _ Hold) as [Hold0 | []]. left. exact Hold0.
    + right. simpl in Hnew. congruence.
  - intros req Hin.
    pose proof (within_train_fit_data args l r') as Hf. rewrite Hfit in Hf.
    destruct (Hf _ Hin) as [Hold | Hnew].
    + destruct (Hcalls _ Hold) as [Hold0 | []]. left. exact Hold0.
    + right. simpl in Hnew. rewrite Hnew. simpl. auto.
Qed.

(** A bundle given by file names, with weights: the loss factory receives
    the weight array as loaded. *)
Lemma train_passes_labels_and_weights_witness :
  let out := @train Demo.externals Demo.carl ADict
               (Demo.run0 Demo.fresh Demo.bundle_paths) in
  In (CallGetLoss "carl" 1 (SampleWeights (DArr Demo.w_2)) "regular") (calls (snd out)).
Proof.
  intros out.
  assert (Hrun : @train Demo.externals Demo.carl ADict
                   (Demo.run0 Demo.fresh Demo.bundle_paths) = (Ok tt, snd out))
    by (vm_compute; reflexivity).
  assert (Hw : dict_get (input_data_dict (snd out)) "w_train" = DArr Demo.w_2)
    by (vm_compute; reflexivity).
  assert (Hne : dict_get (input_data_dict (snd out)) "w_train" <> DNone)
    by (rewrite Hw; discriminate).
  destruct (@train_passes_labels_and_weights Demo.externals Demo.carl ADict
              (Demo.run0 Demo.fresh Demo.bundle_paths) (snd out) tt Hrun Hne)
    as (Hin & _).
  rewrite Hw in Hin. exact Hin.
Defined.

(** Without sample weights the class samples are not optional.  If, once
    the bundle is loaded, [w_train] is [None] and [X0_train] or [X1_train]
    is absent or [None], the [train] call does not return. *)
Theorem train_without_weights_needs_class_samples `{Externals}
    (args : train_args Opaque) (input : train_input) (r : Run) :
  let out := train args input r in
  dict_get (input_data_dict (snd out)) "w_train" = DNone ->
  dict_get (input_data_dict (snd out)) "X0_train" = DNone \/
  dict_get (input_data_dict (snd out)) "X1_train" = DNone ->
  is_ok (fst out) = false.
Proof.
  intros out Hw Hx. unfold out in *.
  destruct (train args input r) as [[res | err] r1] eqn:Hrun; [| reflexivity].
  exfalso. simpl in Hw, Hx.
  destruct (train_ok_inv args input r r1 res Hrun)
    as (rL & r' & l & Hload & Hprep & Hfit & _ & Hdict & _).
  destruct (train_prepare_locals args rL r' l Hprep) as (_ & Hlw & _).
  destruct (train_prepare_data args rL r' l Hprep) as (_ & H0 & H1).
  rewrite <- Hdict in Hlw, H0, H1. rewrite Hw in Hlw.
  destruct (train_fit_calls_get_loss args l r' r1 res Hfit) as (w' & Hw' & _).
  unfold loss_weight_of in Hw'. rewrite Hlw in Hw'. simpl in Hw'.
  destruct Hx as [Hx | Hx].
  - rewrite (H0 Hx) in Hw'. discriminate.
  - rewrite (H1 Hx) in Hw'. destruct (py_len (l_x0 l)); discriminate.
Qed.

(** The three required keys alone, without weights. *)
Lemma train_without_weights_needs_class_samples_witness :
  let d := <["X_train" := DArr Demo.x_2x2]> (<["y_train" := DArr Demo.y_2]>
           (<["w_train" := DNone]> ∅)) in
  is_ok (fst (@train Demo.externals Demo.carl ADict (Demo.run0 Demo.fresh d))) = false.
Proof.
  intros d.
  assert (Hw : dict_get (input_data_dict
                 (snd (@train Demo.externals Demo.carl ADict (Demo.run0 Demo.fresh d))))
                 "w_train" = DNone) by (vm_compute; reflexivity).
  assert (Hx : dict_get (input_data_dict
                 (snd (@train Demo.externals Demo.carl ADict (Demo.run0 Demo.fresh d))))
                 "X0_train" = DNone) by (vm_compute; reflexivity).
  exact (@train_without_weights_needs_class_samples Demo.externals Demo.carl ADict
           (Demo.run0 Demo.fresh d) Hw (or_introl Hx)).
Defined.

(** What the trainer trains on.  After a [train] call that returns, the
    trainer was called with an [x] that is the loaded [X_train], first
    standardized with the statistics the estimator holds after the call when
    [scale_inputs] is set (left as loaded when it is not), then restricted
    to the estimator's feature columns. *)
Theorem trainer_sees_prepared_inputs `{Externals}
    (args : train_args Opaque) (input : train_input) (r r1 : Run) (res : Opaque) :
  train args input r = (Ok res, r1) ->
  exists (xs : pydata) (req : fit_request Opaque),
    In (CallTrainer req) (calls r1) /\
    (if scale_inputs args
     then exists m s,
         x_scaling_means (self r1) = Some m /\ x_scaling_stds (self r1) = Some s /\
         apply_scaling (Some m) (Some s) (dict_get (input_data_dict r1) "X_train") = Ok xs
     else xs = dict_get (input_data_dict r1) "X_train") /\
    restrict_columns (features (self r)) xs = Ok (data_x (fr_data _ req)).
Proof.
  intros Hrun.
  destruct (train_ok_inv args input r r1 res Hrun)
    as (rL & r' & l & Hload & Hprep & Hfit & Hself & Hdict & _).
  destruct (train_prepare_data args rL r' l Hprep) as ((xs & Hxs & Hrestrict) & _).
  destruct (train_fit_ok_inv args l r' r1 res Hfit)
    as (e1 & m0 & req & _ & _ & Hin & Hdata & _).
  exists xs, req. split; [exact Hin |]. rewrite Hdict. split.
  - destruct (scale_inputs args); [| exact Hxs].
    destruct Hxs as (m & s & Hm & Hs & Happ). exists m, s.
    destruct (scaling_train_fit args l r' m s Hm Hs) as [Hm1 Hs1].
    rewrite Hfit in Hm1, Hs1. auto.
  - rewrite Hdata. simpl. rewrite <- Hself. exact Hrestrict.
Qed.

(** The first call of the closed world: the trainer sees [X_train]
    standardized with the statistics fitted by that call. *)
Lemma trainer_sees_prepared_inputs_witness :
  exists (xs : pydata) (req : fit_request (@Opaque Demo.externals)),
    In (CallTrainer req) (calls (snd Demo.first_train)) /\
    (exists m s,
        x_scaling_means Demo.trained = Some m /\ x_scaling_stds Demo.trained = Some s /\
        apply_scaling (Some m) (Some s)
          (dict_get (input_data_dict (snd Demo.first_train)) "X_train") = Ok xs) /\
    @restrict_columns Demo.externals FeatNone xs = Ok (data_x (fr_data _ req)).
Proof.
  assert (Hrun : @train Demo.externals Demo.carl ADict (Demo.run0 Demo.fresh Demo.bundle)
                 = (Ok tt, snd Demo.first_train)) by (vm_compute; reflexivity).
  exact (@trainer_sees_prepared_inputs Demo.externals Demo.carl ADict
           (Demo.run0 Demo.fresh Demo.bundle) (snd Demo.first_train) tt Hrun).
Defined.

(** ** Loading: what it leaves alone *)

Section LoadFootprint.
Context `{Externals}.

Lemma keeps_files_refl d : keeps_files d d.
Proof. reflexivity. Qed.

Lemma keeps_files_trans a b c : keeps_files a b -> keeps_files b c -> keeps_files a c.
Proof. unfold keeps_files. congruence. Qed.

Lemma files_on_disk_self {A} (c : M Estimator A) : frame keeps_files (on_disk_self c).
Proof. intros d. unfold on_disk_self, zoom. destruct (c (d_self d)). reflexivity. Qed.
End LoadFootprint.

Ltac files_step :=
  first
    [ apply (frame_ret _ (@keeps_files_refl _))
    | apply (frame_raise _ (@keeps_files_refl _))
    | apply (frame_lift _ (@keeps_files_refl _))
    | apply (frame_gets _ (@keeps_files_refl _))
    | apply files_on_disk_self
    | apply (frame_try_except _ (@keeps_files_trans _))
    | apply (frame_bind _ (@keeps_files_trans _)); [| intros ?]
    | match goal with
      | |- frame _ (if ?b then _ else _) => destruct b
      | |- frame _ (match ?x with _ => _ end) => destruct x
      end ].

(** [load] only reads: whatever the files hold and however the call ends,
    no file is created or changed.  When the settings file is missing the
    call raises [FileNotFoundError] for that path and the estimator is
    exactly as before. *)
Theorem load_footprint `{Externals}
    (e : Estimator) (files : gmap string file) (filename : string) :
  let out := load filename (MkDisk e files) in
  d_files (snd out) = files /\
  (files !! (filename +:+ "_settings.json") = None ->
   out = (Raise (not_found (filename +:+ "_settings.json")), MkDisk e files)).
Proof.
  intros out. split.
  - assert (Hf : frame keeps_files (load filename)).
    { unfold load, json_load, np_load, torch_load. repeat files_step. }
    exact (Hf (MkDisk e files)).
  - intros Hnone. unfold out, load, json_load, bind, gets, raise. simpl.
    rewrite Hnone. reflexivity.
Qed.

(** Loading from a prefix under which nothing was saved. *)
Lemma load_footprint_witness :
  load "models/none" (MkDisk Demo.fresh ∅)
  = (Raise (not_found "models/none_settings.json"), MkDisk Demo.fresh ∅).
Proof.
  apply (proj2 (@load_footprint Demo.externals Demo.fresh ∅ "models/none")).
  reflexivity.
Defined.
